(** * BloodSync: matching and fulfilment ledger of [app.py] / [app_aws.py]

    A shallow embedding of the blood-bank application: the two static
    compatibility tables, the donor eligibility helpers, the matcher and the
    routes that mutate requests, assignments, donations and the inventory.

    Conventions of the embedding:
    - a Python [dict] keyed by strings is an insertion-ordered association
      list ([PyDict]); iteration order is insertion order, assignment to an
      existing key keeps its position;
    - Python [int] is [Z]; [str] is [string], holding the UTF-8 encoding of
      the text ([PyStr]);
    - the module-level dictionaries ([donors_db], [blood_inventory], ...) are
      the fields of one [State] record threaded through every route;
    - [datetime.now()], the generated identifiers and the parsed form fields
      are inputs of each route;
    - a record keeps the fields the modelled functions read or write; a key
      that some creation path leaves out (or sets to [None]) is an [option],
      a key that every creation path sets is a plain field (a dictionary
      read back without it behaves as one holding the [.get] default);
    - [float(form['weight']) < 50] is carried by the form as its boolean
      outcome. *)

From Stdlib Require Import ZArith List String Ascii Bool Lia Permutation Sorted.
Import ListNotations.
Local Open Scope string_scope.
Local Open Scope list_scope.
Local Open Scope Z_scope.

(* ================================================================== *)
(** ** Python dictionaries with string keys *)

Module PyDict.

Definition t (V : Type) : Type := list (string * V).

Definition empty {V} : t V := [].

(** [d.get(k)] *)
Fixpoint get {V} (d : t V) (k : string) : option V :=
  match d with
  | [] => None
  | (k', v) :: d' => if String.eqb k k' then Some v else get d' k
  end.

(** [k in d] *)
Definition mem {V} (d : t V) (k : string) : bool :=
  match get d k with Some _ => true | None => false end.

(** [d[k] = v]: overwrite in place, or append a new last entry. *)
Fixpoint set {V} (d : t V) (k : string) (v : V) : t V :=
  match d with
  | [] => [(k, v)]
  | (k', v') :: d' =>
      if String.eqb k k' then (k', v) :: d' else (k', v') :: set d' k v
  end.

(** [d.values()] *)
Definition values {V} (d : t V) : list V := map snd d.

Lemma get_set_same {V} (d : t V) k v : get (set d k v) k = Some v.
Proof.
  induction d as [|[k' v'] d IH]; simpl.
  - now rewrite String.eqb_refl.
  - destruct (String.eqb k k') eqn:E; simpl; rewrite E; auto.
Qed.

Lemma get_set_other {V} (d : t V) k k' v :
  k' <> k -> get (set d k v) k' = get d k'.
Proof.
  intros Hne. induction d as [|[k0 v0] d IH]; simpl.
  - apply String.eqb_neq in Hne. now rewrite Hne.
  - destruct (String.eqb k k0) eqn:E; simpl.
    + apply String.eqb_eq in E; subst k0.
      apply String.eqb_neq in Hne. now rewrite Hne.
    + destruct (String.eqb k' k0); auto.
Qed.

Lemma set_fresh {V} (d : t V) k v :
  get d k = None -> set d k v = d ++ [(k, v)].
Proof.
  induction d as [|[k0 v0] d IH]; simpl; intros H; auto.
  destruct (String.eqb k k0); [discriminate|].
  now rewrite IH.
Qed.

Lemma in_values_set {V} (d : t V) k v x :
  In x (values (set d k v)) -> x = v \/ In x (values d).
Proof.
  unfold values. induction d as [|[k0 v0] d IH]; simpl.
  - intros [H|[]]; auto.
  - destruct (String.eqb k k0); simpl; intros [H|H]; auto.
    destruct (IH H); auto.
Qed.

Lemma get_in_values {V} (d : t V) k v :
  get d k = Some v -> In v (values d).
Proof.
  unfold values. induction d as [|[k0 v0] d IH]; simpl; [discriminate|].
  destruct (String.eqb k k0); intros H; auto.
  injection H as ->; auto.
Qed.

End PyDict.

(* ================================================================== *)
(** ** Python strings: code points, [lower], [in], ordering

    A [str] is a sequence of Unicode code points.  It is held as its UTF-8
    encoding, a lone surrogate (which a [str] may contain) as the three
    bytes of its code point.  Two texts are equal, ordered, or one inside
    the other exactly when their encodings are, so [==], [<] and [in] act
    on the encodings; [lower] and the digits read by [strptime] act on the
    code points.  A string that is no such encoding stands for no Python
    text; its stray bytes pass through [lower] unchanged.

    The case tables are those of CPython 3.11 (Unicode 14.0.0). *)

Module PyStr.

Definition byte (c : ascii) : Z := Z.of_nat (nat_of_ascii c).

Definition of_byte (b : Z) : ascii := ascii_of_nat (Z.to_nat b).

Definition between (lo hi x : Z) : bool := (lo <=? x) && (x <=? hi).

Definition is_cont (b : Z) : bool := between 0x80 0xBF b.

Definition decode2 (b0 b1 : Z) : option Z :=
  let c := (b0 - 0xC0) * 64 + (b1 - 0x80) in
  if between 0xC0 0xDF b0 && is_cont b1 && (0x80 <=? c)
  then Some c else None.

Definition decode3 (b0 b1 b2 : Z) : option Z :=
  let c := (b0 - 0xE0) * 4096 + (b1 - 0x80) * 64 + (b2 - 0x80) in
  if between 0xE0 0xEF b0 && is_cont b1 && is_cont b2 && (0x800 <=? c)
  then Some c else None.

Definition decode4 (b0 b1 b2 b3 : Z) : option Z :=
  let c := (b0 - 0xF0) * 262144 + (b1 - 0x80) * 4096 + (b2 - 0x80) * 64
           + (b3 - 0x80) in
  if between 0xF0 0xF4 b0 && is_cont b1 && is_cont b2 && is_cont b3
     && between 0x10000 0x10FFFF c
  then Some c else None.

(** A byte on its own: an ASCII character is its own code point; any
    other byte belongs to no encoded code point and is kept as a negative
    number, which no table below holds. *)
Definition single (b : Z) : Z := if b <? 0x80 then b else b - 256.

(** The code points of a text. *)
Fixpoint codepoints (s : string) : list Z :=
  match s with
  | EmptyString => []
  | String c0 s1 =>
      match s1 with
      | EmptyString => single (byte c0) :: codepoints s1
      | String c1 s2 =>
          match decode2 (byte c0) (byte c1) with
          | Some c => c :: codepoints s2
          | None =>
              match s2 with
              | EmptyString => single (byte c0) :: codepoints s1
              | String c2 s3 =>
                  match decode3 (byte c0) (byte c1) (byte c2) with
                  | Some c => c :: codepoints s3
                  | None =>
                      match s3 with
                      | EmptyString => single (byte c0) :: codepoints s1
                      | String c3 s4 =>
                          match decode4 (byte c0) (byte c1) (byte c2)
                                        (byte c3) with
                          | Some c => c :: codepoints s4
                          | None => single (byte c0) :: codepoints s1
                          end
                      end
                  end
              end
          end
      end
  end.

Definition utf8 (c : Z) : list Z :=
  if c <? 0 then [c + 256]
  else if c <? 0x80 then [c]
  else if c <? 0x800 then [0xC0 + c / 64; 0x80 + c mod 64]
  else if c <? 0x10000
       then [0xE0 + c / 4096; 0x80 + (c / 64) mod 64; 0x80 + c mod 64]
  else [0xF0 + c / 262144; 0x80 + (c / 4096) mod 64;
        0x80 + (c / 64) mod 64; 0x80 + c mod 64].

(** The text made of the given code points. *)
Definition text (l : list Z) : string :=
  string_of_list_ascii (map of_byte (flat_map utf8 l)).

Definition in_ranges (c : Z) (ranges : list (Z * Z)) : bool :=
  existsb (fun r => between (fst r) (snd r) c) ranges.

(** The code points with the property [Cased]. *)
Definition cased_ranges : list (Z * Z) :=
[ (0x41, 0x5A); (0x61, 0x7A); (0xAA, 0xAA); (0xB5, 0xB5); (0xBA, 0xBA);
  (0xC0, 0xD6); (0xD8, 0xF6); (0xF8, 0x1BA); (0x1BC, 0x1BF); (0x1C4, 0x293);
  (0x295, 0x2B8); (0x2C0, 0x2C1); (0x2E0, 0x2E4); (0x345, 0x345);
  (0x370, 0x373); (0x376, 0x377); (0x37A, 0x37D); (0x37F, 0x37F);
  (0x386, 0x386); (0x388, 0x38A); (0x38C, 0x38C); (0x38E, 0x3A1);
  (0x3A3, 0x3F5); (0x3F7, 0x481); (0x48A, 0x52F); (0x531, 0x556);
  (0x560, 0x588); (0x10A0, 0x10C5); (0x10C7, 0x10C7); (0x10CD, 0x10CD);
  (0x10D0, 0x10FA); (0x10FD, 0x10FF); (0x13A0, 0x13F5); (0x13F8, 0x13FD);
  (0x1C80, 0x1C88); (0x1C90, 0x1CBA); (0x1CBD, 0x1CBF); (0x1D00, 0x1DBF);
  (0x1E00, 0x1F15); (0x1F18, 0x1F1D); (0x1F20, 0x1F45); (0x1F48, 0x1F4D);
  (0x1F50, 0x1F57); (0x1F59, 0x1F59); (0x1F5B, 0x1F5B); (0x1F5D, 0x1F5D);
  (0x1F5F, 0x1F7D); (0x1F80, 0x1FB4); (0x1FB6, 0x1FBC); (0x1FBE, 0x1FBE);
  (0x1FC2, 0x1FC4); (0x1FC6, 0x1FCC); (0x1FD0, 0x1FD3); (0x1FD6, 0x1FDB);
  (0x1FE0, 0x1FEC); (0x1FF2, 0x1FF4); (0x1FF6, 0x1FFC); (0x2071, 0x2071);
  (0x207F, 0x207F); (0x2090, 0x209C); (0x2102, 0x2102); (0x2107, 0x2107);
  (0x210A, 0x2113); (0x2115, 0x2115); (0x2119, 0x211D); (0x2124, 0x2124);
  (0x2126, 0x2126); (0x2128, 0x2128); (0x212A, 0x212D); (0x212F, 0x2134);
  (0x2139, 0x2139); (0x213C, 0x213F); (0x2145, 0x2149); (0x214E, 0x214E);
  (0x2160, 0x217F); (0x2183, 0x2184); (0x24B6, 0x24E9); (0x2C00, 0x2CE4);
  (0x2CEB, 0x2CEE); (0x2CF2, 0x2CF3); (0x2D00, 0x2D25); (0x2D27, 0x2D27);
  (0x2D2D, 0x2D2D); (0xA640, 0xA66D); (0xA680, 0xA69D); (0xA722, 0xA787);
  (0xA78B, 0xA78E); (0xA790, 0xA7CA); (0xA7D0, 0xA7D1); (0xA7D3, 0xA7D3);
  (0xA7D5, 0xA7D9); (0xA7F5, 0xA7F6); (0xA7F8, 0xA7FA); (0xAB30, 0xAB5A);
  (0xAB5C, 0xAB68); (0xAB70, 0xABBF); (0xFB00, 0xFB06); (0xFB13, 0xFB17);
  (0xFF21, 0xFF3A); (0xFF41, 0xFF5A); (0x10400, 0x1044F);
  (0x104B0, 0x104D3); (0x104D8, 0x104FB); (0x10570, 0x1057A);
  (0x1057C, 0x1058A); (0x1058C, 0x10592); (0x10594, 0x10595);
  (0x10597, 0x105A1); (0x105A3, 0x105B1); (0x105B3, 0x105B9);
  (0x105BB, 0x105BC); (0x10780, 0x10780); (0x10783, 0x10785);
  (0x10787, 0x107B0); (0x107B2, 0x107BA); (0x10C80, 0x10CB2);
  (0x10CC0, 0x10CF2); (0x118A0, 0x118DF); (0x16E40, 0x16E7F);
  (0x1D400, 0x1D454); (0x1D456, 0x1D49C); (0x1D49E, 0x1D49F);
  (0x1D4A2, 0x1D4A2); (0x1D4A5, 0x1D4A6); (0x1D4A9, 0x1D4AC);
  (0x1D4AE, 0x1D4B9); (0x1D4BB, 0x1D4BB); (0x1D4BD, 0x1D4C3);
  (0x1D4C5, 0x1D505); (0x1D507, 0x1D50A); (0x1D50D, 0x1D514);
  (0x1D516, 0x1D51C); (0x1D51E, 0x1D539); (0x1D53B, 0x1D53E);
  (0x1D540, 0x1D544); (0x1D546, 0x1D546); (0x1D54A, 0x1D550);
  (0x1D552, 0x1D6A5); (0x1D6A8, 0x1D6C0); (0x1D6C2, 0x1D6DA);
  (0x1D6DC, 0x1D6FA); (0x1D6FC, 0x1D714); (0x1D716, 0x1D734);
  (0x1D736, 0x1D74E); (0x1D750, 0x1D76E); (0x1D770, 0x1D788);
  (0x1D78A, 0x1D7A8); (0x1D7AA, 0x1D7C2); (0x1D7C4, 0x1D7CB);
  (0x1DF00, 0x1DF09); (0x1DF0B, 0x1DF1E); (0x1E900, 0x1E943);
  (0x1F130, 0x1F149); (0x1F150, 0x1F169); (0x1F170, 0x1F189) ].

(** The code points with the property [Case_Ignorable]. *)
Definition case_ignorable_ranges : list (Z * Z) :=
[ (0x27, 0x27); (0x2E, 0x2E); (0x3A, 0x3A); (0x5E, 0x5E); (0x60, 0x60);
  (0xA8, 0xA8); (0xAD, 0xAD); (0xAF, 0xAF); (0xB4, 0xB4); (0xB7, 0xB8);
  (0x2B0, 0x36F); (0x374, 0x375); (0x37A, 0x37A); (0x384, 0x385);
  (0x387, 0x387); (0x483, 0x489); (0x559, 0x559); (0x55F, 0x55F);
  (0x591, 0x5BD); (0x5BF, 0x5BF); (0x5C1, 0x5C2); (0x5C4, 0x5C5);
  (0x5C7, 0x5C7); (0x5F4, 0x5F4); (0x600, 0x605); (0x610, 0x61A);
  (0x61C, 0x61C); (0x640, 0x640); (0x64B, 0x65F); (0x670, 0x670);
  (0x6D6, 0x6DD); (0x6DF, 0x6E8); (0x6EA, 0x6ED); (0x70F, 0x70F);
  (0x711, 0x711); (0x730, 0x74A); (0x7A6, 0x7B0); (0x7EB, 0x7F5);
  (0x7FA, 0x7FA); (0x7FD, 0x7FD); (0x816, 0x82D); (0x859, 0x85B);
  (0x888, 0x888); (0x890, 0x891); (0x898, 0x89F); (0x8C9, 0x902);
  (0x93A, 0x93A); (0x93C, 0x93C); (0x941, 0x948); (0x94D, 0x94D);
  (0x951, 0x957); (0x962, 0x963); (0x971, 0x971); (0x981, 0x981);
  (0x9BC, 0x9BC); (0x9C1, 0x9C4); (0x9CD, 0x9CD); (0x9E2, 0x9E3);
  (0x9FE, 0x9FE); (0xA01, 0xA02); (0xA3C, 0xA3C); (0xA41, 0xA42);
  (0xA47, 0xA48); (0xA4B, 0xA4D); (0xA51, 0xA51); (0xA70, 0xA71);
  (0xA75, 0xA75); (0xA81, 0xA82); (0xABC, 0xABC); (0xAC1, 0xAC5);
  (0xAC7, 0xAC8); (0xACD, 0xACD); (0xAE2, 0xAE3); (0xAFA, 0xAFF);
  (0xB01, 0xB01); (0xB3C, 0xB3C); (0xB3F, 0xB3F); (0xB41, 0xB44);
  (0xB4D, 0xB4D); (0xB55, 0xB56); (0xB62, 0xB63); (0xB82, 0xB82);
  (0xBC0, 0xBC0); (0xBCD, 0xBCD); (0xC00, 0xC00); (0xC04, 0xC04);
  (0xC3C, 0xC3C); (0xC3E, 0xC40); (0xC46, 0xC48); (0xC4A, 0xC4D);
  (0xC55, 0xC56); (0xC62, 0xC63); (0xC81, 0xC81); (0xCBC, 0xCBC);
  (0xCBF, 0xCBF); (0xCC6, 0xCC6); (0xCCC, 0xCCD); (0xCE2, 0xCE3);
  (0xD00, 0xD01); (0xD3B, 0xD3C); (0xD41, 0xD44); (0xD4D, 0xD4D);
  (0xD62, 0xD63); (0xD81, 0xD81); (0xDCA, 0xDCA); (0xDD2, 0xDD4);
  (0xDD6, 0xDD6); (0xE31, 0xE31); (0xE34, 0xE3A); (0xE46, 0xE4E);
  (0xEB1, 0xEB1); (0xEB4, 0xEBC); (0xEC6, 0xEC6); (0xEC8, 0xECD);
  (0xF18, 0xF19); (0xF35, 0xF35); (0xF37, 0xF37); (0xF39, 0xF39);
  (0xF71, 0xF7E); (0xF80, 0xF84); (0xF86, 0xF87); (0xF8D, 0xF97);
  (0xF99, 0xFBC); (0xFC6, 0xFC6); (0x102D, 0x1030); (0x1032, 0x1037);
  (0x1039, 0x103A); (0x103D, 0x103E); (0x1058, 0x1059); (0x105E, 0x1060);
  (0x1071, 0x1074); (0x1082, 0x1082); (0x1085, 0x1086); (0x108D, 0x108D);
  (0x109D, 0x109D); (0x10FC, 0x10FC); (0x135D, 0x135F); (0x1712, 0x1714);
  (0x1732, 0x1733); (0x1752, 0x1753); (0x1772, 0x1773); (0x17B4, 0x17B5);
  (0x17B7, 0x17BD); (0x17C6, 0x17C6); (0x17C9, 0x17D3); (0x17D7, 0x17D7);
  (0x17DD, 0x17DD); (0x180B, 0x180F); (0x1843, 0x1843); (0x1885, 0x1886);
  (0x18A9, 0x18A9); (0x1920, 0x1922); (0x1927, 0x1928); (0x1932, 0x1932);
  (0x1939, 0x193B); (0x1A17, 0x1A18); (0x1A1B, 0x1A1B); (0x1A56, 0x1A56);
  (0x1A58, 0x1A5E); (0x1A60, 0x1A60); (0x1A62, 0x1A62); (0x1A65, 0x1A6C);
  (0x1A73, 0x1A7C); (0x1A7F, 0x1A7F); (0x1AA7, 0x1AA7); (0x1AB0, 0x1ACE);
  (0x1B00, 0x1B03); (0x1B34, 0x1B34); (0x1B36, 0x1B3A); (0x1B3C, 0x1B3C);
  (0x1B42, 0x1B42); (0x1B6B, 0x1B73); (0x1B80, 0x1B81); (0x1BA2, 0x1BA5);
  (0x1BA8, 0x1BA9); (0x1BAB, 0x1BAD); (0x1BE6, 0x1BE6); (0x1BE8, 0x1BE9);
  (0x1BED, 0x1BED); (0x1BEF, 0x1BF1); (0x1C2C, 0x1C33); (0x1C36, 0x1C37);
  (0x1C78, 0x1C7D); (0x1CD0, 0x1CD2); (0x1CD4, 0x1CE0); (0x1CE2, 0x1CE8);
  (0x1CED, 0x1CED); (0x1CF4, 0x1CF4); (0x1CF8, 0x1CF9); (0x1D2C, 0x1D6A);
  (0x1D78, 0x1D78); (0x1D9B, 0x1DFF); (0x1FBD, 0x1FBD); (0x1FBF, 0x1FC1);
  (0x1FCD, 0x1FCF); (0x1FDD, 0x1FDF); (0x1FED, 0x1FEF); (0x1FFD, 0x1FFE);
  (0x200B, 0x200F); (0x2018, 0x2019); (0x2024, 0x2024); (0x2027, 0x2027);
  (0x202A, 0x202E); (0x2060, 0x2064); (0x2066, 0x206F); (0x2071, 0x2071);
  (0x207F, 0x207F); (0x2090, 0x209C); (0x20D0, 0x20F0); (0x2C7C, 0x2C7D);
  (0x2CEF, 0x2CF1); (0x2D6F, 0x2D6F); (0x2D7F, 0x2D7F); (0x2DE0, 0x2DFF);
  (0x2E2F, 0x2E2F); (0x3005, 0x3005); (0x302A, 0x302D); (0x3031, 0x3035);
  (0x303B, 0x303B); (0x3099, 0x309E); (0x30FC, 0x30FE); (0xA015, 0xA015);
  (0xA4F8, 0xA4FD); (0xA60C, 0xA60C); (0xA66F, 0xA672); (0xA674, 0xA67D);
  (0xA67F, 0xA67F); (0xA69C, 0xA69F); (0xA6F0, 0xA6F1); (0xA700, 0xA721);
  (0xA770, 0xA770); (0xA788, 0xA78A); (0xA7F2, 0xA7F4); (0xA7F8, 0xA7F9);
  (0xA802, 0xA802); (0xA806, 0xA806); (0xA80B, 0xA80B); (0xA825, 0xA826);
  (0xA82C, 0xA82C); (0xA8C4, 0xA8C5); (0xA8E0, 0xA8F1); (0xA8FF, 0xA8FF);
  (0xA926, 0xA92D); (0xA947, 0xA951); (0xA980, 0xA982); (0xA9B3, 0xA9B3);
  (0xA9B6, 0xA9B9); (0xA9BC, 0xA9BD); (0xA9CF, 0xA9CF); (0xA9E5, 0xA9E6);
  (0xAA29, 0xAA2E); (0xAA31, 0xAA32); (0xAA35, 0xAA36); (0xAA43, 0xAA43);
  (0xAA4C, 0xAA4C); (0xAA70, 0xAA70); (0xAA7C, 0xAA7C); (0xAAB0, 0xAAB0);
  (0xAAB2, 0xAAB4); (0xAAB7, 0xAAB8); (0xAABE, 0xAABF); (0xAAC1, 0xAAC1);
  (0xAADD, 0xAADD); (0xAAEC, 0xAAED); (0xAAF3, 0xAAF4); (0xAAF6, 0xAAF6);
  (0xAB5B, 0xAB5F); (0xAB69, 0xAB6B); (0xABE5, 0xABE5); (0xABE8, 0xABE8);
  (0xABED, 0xABED); (0xFB1E, 0xFB1E); (0xFBB2, 0xFBC2); (0xFE00, 0xFE0F);
  (0xFE13, 0xFE13); (0xFE20, 0xFE2F); (0xFE52, 0xFE52); (0xFE55, 0xFE55);
  (0xFEFF, 0xFEFF); (0xFF07, 0xFF07); (0xFF0E, 0xFF0E); (0xFF1A, 0xFF1A);
  (0xFF3E, 0xFF3E); (0xFF40, 0xFF40); (0xFF70, 0xFF70); (0xFF9E, 0xFF9F);
  (0xFFE3, 0xFFE3); (0xFFF9, 0xFFFB); (0x101FD, 0x101FD);
  (0x102E0, 0x102E0); (0x10376, 0x1037A); (0x10780, 0x10785);
  (0x10787, 0x107B0); (0x107B2, 0x107BA); (0x10A01, 0x10A03);
  (0x10A05, 0x10A06); (0x10A0C, 0x10A0F); (0x10A38, 0x10A3A);
  (0x10A3F, 0x10A3F); (0x10AE5, 0x10AE6); (0x10D24, 0x10D27);
  (0x10EAB, 0x10EAC); (0x10F46, 0x10F50); (0x10F82, 0x10F85);
  (0x11001, 0x11001); (0x11038, 0x11046); (0x11070, 0x11070);
  (0x11073, 0x11074); (0x1107F, 0x11081); (0x110B3, 0x110B6);
  (0x110B9, 0x110BA); (0x110BD, 0x110BD); (0x110C2, 0x110C2);
  (0x110CD, 0x110CD); (0x11100, 0x11102); (0x11127, 0x1112B);
  (0x1112D, 0x11134); (0x11173, 0x11173); (0x11180, 0x11181);
  (0x111B6, 0x111BE); (0x111C9, 0x111CC); (0x111CF, 0x111CF);
  (0x1122F, 0x11231); (0x11234, 0x11234); (0x11236, 0x11237);
  (0x1123E, 0x1123E); (0x112DF, 0x112DF); (0x112E3, 0x112EA);
  (0x11300, 0x11301); (0x1133B, 0x1133C); (0x11340, 0x11340);
  (0x11366, 0x1136C); (0x11370, 0x11374); (0x11438, 0x1143F);
  (0x11442, 0x11444); (0x11446, 0x11446); (0x1145E, 0x1145E);
  (0x114B3, 0x114B8); (0x114BA, 0x114BA); (0x114BF, 0x114C0);
  (0x114C2, 0x114C3); (0x115B2, 0x115B5); (0x115BC, 0x115BD);
  (0x115BF, 0x115C0); (0x115DC, 0x115DD); (0x11633, 0x1163A);
  (0x1163D, 0x1163D); (0x1163F, 0x11640); (0x116AB, 0x116AB);
  (0x116AD, 0x116AD); (0x116B0, 0x116B5); (0x116B7, 0x116B7);
  (0x1171D, 0x1171F); (0x11722, 0x11725); (0x11727, 0x1172B);
  (0x1182F, 0x11837); (0x11839, 0x1183A); (0x1193B, 0x1193C);
  (0x1193E, 0x1193E); (0x11943, 0x11943); (0x119D4, 0x119D7);
  (0x119DA, 0x119DB); (0x119E0, 0x119E0); (0x11A01, 0x11A0A);
  (0x11A33, 0x11A38); (0x11A3B, 0x11A3E); (0x11A47, 0x11A47);
  (0x11A51, 0x11A56); (0x11A59, 0x11A5B); (0x11A8A, 0x11A96);
  (0x11A98, 0x11A99); (0x11C30, 0x11C36); (0x11C38, 0x11C3D);
  (0x11C3F, 0x11C3F); (0x11C92, 0x11CA7); (0x11CAA, 0x11CB0);
  (0x11CB2, 0x11CB3); (0x11CB5, 0x11CB6); (0x11D31, 0x11D36);
  (0x11D3A, 0x11D3A); (0x11D3C, 0x11D3D); (0x11D3F, 0x11D45);
  (0x11D47, 0x11D47); (0x11D90, 0x11D91); (0x11D95, 0x11D95);
  (0x11D97, 0x11D97); (0x11EF3, 0x11EF4); (0x13430, 0x13438);
  (0x16AF0, 0x16AF4); (0x16B30, 0x16B36); (0x16B40, 0x16B43);
  (0x16F4F, 0x16F4F); (0x16F8F, 0x16F9F); (0x16FE0, 0x16FE1);
  (0x16FE3, 0x16FE4); (0x1AFF0, 0x1AFF3); (0x1AFF5, 0x1AFFB);
  (0x1AFFD, 0x1AFFE); (0x1BC9D, 0x1BC9E); (0x1BCA0, 0x1BCA3);
  (0x1CF00, 0x1CF2D); (0x1CF30, 0x1CF46); (0x1D167, 0x1D169);
  (0x1D173, 0x1D182); (0x1D185, 0x1D18B); (0x1D1AA, 0x1D1AD);
  (0x1D242, 0x1D244); (0x1DA00, 0x1DA36); (0x1DA3B, 0x1DA6C);
  (0x1DA75, 0x1DA75); (0x1DA84, 0x1DA84); (0x1DA9B, 0x1DA9F);
  (0x1DAA1, 0x1DAAF); (0x1E000, 0x1E006); (0x1E008, 0x1E018);
  (0x1E01B, 0x1E021); (0x1E023, 0x1E024); (0x1E026, 0x1E02A);
  (0x1E130, 0x1E13D); (0x1E2AE, 0x1E2AE); (0x1E2EC, 0x1E2EF);
  (0x1E8D0, 0x1E8D6); (0x1E944, 0x1E94B); (0x1F3FB, 0x1F3FF);
  (0xE0001, 0xE0001); (0xE0020, 0xE007F); (0xE0100, 0xE01EF) ].

(** The simple lowercase mappings, as runs [(first, last, step, delta)]:
    every [step]-th code point from [first] to [last] is mapped to itself
    plus [delta]. *)
Definition lower_runs : list (Z * Z * Z * Z) :=
[ (0x41, 0x5A, 1, 32); (0xC0, 0xD6, 1, 32); (0xD8, 0xDE, 1, 32);
  (0x100, 0x12E, 2, 1); (0x132, 0x136, 2, 1); (0x139, 0x147, 2, 1);
  (0x14A, 0x176, 2, 1); (0x178, 0x178, 1, (-121)); (0x179, 0x17D, 2, 1);
  (0x181, 0x181, 1, 210); (0x182, 0x184, 2, 1); (0x186, 0x186, 1, 206);
  (0x187, 0x187, 1, 1); (0x189, 0x18A, 1, 205); (0x18B, 0x18B, 1, 1);
  (0x18E, 0x18E, 1, 79); (0x18F, 0x18F, 1, 202); (0x190, 0x190, 1, 203);
  (0x191, 0x191, 1, 1); (0x193, 0x193, 1, 205); (0x194, 0x194, 1, 207);
  (0x196, 0x196, 1, 211); (0x197, 0x197, 1, 209); (0x198, 0x198, 1, 1);
  (0x19C, 0x19C, 1, 211); (0x19D, 0x19D, 1, 213); (0x19F, 0x19F, 1, 214);
  (0x1A0, 0x1A4, 2, 1); (0x1A6, 0x1A6, 1, 218); (0x1A7, 0x1A7, 1, 1);
  (0x1A9, 0x1A9, 1, 218); (0x1AC, 0x1AC, 1, 1); (0x1AE, 0x1AE, 1, 218);
  (0x1AF, 0x1AF, 1, 1); (0x1B1, 0x1B2, 1, 217); (0x1B3, 0x1B5, 2, 1);
  (0x1B7, 0x1B7, 1, 219); (0x1B8, 0x1B8, 1, 1); (0x1BC, 0x1BC, 1, 1);
  (0x1C4, 0x1C4, 1, 2); (0x1C5, 0x1C5, 1, 1); (0x1C7, 0x1C7, 1, 2);
  (0x1C8, 0x1C8, 1, 1); (0x1CA, 0x1CA, 1, 2); (0x1CB, 0x1DB, 2, 1);
  (0x1DE, 0x1EE, 2, 1); (0x1F1, 0x1F1, 1, 2); (0x1F2, 0x1F4, 2, 1);
  (0x1F6, 0x1F6, 1, (-97)); (0x1F7, 0x1F7, 1, (-56)); (0x1F8, 0x21E, 2, 1);
  (0x220, 0x220, 1, (-130)); (0x222, 0x232, 2, 1); (0x23A, 0x23A, 1, 10795);
  (0x23B, 0x23B, 1, 1); (0x23D, 0x23D, 1, (-163)); (0x23E, 0x23E, 1, 10792);
  (0x241, 0x241, 1, 1); (0x243, 0x243, 1, (-195)); (0x244, 0x244, 1, 69);
  (0x245, 0x245, 1, 71); (0x246, 0x24E, 2, 1); (0x370, 0x372, 2, 1);
  (0x376, 0x376, 1, 1); (0x37F, 0x37F, 1, 116); (0x386, 0x386, 1, 38);
  (0x388, 0x38A, 1, 37); (0x38C, 0x38C, 1, 64); (0x38E, 0x38F, 1, 63);
  (0x391, 0x3A1, 1, 32); (0x3A3, 0x3AB, 1, 32); (0x3CF, 0x3CF, 1, 8);
  (0x3D8, 0x3EE, 2, 1); (0x3F4, 0x3F4, 1, (-60)); (0x3F7, 0x3F7, 1, 1);
  (0x3F9, 0x3F9, 1, (-7)); (0x3FA, 0x3FA, 1, 1); (0x3FD, 0x3FF, 1, (-130));
  (0x400, 0x40F, 1, 80); (0x410, 0x42F, 1, 32); (0x460, 0x480, 2, 1);
  (0x48A, 0x4BE, 2, 1); (0x4C0, 0x4C0, 1, 15); (0x4C1, 0x4CD, 2, 1);
  (0x4D0, 0x52E, 2, 1); (0x531, 0x556, 1, 48); (0x10A0, 0x10C5, 1, 7264);
  (0x10C7, 0x10C7, 1, 7264); (0x10CD, 0x10CD, 1, 7264);
  (0x13A0, 0x13EF, 1, 38864); (0x13F0, 0x13F5, 1, 8);
  (0x1C90, 0x1CBA, 1, (-3008)); (0x1CBD, 0x1CBF, 1, (-3008));
  (0x1E00, 0x1E94, 2, 1); (0x1E9E, 0x1E9E, 1, (-7615));
  (0x1EA0, 0x1EFE, 2, 1); (0x1F08, 0x1F0F, 1, (-8));
  (0x1F18, 0x1F1D, 1, (-8)); (0x1F28, 0x1F2F, 1, (-8));
  (0x1F38, 0x1F3F, 1, (-8)); (0x1F48, 0x1F4D, 1, (-8));
  (0x1F59, 0x1F5F, 2, (-8)); (0x1F68, 0x1F6F, 1, (-8));
  (0x1F88, 0x1F8F, 1, (-8)); (0x1F98, 0x1F9F, 1, (-8));
  (0x1FA8, 0x1FAF, 1, (-8)); (0x1FB8, 0x1FB9, 1, (-8));
  (0x1FBA, 0x1FBB, 1, (-74)); (0x1FBC, 0x1FBC, 1, (-9));
  (0x1FC8, 0x1FCB, 1, (-86)); (0x1FCC, 0x1FCC, 1, (-9));
  (0x1FD8, 0x1FD9, 1, (-8)); (0x1FDA, 0x1FDB, 1, (-100));
  (0x1FE8, 0x1FE9, 1, (-8)); (0x1FEA, 0x1FEB, 1, (-112));
  (0x1FEC, 0x1FEC, 1, (-7)); (0x1FF8, 0x1FF9, 1, (-128));
  (0x1FFA, 0x1FFB, 1, (-126)); (0x1FFC, 0x1FFC, 1, (-9));
  (0x2126, 0x2126, 1, (-7517)); (0x212A, 0x212A, 1, (-8383));
  (0x212B, 0x212B, 1, (-8262)); (0x2132, 0x2132, 1, 28);
  (0x2160, 0x216F, 1, 16); (0x2183, 0x2183, 1, 1); (0x24B6, 0x24CF, 1, 26);
  (0x2C00, 0x2C2F, 1, 48); (0x2C60, 0x2C60, 1, 1);
  (0x2C62, 0x2C62, 1, (-10743)); (0x2C63, 0x2C63, 1, (-3814));
  (0x2C64, 0x2C64, 1, (-10727)); (0x2C67, 0x2C6B, 2, 1);
  (0x2C6D, 0x2C6D, 1, (-10780)); (0x2C6E, 0x2C6E, 1, (-10749));
  (0x2C6F, 0x2C6F, 1, (-10783)); (0x2C70, 0x2C70, 1, (-10782));
  (0x2C72, 0x2C72, 1, 1); (0x2C75, 0x2C75, 1, 1);
  (0x2C7E, 0x2C7F, 1, (-10815)); (0x2C80, 0x2CE2, 2, 1);
  (0x2CEB, 0x2CED, 2, 1); (0x2CF2, 0x2CF2, 1, 1); (0xA640, 0xA66C, 2, 1);
  (0xA680, 0xA69A, 2, 1); (0xA722, 0xA72E, 2, 1); (0xA732, 0xA76E, 2, 1);
  (0xA779, 0xA77B, 2, 1); (0xA77D, 0xA77D, 1, (-35332));
  (0xA77E, 0xA786, 2, 1); (0xA78B, 0xA78B, 1, 1);
  (0xA78D, 0xA78D, 1, (-42280)); (0xA790, 0xA792, 2, 1);
  (0xA796, 0xA7A8, 2, 1); (0xA7AA, 0xA7AA, 1, (-42308));
  (0xA7AB, 0xA7AB, 1, (-42319)); (0xA7AC, 0xA7AC, 1, (-42315));
  (0xA7AD, 0xA7AD, 1, (-42305)); (0xA7AE, 0xA7AE, 1, (-42308));
  (0xA7B0, 0xA7B0, 1, (-42258)); (0xA7B1, 0xA7B1, 1, (-42282));
  (0xA7B2, 0xA7B2, 1, (-42261)); (0xA7B3, 0xA7B3, 1, 928);
  (0xA7B4, 0xA7C2, 2, 1); (0xA7C4, 0xA7C4, 1, (-48));
  (0xA7C5, 0xA7C5, 1, (-42307)); (0xA7C6, 0xA7C6, 1, (-35384));
  (0xA7C7, 0xA7C9, 2, 1); (0xA7D0, 0xA7D0, 1, 1); (0xA7D6, 0xA7D8, 2, 1);
  (0xA7F5, 0xA7F5, 1, 1); (0xFF21, 0xFF3A, 1, 32);
  (0x10400, 0x10427, 1, 40); (0x104B0, 0x104D3, 1, 40);
  (0x10570, 0x1057A, 1, 39); (0x1057C, 0x1058A, 1, 39);
  (0x1058C, 0x10592, 1, 39); (0x10594, 0x10595, 1, 39);
  (0x10C80, 0x10CB2, 1, 64); (0x118A0, 0x118BF, 1, 32);
  (0x16E40, 0x16E5F, 1, 32); (0x1E900, 0x1E921, 1, 34) ].

(** [_PyUnicode_IsCased] *)
Definition is_cased (c : Z) : bool := in_ranges c cased_ranges.

(** [_PyUnicode_IsCaseIgnorable] *)
Definition is_case_ignorable (c : Z) : bool :=
  in_ranges c case_ignorable_ranges.

Definition in_run (c : Z) (r : Z * Z * Z * Z) : bool :=
  let '(first, last, step, _) := r in
  if between first last c then (c - first) mod step =? 0 else false.

(** [_PyUnicode_ToLowerFull]: U+0130 alone lowers to two code points. *)
Definition to_lower_full (c : Z) : list Z :=
  if c =? 0x130 then [0x69; 0x307]
  else match find (in_run c) lower_runs with
       | Some (_, _, _, delta) => [c + delta]
       | None => [c]
       end.

Fixpoint first_not_ignorable (l : list Z) : option Z :=
  match l with
  | [] => None
  | c :: l' => if is_case_ignorable c then first_not_ignorable l' else Some c
  end.

(** [handle_capital_sigma]: U+03A3 becomes the final sigma U+03C2 when a
    cased letter precedes it and none follows, case-ignorable code points
    being skipped on both sides; [before] is the text before it, nearest
    code point first. *)
Definition handle_capital_sigma (before after : list Z) : Z :=
  let final_sigma :=
    match first_not_ignorable before with
    | Some c => is_cased c
    | None => false
    end
    && match first_not_ignorable after with
       | Some c => negb (is_cased c)
       | None => true
       end in
  if final_sigma then 0x3C2 else 0x3C3.

(** [lower_ucs4] *)
Definition lower_ucs4 (before : list Z) (c : Z) (after : list Z) : list Z :=
  if c =? 0x3A3 then [handle_capital_sigma before after]
  else to_lower_full c.

(** [do_lower] *)
Fixpoint do_lower (before l : list Z) : list Z :=
  match l with
  | [] => []
  | c :: l' => lower_ucs4 before c l' ++ do_lower (c :: before) l'
  end.

(** [s.lower()] *)
Definition lower (s : string) : string :=
  text (do_lower [] (codepoints s)).

(** [sub in s] *)
Fixpoint contains (sub s : string) : bool :=
  String.prefix sub s ||
  match s with
  | EmptyString => false
  | String _ s' => contains sub s'
  end.

(** truthiness of a [str] *)
Definition truthy (s : string) : bool :=
  match s with EmptyString => false | _ => true end.

(** truthiness of an optional [str]: [None] and [''] are falsy *)
Definition opt_truthy (o : option string) : bool :=
  match o with None => false | Some s => truthy s end.

(** [o or dflt] *)
Definition or_else (o : option string) (dflt : string) : string :=
  match o with
  | Some s => if truthy s then s else dflt
  | None => dflt
  end.

End PyStr.

(* ================================================================== *)
(** ** [list.sort(key=..., reverse=True)]

    Python's sort is stable, also with [reverse=True]: elements whose keys
    compare equal keep their original relative order.  It is modelled by a
    stable insertion sort; [lt_key a b] reads "the key of [a] is smaller
    than the key of [b]". *)

Module PySort.

Section Desc.
Context {A : Type} (lt_key : A -> A -> bool).

Fixpoint insert_desc (x : A) (l : list A) : list A :=
  match l with
  | [] => [x]
  | y :: l' => if lt_key x y then y :: insert_desc x l' else x :: l
  end.

Fixpoint sort_desc (l : list A) : list A :=
  match l with
  | [] => []
  | x :: l' => insert_desc x (sort_desc l')
  end.

Lemma insert_desc_perm x l : Permutation (x :: l) (insert_desc x l).
Proof.
  induction l as [|y l IH]; simpl; auto.
  destruct (lt_key x y); auto.
  rewrite perm_swap. now constructor.
Qed.

Lemma sort_desc_perm l : Permutation l (sort_desc l).
Proof.
  induction l as [|x l IH]; simpl; auto.
  rewrite <- insert_desc_perm. now constructor.
Qed.

Lemma sort_desc_length l : List.length (sort_desc l) = List.length l.
Proof. symmetry. apply Permutation_length, sort_desc_perm. Qed.

End Desc.

(** Sorting on an integer key, largest first. *)
Section ByZ.
Context {A : Type} (key : A -> Z).

Definition key_ltb (a b : A) : bool := key a <? key b.

Definition sort_by_desc : list A -> list A := sort_desc key_ltb.

Definition ge_key (a b : A) : Prop := key a >= key b.

Lemma insert_desc_sorted x l :
  StronglySorted ge_key l ->
  StronglySorted ge_key (insert_desc key_ltb x l).
Proof.
  induction 1 as [|y l Hs IH Hall]; simpl.
  - repeat constructor.
  - unfold key_ltb at 1. destruct (Z.ltb_spec (key x) (key y)) as [Hlt|Hge].
    + constructor; auto.
      apply (Permutation_Forall (insert_desc_perm key_ltb x l)).
      constructor; auto. unfold ge_key; lia.
    + constructor; [now constructor|].
      constructor; [unfold ge_key; lia|].
      eapply Forall_impl; [|exact Hall].
      unfold ge_key; intros; lia.
Qed.

Lemma sort_by_desc_sorted l : StronglySorted ge_key (sort_by_desc l).
Proof.
  induction l as [|x l IH]; simpl; [constructor|].
  now apply insert_desc_sorted.
Qed.

(** Stability: the elements carrying any given key appear in the same
    order before and after the sort. *)
Lemma insert_desc_stable k x l :
  StronglySorted ge_key l ->
  filter (fun a => key a =? k) (insert_desc key_ltb x l)
  = filter (fun a => key a =? k) (x :: l).
Proof.
  induction 1 as [|y l Hs IH Hall]; auto.
  cbn [insert_desc]. unfold key_ltb at 1.
  destruct (Z.ltb_spec (key x) (key y)) as [Hlt|Hge]; auto.
  cbn [filter] in *. rewrite IH.
  destruct (Z.eqb_spec (key x) k), (Z.eqb_spec (key y) k); auto; lia.
Qed.

Lemma sort_by_desc_stable k l :
  filter (fun a => key a =? k) (sort_by_desc l)
  = filter (fun a => key a =? k) l.
Proof.
  induction l as [|x l IH]; auto.
  change (sort_by_desc (x :: l))
    with (insert_desc key_ltb x (sort_by_desc l)).
  rewrite insert_desc_stable by apply sort_by_desc_sorted.
  cbn [filter]. now rewrite IH.
Qed.

End ByZ.

(** Sorting on a string key, largest first. *)
Definition sort_by_str_desc {A} (key : A -> string) : list A -> list A :=
  sort_desc (fun a b => String.ltb (key a) (key b)).

End PySort.

(** [x in l] for a list of strings *)
Definition str_in (x : string) (l : list string) : bool :=
  existsb (String.eqb x) l.

Lemma str_in_In x l : str_in x l = true <-> In x l.
Proof.
  unfold str_in. rewrite existsb_exists. split.
  - intros [y [Hy E]]. apply String.eqb_eq in E. now subst.
  - intros H. exists x. split; auto. apply String.eqb_refl.
Qed.

(* ================================================================== *)
(** ** [datetime]: ordinals, subtraction, [strptime], [strftime]

    The arithmetic is CPython's ([_is_leap], [_days_before_year],
    [_days_in_month], [_days_before_month], [_ymd2ord]); [strptime_ymd] is
    [datetime.strptime(s, '%Y-%m-%d')], [None] standing for the
    [ValueError] it raises.  The text is matched against the pattern
    [(\d\d\d\d)-(1[0-2]|0[1-9]|[1-9])-(3[0-1]|[1-2]\d|0[1-9]|[1-9]| [1-9])]
    that [_strptime] builds for this format, and must end where the match
    ends; the fields are then read by [int] and checked by [date]. *)

Module PyDate.

Record datetime := mkDatetime {
  year : Z; month : Z; day : Z;
  hour : Z; minute : Z; second : Z; microsecond : Z
}.

Definition is_leap (y : Z) : bool :=
  (y mod 4 =? 0) && (negb (y mod 100 =? 0) || (y mod 400 =? 0)).

Definition days_before_year (y : Z) : Z :=
  let y' := y - 1 in y' * 365 + y' / 4 - y' / 100 + y' / 400.

Definition days_in_month (y m : Z) : Z :=
  if (m =? 2) && is_leap y then 29
  else if m =? 2 then 28
  else if (m =? 4) || (m =? 6) || (m =? 9) || (m =? 11) then 30
  else 31.

Definition days_before_month (y m : Z) : Z :=
  nth (Z.to_nat m) [0; 0; 31; 59; 90; 120; 151; 181; 212; 243; 273; 304; 334] 0
  + (if (2 <? m) && is_leap y then 1 else 0).

Definition ymd2ord (y m d : Z) : Z :=
  days_before_year y + days_before_month y m + d.

Definition toordinal (t : datetime) : Z :=
  ymd2ord (year t) (month t) (day t).

(** The fields [datetime.now()] can have. *)
Definition wf (t : datetime) : Prop :=
  1 <= year t <= 9999 /\ 1 <= month t <= 12 /\
  1 <= day t <= days_in_month (year t) (month t) /\
  0 <= hour t < 24 /\ 0 <= minute t < 60 /\ 0 <= second t < 60 /\
  0 <= microsecond t < 1000000.

Definition us_per_day : Z := 86400 * 1000000.

(** [(a - b).days]: the difference is normalised so that seconds and
    microseconds are non-negative, hence [days] is a floor. *)
Definition sub_days (a b : datetime) : Z :=
  let d := toordinal a - toordinal b in
  let secs t := second t + minute t * 60 + hour t * 3600 in
  let s := secs a - secs b in
  let us := microsecond a - microsecond b in
  (d * us_per_day + s * 1000000 + us) / us_per_day.

(** The decimal digits, code points of category [Nd] (Unicode 14.0.0):
    they come in runs of ten, zero to nine, each listed by its zero. *)
Definition decimal_zeros : list Z :=
[ 0x30; 0x660; 0x6F0; 0x7C0; 0x966; 0x9E6; 0xA66; 0xAE6; 0xB66; 0xBE6;
  0xC66; 0xCE6; 0xD66; 0xDE6; 0xE50; 0xED0; 0xF20; 0x1040; 0x1090; 0x17E0;
  0x1810; 0x1946; 0x19D0; 0x1A80; 0x1A90; 0x1B50; 0x1BB0; 0x1C40; 0x1C50;
  0xA620; 0xA8D0; 0xA900; 0xA9D0; 0xA9F0; 0xAA50; 0xABF0; 0xFF10; 0x104A0;
  0x10D30; 0x11066; 0x110F0; 0x11136; 0x111D0; 0x112F0; 0x11450; 0x114D0;
  0x11650; 0x116C0; 0x11730; 0x118E0; 0x11950; 0x11C50; 0x11D50; 0x11DA0;
  0x16A60; 0x16AC0; 0x16B50; 0x1D7CE; 0x1D7D8; 0x1D7E2; 0x1D7EC; 0x1D7F6;
  0x1E140; 0x1E2F0; 0x1E950; 0x1FBF0 ].

(** [Py_UNICODE_TODECIMAL]: the digit a code point stands for.  [\d] in
    the pattern of [strptime] accepts these code points and [int] reads
    them. *)
Definition to_decimal (c : Z) : option Z :=
  match find (fun zero => PyStr.between zero (zero + 9) c) decimal_zeros with
  | Some zero => Some (c - zero)
  | None => None
  end.

(** [\d] *)
Definition is_digit (c : Z) : bool :=
  match to_decimal c with Some _ => true | None => false end.

Definition digit_val (c : Z) : Z :=
  match to_decimal c with Some v => v | None => 0 end.

(** [[lo-hi]] for two ASCII characters *)
Definition in_range (lo hi : ascii) (c : Z) : bool :=
  PyStr.between (PyStr.byte lo) (PyStr.byte hi) c.

(** a literal ASCII character of the pattern *)
Definition is_char (a : ascii) (c : Z) : bool := c =? PyStr.byte a.

(** [%d]: [3[0-1]|[1-2]\d|0[1-9]|[1-9]| [1-9]], to the end of the text. *)
Definition parse_day (l : list Z) : option Z :=
  match l with
  | [c1; c2] =>
      if is_char "3" c1 && in_range "0" "1" c2 then Some (30 + digit_val c2)
      else if in_range "1" "2" c1 && is_digit c2
           then Some (10 * digit_val c1 + digit_val c2)
      else if is_char "0" c1 && in_range "1" "9" c2 then Some (digit_val c2)
      else if is_char " " c1 && in_range "1" "9" c2 then Some (digit_val c2)
      else None
  | [c1] => if in_range "1" "9" c1 then Some (digit_val c1) else None
  | _ => None
  end.

(** [%m]: [1[0-2]|0[1-9]|[1-9]], followed by the literal [-]. *)
Definition parse_month (l : list Z) : option (Z * list Z) :=
  match l with
  | c1 :: c2 :: c3 :: rest =>
      if is_char "1" c1 && in_range "0" "2" c2 && is_char "-" c3
      then Some (10 + digit_val c2, rest)
      else if is_char "0" c1 && in_range "1" "9" c2 && is_char "-" c3
      then Some (digit_val c2, rest)
      else if in_range "1" "9" c1 && is_char "-" c2
      then Some (digit_val c1, c3 :: rest)
      else None
  | [c1; c2] =>
      if in_range "1" "9" c1 && is_char "-" c2
      then Some (digit_val c1, []) else None
  | _ => None
  end.

(** [%Y]: [\d\d\d\d], followed by the literal [-]. *)
Definition parse_year (l : list Z) : option (Z * list Z) :=
  match l with
  | y1 :: y2 :: y3 :: y4 :: c :: rest =>
      if is_digit y1 && is_digit y2 && is_digit y3 && is_digit y4
         && is_char "-" c
      then Some (1000 * digit_val y1 + 100 * digit_val y2
                 + 10 * digit_val y3 + digit_val y4, rest)
      else None
  | _ => None
  end.

Definition strptime_ymd (s : string) : option datetime :=
  match parse_year (PyStr.codepoints s) with
  | None => None
  | Some (y, rest) =>
      match parse_month rest with
      | None => None
      | Some (m, rest') =>
          match parse_day rest' with
          | None => None
          | Some d =>
              if (1 <=? y) && (d <=? days_in_month y m)
              then Some (mkDatetime y m d 0 0 0 0)
              else None
          end
      end
  end.

Definition digit_char (n : Z) : ascii :=
  ascii_of_nat (Z.to_nat (48 + n mod 10)).

Definition pad2 (n : Z) : string :=
  String (digit_char (n / 10)) (String (digit_char n) EmptyString).

Definition pad4 (n : Z) : string :=
  String (digit_char (n / 1000)) (String (digit_char (n / 100))
    (String (digit_char (n / 10)) (String (digit_char n) EmptyString))).

(** [t.strftime('%Y-%m-%d')], for a year of four digits *)
Definition strftime_ymd (t : datetime) : string :=
  String.append (pad4 (year t)) (String.append "-"
    (String.append (pad2 (month t)) (String.append "-" (pad2 (day t))))).

(** [t.strftime('%Y-%m-%d %H:%M:%S')] *)
Definition strftime_full (t : datetime) : string :=
  String.append (strftime_ymd t) (String.append " "
    (String.append (pad2 (hour t)) (String.append ":"
      (String.append (pad2 (minute t)) (String.append ":"
        (pad2 (second t))))))).

(** A parsed date is a midnight: subtracting it from a well-formed
    [now] yields the difference of the two calendar days. *)
Lemma sub_days_midnight now y m d :
  wf now ->
  sub_days now (mkDatetime y m d 0 0 0 0)
  = toordinal now - ymd2ord y m d.
Proof.
  intros (_ & _ & _ & Hh & Hm & Hs & Hus).
  unfold sub_days, toordinal, us_per_day; cbn [year month day hour minute second microsecond].
  set (D := ymd2ord (year now) (month now) (day now) - ymd2ord y m d).
  symmetry. apply Z.div_unique with
    (r := (second now + minute now * 60 + hour now * 3600 - 0) * 1000000
          + (microsecond now - 0)); lia.
Qed.

End PyDate.

Import PyDate.

Example strptime_2024_01_01 :
  strptime_ymd "2024-01-01" = Some (mkDatetime 2024 1 1 0 0 0 0).
Proof. reflexivity. Qed.

Example strptime_short_fields :
  strptime_ymd "2024-2-9" = Some (mkDatetime 2024 2 9 0 0 0 0).
Proof. reflexivity. Qed.

Example strptime_rejects :
  map strptime_ymd ["2023-02-29"; "2024-13-01"; "2024-01-32"; "2024-01-011";
                    "24-01-01"; "0000-01-01"; "2024/01/01"; "";
                    "2024-01-01 10:00:00"]
  = [None; None; None; None; None; None; None; None; None].
Proof. reflexivity. Qed.

Example strftime_strptime_example :
  strptime_ymd (strftime_ymd (mkDatetime 2025 2 1 9 30 15 0))
  = Some (mkDatetime 2025 2 1 0 0 0 0).
Proof. reflexivity. Qed.

Example contains_examples :
  map (fun sub => PyStr.contains (PyStr.lower sub) (PyStr.lower "Mumbai"))
      ["MUM"; "bai"; ""; "pune"; "mumbaii"]
  = [true; true; true; false; false].
Proof. reflexivity. Qed.

(** [lower] beyond ASCII: "PUNE" with an acute E, a Greek word ending in a
    capital sigma, a capital sigma at both ends, U+0130 and U+1E9E. *)
Example lower_examples :
  map (fun l => PyStr.codepoints (PyStr.lower (PyStr.text l)))
      [ [0x50; 0x55; 0x4E; 0xC9]; [0x39F; 0x394; 0x39F; 0x3A3];
        [0x3A3; 0x391; 0x3A3]; [0x130]; [0x1E9E] ]
  = [ [0x70; 0x75; 0x6E; 0xE9]; [0x3BF; 0x3B4; 0x3BF; 0x3C2];
      [0x3C3; 0x3B1; 0x3C2]; [0x69; 0x307]; [0xDF] ].
Proof. vm_compute. reflexivity. Qed.

Example text_examples :
  map (fun l => map PyStr.byte (list_ascii_of_string (PyStr.text l)))
      [ [0x50; 0xC9]; [0x3A3]; [0xFF12]; [0x1D7CE]; [0xD800] ]
  = [ [80; 195; 137]; [206; 163]; [239; 188; 146]; [240; 157; 159; 142];
      [237; 160; 128] ].
Proof. vm_compute. reflexivity. Qed.

(** [strptime] reads any decimal digit where the pattern has [\d]: the
    year in full-width digits, the second digit of the day in
    Arabic-Indic digits; the month takes ASCII digits only. *)
Example strptime_unicode_digits :
  map (fun l => strptime_ymd (PyStr.text l))
      [ [0xFF12; 0xFF10; 0xFF12; 0xFF14; 45; 48; 50; 45; 50; 53];
        [50; 48; 50; 52; 45; 48; 50; 45; 50; 0x665];
        [50; 48; 50; 52; 45; 48; 0xFF12; 45; 50; 53] ]
  = [ Some (mkDatetime 2024 2 25 0 0 0 0);
      Some (mkDatetime 2024 2 25 0 0 0 0); None ].
Proof. vm_compute. reflexivity. Qed.

Example ordinal_examples :
  ymd2ord 1 1 1 = 1 /\ ymd2ord 1970 1 1 = 719163 /\ ymd2ord 2024 2 26 = 738942.
Proof. repeat split. Qed.

(* ================================================================== *)
(** ** Compatibility tables ([app.py] lines 74-95) *)

Definition blood_groups : list string :=
  ["A+"; "A-"; "B+"; "B-"; "AB+"; "AB-"; "O+"; "O-"].

(** Donor blood group -> recipient blood groups *)
Definition BLOOD_COMPATIBILITY : PyDict.t (list string) :=
  [ ("A+",  ["A+"; "AB+"]);
    ("A-",  ["A+"; "A-"; "AB+"; "AB-"]);
    ("B+",  ["B+"; "AB+"]);
    ("B-",  ["B+"; "B-"; "AB+"; "AB-"]);
    ("AB+", ["AB+"]);
    ("AB-", ["AB+"; "AB-"]);
    ("O+",  ["O+"; "A+"; "B+"; "AB+"]);
    ("O-",  ["O+"; "O-"; "A+"; "A-"; "B+"; "B-"; "AB+"; "AB-"]) ].

(** Recipient blood group -> donor blood groups *)
Definition RECEIVE_COMPATIBILITY : PyDict.t (list string) :=
  [ ("A+",  ["A+"; "A-"; "O+"; "O-"]);
    ("A-",  ["A-"; "O-"]);
    ("B+",  ["B+"; "B-"; "O+"; "O-"]);
    ("B-",  ["B-"; "O-"]);
    ("AB+", ["A+"; "A-"; "B+"; "B-"; "AB+"; "AB-"; "O+"; "O-"]);
    ("AB-", ["A-"; "B-"; "AB-"; "O-"]);
    ("O+",  ["O+"; "O-"]);
    ("O-",  ["O-"]) ].

(** [table.get(group, [])] *)
Definition get_or_nil (table : PyDict.t (list string)) (g : string)
  : list string :=
  match PyDict.get table g with Some l => l | None => [] end.

(** [BLOOD_COMPATIBILITY.get(donor_blood_group, [])] *)
Definition donor_can_give_to (g : string) : list string :=
  get_or_nil BLOOD_COMPATIBILITY g.

(** [get_compatible_donor_blood_groups] *)
Definition get_compatible_donor_blood_groups (recipient_blood_group : string)
  : list string :=
  get_or_nil RECEIVE_COMPATIBILITY recipient_blood_group.

(* ================================================================== *)
(** ** Records *)

(** [status] of a blood request: ['pending'], ['partial'], ['fulfilled'] *)
Inductive RequestStatus := Pending | Partial | Fulfilled.

(** [status] of an assignment: ['accepted'], ['completed'],
    ['requestor_confirmed'], ['confirmed_by_requestor'] *)
Inductive AssignmentStatus :=
  Accepted | Completed | RequestorConfirmed | ConfirmedByRequestor.

Record Donor := mkDonor {
  donor_id : string;
  donor_name : string;
  donor_age : Z;
  donor_blood_group : string;
  donor_city : string;
  donor_state : string;
  donor_available : bool;
  donor_status : string;
  donor_total_donations : Z;
  donor_last_donation : option string
}.

Record Requestor := mkRequestor {
  requestor_id : string;
  requestor_name : string;
  requestor_organization : option string;
  requestor_total_requests : Z
}.

Record BloodRequest := mkBloodRequest {
  req_request_id : string;
  req_requestor_id : string;
  req_patient_name : string;
  req_blood_group : string;
  req_units_needed : Z;
  req_fulfilled_units : Z;
  req_hospital_name : string;
  req_location : option string;
  req_urgency : string;
  req_status : RequestStatus;
  req_created_at : string;
  req_matched_donors : list string;
  req_inventory_used : option Z;
  req_type : option string
}.

Record Assignment := mkAssignment {
  asg_assignment_id : string;
  asg_donor_id : string;
  asg_request_id : string;
  asg_units_offered : Z;
  asg_status : AssignmentStatus;
  asg_accepted_at : string;
  asg_donated_at : option string;
  asg_units_donated : option Z;
  asg_confirmed_at : option string
}.

Record Donation := mkDonation {
  don_donation_id : string;
  don_donor_id : string;
  don_donor_name : string;
  don_blood_group : string;
  don_units : Z;
  don_donation_date : string;
  don_request_id : option string;
  don_requestor_id : option string;
  don_assignment_id : option string;
  don_status : option string
}.

Record InventoryEntry := mkInventoryEntry {
  inv_units : Z;
  inv_donors : list string
}.

(** The module-level stores. *)
Record State := mkState {
  donors_db : PyDict.t Donor;
  requestors_db : PyDict.t Requestor;
  blood_requests_db : PyDict.t BloodRequest;
  donations_db : PyDict.t Donation;
  donor_request_assignments : PyDict.t Assignment;
  blood_inventory : PyDict.t InventoryEntry
}.

Definition DEFAULT_INVENTORY : PyDict.t InventoryEntry :=
  [ ("A+",  mkInventoryEntry 50 []);
    ("A-",  mkInventoryEntry 30 []);
    ("B+",  mkInventoryEntry 45 []);
    ("B-",  mkInventoryEntry 25 []);
    ("AB+", mkInventoryEntry 20 []);
    ("AB-", mkInventoryEntry 15 []);
    ("O+",  mkInventoryEntry 60 []);
    ("O-",  mkInventoryEntry 40 []) ].

(** The stores as the module loads them when nothing is on disk, before
    [init_sample_data] fills them. *)
Definition initial_state : State :=
  mkState [] [] [] [] [] DEFAULT_INVENTORY.

(** Field updates of the mutable dictionaries. *)
Definition set_donors (s : State) d : State :=
  mkState d (requestors_db s) (blood_requests_db s) (donations_db s)
          (donor_request_assignments s) (blood_inventory s).
Definition set_requestors (s : State) d : State :=
  mkState (donors_db s) d (blood_requests_db s) (donations_db s)
          (donor_request_assignments s) (blood_inventory s).
Definition set_requests (s : State) d : State :=
  mkState (donors_db s) (requestors_db s) d (donations_db s)
          (donor_request_assignments s) (blood_inventory s).
Definition set_donations (s : State) d : State :=
  mkState (donors_db s) (requestors_db s) (blood_requests_db s) d
          (donor_request_assignments s) (blood_inventory s).
Definition set_assignments (s : State) d : State :=
  mkState (donors_db s) (requestors_db s) (blood_requests_db s)
          (donations_db s) d (blood_inventory s).
Definition set_inventory (s : State) d : State :=
  mkState (donors_db s) (requestors_db s) (blood_requests_db s)
          (donations_db s) (donor_request_assignments s) d.

(* ================================================================== *)
(** ** Eligibility helpers ([app.py] lines 150-191) *)

(** [can_donate]: the bare [except] turns a failed parse into [True]. *)
Definition can_donate (now : datetime) (last_donation_date : option string)
  : bool :=
  if negb (PyStr.opt_truthy last_donation_date) then true
  else
    match last_donation_date with
    | None => true
    | Some s =>
        match strptime_ymd s with
        | Some last => sub_days now last >=? 56
        | None => true
        end
    end.

(** [calculate_donor_eligibility] *)
Definition calculate_donor_eligibility (now : datetime) (donor : Donor) : Z :=
  let score := 100 in
  let age := donor_age donor in
  let score :=
    if (25 <=? age) && (age <=? 45) then score + 10
    else if (age <? 18) || (65 <? age) then score - 50
    else score in
  let score :=
    if negb (donor_available donor) then score - 100 else score in
  let last_donation := donor_last_donation donor in
  let score :=
    if PyStr.opt_truthy last_donation then
      match last_donation with
      | Some s =>
          match strptime_ymd s with
          | Some last =>
              let days_since := sub_days now last in
              if 90 <? days_since then score + 5 else score
          | None => score
          end
      | None => score
      end
    else score + 10 in
  let total_donations := donor_total_donations donor in
  let score := score + Z.min (total_donations * 2) 20 in
  Z.max 0 (Z.min score 150).

(* ================================================================== *)
(** ** Matcher ([app.py] lines 126-148 and 254-292) *)

(** [get_compatible_donors] *)
Definition get_compatible_donors (s : State) (recipient_blood_group : string)
  (location : option string) : list Donor :=
  let compatible_blood_groups :=
    get_compatible_donor_blood_groups recipient_blood_group in
  let keep (donor : Donor) : bool :=
    str_in (donor_blood_group donor) compatible_blood_groups
    && (donor_available donor && String.eqb (donor_status donor) "active")
    && match location with
       | Some loc =>
           if PyStr.truthy loc then
             PyStr.contains (PyStr.lower loc) (PyStr.lower (donor_city donor))
             || PyStr.contains (PyStr.lower loc) (PyStr.lower (donor_state donor))
           else true
       | None => true
       end in
  let compatible_donors := filter keep (PyDict.values (donors_db s)) in
  PySort.sort_by_str_desc
    (fun x => PyStr.or_else (donor_last_donation x) "1900-01-01")
    compatible_donors.

(** A donor dictionary extended with ['match_score'] and
    ['can_donate_now']. *)
Record ScoredDonor := mkScoredDonor {
  sd_donor : Donor;
  match_score : Z;
  can_donate_now : bool
}.

Record MatchResult := mkMatchResult {
  exact_match_inventory : Z;
  compatible_donors : list ScoredDonor;
  total_compatible : Z;
  fulfillable : bool;
  remaining_units : Z
}.

(** [blood_inventory.get(blood_group, {}).get('units', 0)] *)
Definition inventory_units (s : State) (blood_group : string) : Z :=
  match PyDict.get (blood_inventory s) blood_group with
  | Some e => inv_units e
  | None => 0
  end.

Definition score_donor (now : datetime) (donor : Donor) : ScoredDonor :=
  mkScoredDonor donor (calculate_donor_eligibility now donor)
                (can_donate now (donor_last_donation donor)).

(** [match_blood_request] *)
Definition match_blood_request (now : datetime) (s : State)
  (request_data : BloodRequest) : MatchResult :=
  let blood_group := req_blood_group request_data in
  let units_needed := req_units_needed request_data in
  let location := PyStr.or_else (req_location request_data) "" in
  let compatible := get_compatible_donors s blood_group (Some location) in
  let scored_donors := map (score_donor now) compatible in
  let scored_donors := PySort.sort_by_desc match_score scored_donors in
  let inventory_available := inventory_units s blood_group in
  let remaining := units_needed - req_fulfilled_units request_data in
  mkMatchResult
    inventory_available
    (firstn 10 scored_donors)
    (Z.of_nat (List.length scored_donors))
    ((inventory_available >=? remaining)
     || (Z.of_nat (List.length scored_donors) >? 0))
    remaining.

(** [update_inventory] *)
Inductive InventoryOperation := Add | Remove.

Definition update_inventory (s : State) (blood_group : string) (units : Z)
  (operation : InventoryOperation) : State :=
  match PyDict.get (blood_inventory s) blood_group with
  | Some e =>
      let units' :=
        match operation with
        | Add => inv_units e + units
        | Remove => Z.max 0 (inv_units e - units)
        end in
      set_inventory s
        (PyDict.set (blood_inventory s) blood_group
                    (mkInventoryEntry units' (inv_donors e)))
  | None => s
  end.

(* ================================================================== *)
(** ** The DynamoDB variant ([app_aws.py])

    It carries its own copy of the tables (lines 93-113) and of the
    eligibility helpers and the matcher (lines 271-340).  [db_scan] hands
    the matcher the donor records and the inventory items as lists. *)

Module AppAws.

Definition BLOOD_COMPATIBILITY : PyDict.t (list string) :=
  [ ("A+",  ["A+"; "AB+"]);
    ("A-",  ["A+"; "A-"; "AB+"; "AB-"]);
    ("B+",  ["B+"; "AB+"]);
    ("B-",  ["B+"; "B-"; "AB+"; "AB-"]);
    ("AB+", ["AB+"]);
    ("AB-", ["AB+"; "AB-"]);
    ("O+",  ["O+"; "A+"; "B+"; "AB+"]);
    ("O-",  ["O+"; "O-"; "A+"; "A-"; "B+"; "B-"; "AB+"; "AB-"]) ].

Definition RECEIVE_COMPATIBILITY : PyDict.t (list string) :=
  [ ("A+",  ["A+"; "A-"; "O+"; "O-"]);
    ("A-",  ["A-"; "O-"]);
    ("B+",  ["B+"; "B-"; "O+"; "O-"]);
    ("B-",  ["B-"; "O-"]);
    ("AB+", ["A+"; "A-"; "B+"; "B-"; "AB+"; "AB-"; "O+"; "O-"]);
    ("AB-", ["A-"; "B-"; "AB-"; "O-"]);
    ("O+",  ["O+"; "O-"]);
    ("O-",  ["O-"]) ].

Definition can_donate (now : datetime) (last_donation_date : option string)
  : bool :=
  if negb (PyStr.opt_truthy last_donation_date) then true
  else
    match last_donation_date with
    | None => true
    | Some s =>
        match strptime_ymd s with
        | Some last => sub_days now last >=? 56
        | None => true
        end
    end.

Definition calculate_donor_eligibility (now : datetime) (donor : Donor) : Z :=
  let score := 100 in
  let age := donor_age donor in
  let score :=
    if (25 <=? age) && (age <=? 45) then score + 10
    else if (age <? 18) || (65 <? age) then score - 50
    else score in
  let score :=
    if negb (donor_available donor) then score - 100 else score in
  let last_donation := donor_last_donation donor in
  let score :=
    if PyStr.opt_truthy last_donation then
      match last_donation with
      | Some s =>
          match strptime_ymd s with
          | Some last =>
              let days_since := sub_days now last in
              if 90 <? days_since then score + 5 else score
          | None => score
          end
      | None => score
      end
    else score + 10 in
  let total_donations := donor_total_donations donor in
  let score := score + Z.min (total_donations * 2) 20 in
  Z.max 0 (Z.min score 150).

Definition get_compatible_donors (donors : list Donor)
  (recipient_blood_group : string) (location : option string) : list Donor :=
  let compatible_bgs := get_or_nil RECEIVE_COMPATIBILITY recipient_blood_group in
  let keep (d : Donor) : bool :=
    str_in (donor_blood_group d) compatible_bgs
    && donor_available d && String.eqb (donor_status d) "active"
    && match location with
       | Some loc =>
           if PyStr.truthy loc then
             PyStr.contains (PyStr.lower loc) (PyStr.lower (donor_city d))
             || PyStr.contains (PyStr.lower loc) (PyStr.lower (donor_state d))
           else true
       | None => true
       end in
  let results := filter keep donors in
  PySort.sort_by_str_desc
    (fun x => PyStr.or_else (donor_last_donation x) "1900-01-01") results.

(** An inventory item as [donor_confirm_donation] writes it. *)
Record InventoryItem := mkInventoryItem {
  item_blood_group : string;
  item_units : Z
}.

(** [{i['blood_group']: int(i.get('units', 0)) for i in inventory_items}] *)
Definition inventory_map (inventory_items : list InventoryItem) : PyDict.t Z :=
  fold_left (fun m i => PyDict.set m (item_blood_group i) (item_units i))
            inventory_items [].

Definition match_blood_request (now : datetime) (donors : list Donor)
  (inventory_items : list InventoryItem) (request_data : BloodRequest)
  : MatchResult :=
  let blood_group := req_blood_group request_data in
  let units_needed := req_units_needed request_data in
  let location := PyStr.or_else (req_location request_data) "" in
  let compatible := get_compatible_donors donors blood_group (Some location) in
  let scored :=
    map (fun donor =>
           mkScoredDonor donor (calculate_donor_eligibility now donor)
                         (can_donate now (donor_last_donation donor)))
        compatible in
  let scored := PySort.sort_by_desc match_score scored in
  let inventory_available :=
    match PyDict.get (inventory_map inventory_items) blood_group with
    | Some units => units
    | None => 0
    end in
  let remaining := units_needed - req_fulfilled_units request_data in
  mkMatchResult
    inventory_available
    (firstn 10 scored)
    (Z.of_nat (List.length scored))
    ((inventory_available >=? remaining)
     || (Z.of_nat (List.length scored) >? 0))
    remaining.

End AppAws.

(* ================================================================== *)
(** ** Routes

    Every route takes the stores and returns what it flashed together with
    the stores it leaves behind.  A [KeyError] escaping the handler (an
    HTTP 500) keeps the mutations made before it was raised. *)

Inductive ErrorKind :=
| DonorNotFound | RequestorNotFound | RequestNotFound | AssignmentNotFound
| InvalidDonorOrRequest | InvalidData
| AgeOutOfRange | WeightTooLow
| MustWait56Days | UnitsOutOfRange | UnitsNotPositive
| InvalidBloodGroup | InsufficientInventory.

Inductive Outcome :=
| FlashSuccess
| FlashInfo
| FlashError (e : ErrorKind)
| KeyError.

(** [form.get(key, default)] on a parsed integer field *)
Definition int_or (o : option Z) (dflt : Z) : Z :=
  match o with Some z => z | None => dflt end.

Definition str_or (o : option string) (dflt : string) : string :=
  match o with Some z => z | None => dflt end.

(** In-place updates of the dictionaries held in the stores. *)
Definition donor_set_donated (d : Donor) (date : string) (total : Z) : Donor :=
  mkDonor (donor_id d) (donor_name d) (donor_age d) (donor_blood_group d)
          (donor_city d) (donor_state d) (donor_available d) (donor_status d)
          total (Some date).

Definition donor_set_profile (d : Donor) (available : bool)
  (city state : string) : Donor :=
  mkDonor (donor_id d) (donor_name d) (donor_age d) (donor_blood_group d)
          city state available (donor_status d)
          (donor_total_donations d) (donor_last_donation d).

Definition requestor_set_total (r : Requestor) (total : Z) : Requestor :=
  mkRequestor (requestor_id r) (requestor_name r) (requestor_organization r)
              total.

Definition req_set_progress (r : BloodRequest) (fulfilled : Z)
  (status : RequestStatus) (inventory_used : option Z) : BloodRequest :=
  mkBloodRequest (req_request_id r) (req_requestor_id r) (req_patient_name r)
    (req_blood_group r) (req_units_needed r) fulfilled (req_hospital_name r)
    (req_location r) (req_urgency r) status (req_created_at r)
    (req_matched_donors r) inventory_used (req_type r).

Definition req_set_matched (r : BloodRequest) (matched : list string)
  : BloodRequest :=
  mkBloodRequest (req_request_id r) (req_requestor_id r) (req_patient_name r)
    (req_blood_group r) (req_units_needed r) (req_fulfilled_units r)
    (req_hospital_name r) (req_location r) (req_urgency r) (req_status r)
    (req_created_at r) matched (req_inventory_used r) (req_type r).

Definition asg_set_status (a : Assignment) (status : AssignmentStatus)
  (donated_at : option string) (units_donated : option Z)
  (confirmed_at : option string) : Assignment :=
  mkAssignment (asg_assignment_id a) (asg_donor_id a) (asg_request_id a)
    (asg_units_offered a) status (asg_accepted_at a) donated_at units_donated
    confirmed_at.

(** [if donor_id not in entry['donors']: entry['donors'].append(donor_id)] *)
Definition inv_add_donor (e : InventoryEntry) (id : string) : InventoryEntry :=
  if str_in id (inv_donors e) then e
  else mkInventoryEntry (inv_units e) (inv_donors e ++ [id]).

(** *** Donor routes *)

Record RegisterForm := mkRegisterForm {
  rf_name : string;
  rf_age : Z;
  rf_blood_group : string;
  rf_weight_below_50 : bool;   (* [float(form['weight']) < 50] *)
  rf_city : string;
  rf_state : string
}.

(** [donor_register] (POST) *)
Definition donor_register (new_id : string) (form : RegisterForm) (s : State)
  : Outcome * State :=
  let donor_data :=
    mkDonor new_id (rf_name form) (rf_age form) (rf_blood_group form)
            (rf_city form) (rf_state form) true "active" 0 None in
  if (donor_age donor_data <? 18) || (65 <? donor_age donor_data)
  then (FlashError AgeOutOfRange, s)
  else if rf_weight_below_50 form
  then (FlashError WeightTooLow, s)
  else
    let s := set_donors s (PyDict.set (donors_db s) new_id donor_data) in
    let blood_group := donor_blood_group donor_data in
    let s :=
      if negb (PyDict.mem (blood_inventory s) blood_group)
      then set_inventory s (PyDict.set (blood_inventory s) blood_group
                                       (mkInventoryEntry 0 []))
      else s in
    match PyDict.get (blood_inventory s) blood_group with
    | Some e =>
        (FlashSuccess,
         set_inventory s (PyDict.set (blood_inventory s) blood_group
                                     (inv_add_donor e new_id)))
    | None => (KeyError, s)
    end.

(** [donor_update] *)
Definition donor_update (id : string) (available : bool)
  (city state : option string) (s : State) : Outcome * State :=
  match PyDict.get (donors_db s) id with
  | None => (FlashError DonorNotFound, s)
  | Some donor =>
      let donor' :=
        donor_set_profile donor available
          (str_or city (donor_city donor)) (str_or state (donor_state donor)) in
      (FlashSuccess, set_donors s (PyDict.set (donors_db s) id donor'))
  end.

(** [record_donation] *)
Definition record_donation (now : datetime) (donation_id : string)
  (id : string) (form_units : option Z) (s : State) : Outcome * State :=
  match PyDict.get (donors_db s) id with
  | None => (FlashError DonorNotFound, s)
  | Some donor =>
      if negb (can_donate now (donor_last_donation donor))
      then (FlashError MustWait56Days, s)
      else
        let units := int_or form_units 1 in
        let donation_data :=
          mkDonation donation_id id (donor_name donor)
            (donor_blood_group donor) units (strftime_ymd now)
            None None None None in
        let s := set_donations s
                   (PyDict.set (donations_db s) donation_id donation_data) in
        let donor' :=
          donor_set_donated donor (don_donation_date donation_data)
                            (donor_total_donations donor + 1) in
        let s := set_donors s (PyDict.set (donors_db s) id donor') in
        let s := update_inventory s (donor_blood_group donor') units Add in
        (FlashSuccess, s)
  end.

(** [donate_to_inventory] (POST) *)
Definition donate_to_inventory (now : datetime) (donation_id : string)
  (id : string) (form_units : option Z) (s : State) : Outcome * State :=
  match PyDict.get (donors_db s) id with
  | None => (FlashError DonorNotFound, s)
  | Some donor =>
      if negb (can_donate now (donor_last_donation donor))
      then (FlashError MustWait56Days, s)
      else
        let blood_group := donor_blood_group donor in
        let units := int_or form_units 1 in
        if (units <=? 0) || (50 <? units)
        then (FlashError UnitsOutOfRange, s)
        else
          let donation_data :=
            mkDonation donation_id id (donor_name donor) blood_group units
              (strftime_full now) None (Some "inventory") None
              (Some "completed") in
          let s := set_donations s
                     (PyDict.set (donations_db s) donation_id donation_data) in
          let donor' :=
            donor_set_donated donor (strftime_ymd now)
                              (donor_total_donations donor + 1) in
          let s := set_donors s (PyDict.set (donors_db s) id donor') in
          let s := update_inventory s blood_group units Add in
          match PyDict.get (blood_inventory s) blood_group with
          | Some e =>
              (FlashSuccess,
               set_inventory s (PyDict.set (blood_inventory s) blood_group
                                           (inv_add_donor e id)))
          | None => (KeyError, s)
          end
  end.

(** [donor_accept_request] *)
Definition donor_accept_request (now : datetime) (assignment_id : string)
  (id request_id : string) (form_units_offered : option Z) (s : State)
  : Outcome * State :=
  match PyDict.get (donors_db s) id,
        PyDict.get (blood_requests_db s) request_id with
  | Some _, Some _ =>
      let units_offered := int_or form_units_offered 1 in
      let assignment_data :=
        mkAssignment assignment_id id request_id units_offered Accepted
                     (strftime_full now) None None None in
      (FlashSuccess,
       set_assignments s
         (PyDict.set (donor_request_assignments s) assignment_id
                     assignment_data))
  | _, _ => (FlashError InvalidDonorOrRequest, s)
  end.

(** [donor_confirm_donation] *)
Definition donor_confirm_donation (now : datetime) (donation_id : string)
  (assignment_id : string) (form_units_donated : option Z) (s : State)
  : Outcome * State :=
  match PyDict.get (donor_request_assignments s) assignment_id with
  | None => (FlashError AssignmentNotFound, s)
  | Some assignment =>
      let id := asg_donor_id assignment in
      let request_id := asg_request_id assignment in
      match PyDict.get (donors_db s) id,
            PyDict.get (blood_requests_db s) request_id with
      | Some donor, Some request_data =>
          let units_donated :=
            int_or form_units_donated (asg_units_offered assignment) in
          (* Update assignment *)
          let assignment' :=
            asg_set_status assignment Completed (Some (strftime_full now))
                           (Some units_donated) (asg_confirmed_at assignment) in
          let s := set_assignments s
                     (PyDict.set (donor_request_assignments s) assignment_id
                                 assignment') in
          (* Update request fulfilled units and status *)
          let fulfilled := req_fulfilled_units request_data + units_donated in
          let remaining := req_units_needed request_data - fulfilled in
          let status := if remaining <=? 0 then Fulfilled else Partial in
          (* Consume units from inventory *)
          let blood_group := donor_blood_group donor in
          let '(s, inventory_used) :=
            match PyDict.get (blood_inventory s) blood_group with
            | Some e =>
                (set_inventory s
                   (PyDict.set (blood_inventory s) blood_group
                      (mkInventoryEntry (Z.max 0 (inv_units e - units_donated))
                                        (inv_donors e))),
                 Some (int_or (req_inventory_used request_data) 0
                       + units_donated))
            | None => (s, req_inventory_used request_data)
            end in
          let request' :=
            req_set_progress request_data fulfilled status inventory_used in
          let s := set_requests s
                     (PyDict.set (blood_requests_db s) request_id request') in
          (* Update donor stats *)
          let donor' :=
            donor_set_donated donor (strftime_ymd now)
                              (donor_total_donations donor + 1) in
          let s := set_donors s (PyDict.set (donors_db s) id donor') in
          (* Create donation record *)
          let donation_data :=
            mkDonation donation_id id (donor_name donor)
              (donor_blood_group donor') units_donated (strftime_full now)
              (Some request_id) None (Some assignment_id) (Some "completed") in
          let s := set_donations s
                     (PyDict.set (donations_db s) donation_id donation_data) in
          (FlashSuccess, s)
      | _, _ => (FlashError InvalidData, s)
      end
  end.

(** *** Requestor routes *)

(** [requestor_confirm_donor] *)
Definition requestor_confirm_donor (now : datetime) (rid : string)
  (assignment_id : string) (s : State) : Outcome * State :=
  match PyDict.get (donor_request_assignments s) assignment_id with
  | None => (FlashError AssignmentNotFound, s)
  | Some assignment =>
      match PyDict.get (requestors_db s) rid,
            PyDict.get (blood_requests_db s) (asg_request_id assignment),
            PyDict.get (donors_db s) (asg_donor_id assignment) with
      | Some _, Some _, Some _ =>
          let assignment' :=
            asg_set_status assignment RequestorConfirmed
              (asg_donated_at assignment) (asg_units_donated assignment)
              (Some (strftime_full now)) in
          (FlashSuccess,
           set_assignments s
             (PyDict.set (donor_request_assignments s) assignment_id
                         assignment'))
      | _, _, _ => (FlashError InvalidData, s)
      end
  end.

(** [requestor_register] (POST) *)
Definition requestor_register (new_id : string) (name : string)
  (organization : option string) (s : State) : Outcome * State :=
  let requestor_data :=
    mkRequestor new_id name (Some (str_or organization "Individual")) 0 in
  (FlashSuccess,
   set_requestors s (PyDict.set (requestors_db s) new_id requestor_data)).

Record WithdrawForm := mkWithdrawForm {
  wf_blood_group : option string;
  wf_units_needed : option Z;
  wf_hospital_name : option string
}.

(** [take_from_inventory] (POST) *)
Definition take_from_inventory (now : datetime)
  (request_id donation_id : string) (rid : string) (form : WithdrawForm)
  (s : State) : Outcome * State :=
  match PyDict.get (requestors_db s) rid with
  | None => (FlashError RequestorNotFound, s)
  | Some requestor =>
      let units_needed := int_or (wf_units_needed form) 1 in
      let organization := str_or (requestor_organization requestor) "Hospital" in
      let hospital_name := str_or (wf_hospital_name form) organization in
      (* Validate blood group *)
      match wf_blood_group form with
      | None => (FlashError InvalidBloodGroup, s)
      | Some blood_group =>
          match PyDict.get (blood_inventory s) blood_group with
          | None => (FlashError InvalidBloodGroup, s)
          | Some entry =>
              (* Validate units *)
              if units_needed <=? 0 then (FlashError UnitsNotPositive, s)
              else
                (* Check inventory availability *)
                let available_units := inv_units entry in
                if available_units <? units_needed
                then (FlashError InsufficientInventory, s)
                else
                  let blood_request_data :=
                    mkBloodRequest request_id rid
                      (String.append "Inventory Request - " organization)
                      blood_group units_needed units_needed hospital_name
                      None "normal" Fulfilled (strftime_full now) []
                      None (Some "inventory_withdrawal") in
                  let s := set_requests s
                             (PyDict.set (blood_requests_db s) request_id
                                         blood_request_data) in
                  let s := update_inventory s blood_group units_needed Remove in
                  let requestor' :=
                    requestor_set_total requestor
                      (requestor_total_requests requestor + 1) in
                  let s := set_requestors s
                             (PyDict.set (requestors_db s) rid requestor') in
                  let donation_data :=
                    mkDonation donation_id "INVENTORY" "Blood Bank Inventory"
                      blood_group units_needed (strftime_full now)
                      (Some request_id) None None (Some "completed") in
                  let s := set_donations s
                             (PyDict.set (donations_db s) donation_id
                                         donation_data) in
                  (FlashSuccess, s)
          end
      end
  end.

(** *** Blood request routes *)

Record RequestForm := mkRequestForm {
  qf_requestor_id : option string;
  qf_patient_name : string;
  qf_blood_group : string;
  qf_units_needed : Z;
  qf_hospital_name : string;
  qf_city : option string;
  qf_urgency : option string
}.

(** [request_blood] (POST) *)
Definition request_blood (now : datetime) (request_id : string)
  (form : RequestForm) (s : State) : Outcome * State :=
  let request_data :=
    mkBloodRequest request_id (str_or (qf_requestor_id form) "GUEST")
      (qf_patient_name form) (qf_blood_group form) (qf_units_needed form) 0
      (qf_hospital_name form) (Some (str_or (qf_city form) ""))
      (str_or (qf_urgency form) "normal") Pending (strftime_full now) []
      (Some 0) None in
  let s := set_requests s
             (PyDict.set (blood_requests_db s) request_id request_data) in
  (* Update requestor stats if registered *)
  let rid := req_requestor_id request_data in
  let s :=
    match PyDict.get (requestors_db s) rid with
    | Some requestor =>
        set_requestors s
          (PyDict.set (requestors_db s) rid
             (requestor_set_total requestor
                (requestor_total_requests requestor + 1)))
    | None => s
    end in
  (* Run matching algorithm to find compatible donors *)
  let match_results := match_blood_request now s request_data in
  let matched :=
    map (fun d => donor_id (sd_donor d)) (compatible_donors match_results) in
  let s := set_requests s
             (PyDict.set (blood_requests_db s) request_id
                         (req_set_matched request_data matched)) in
  (FlashSuccess, s).

(** [use_inventory_for_request] *)
Definition use_inventory_for_request (request_id : string)
  (form_units_from_inventory : option Z) (s : State) : Outcome * State :=
  match PyDict.get (blood_requests_db s) request_id with
  | None => (FlashError RequestNotFound, s)
  | Some request_data =>
      let blood_group := req_blood_group request_data in
      let units_from_inventory := int_or form_units_from_inventory 0 in
      (* Check if inventory has enough *)
      let available := inventory_units s blood_group in
      if units_from_inventory >? available
      then (FlashError InsufficientInventory, s)
      else
        (* Update inventory *)
        let s := update_inventory s blood_group units_from_inventory Remove in
        (* Update request *)
        let fulfilled :=
          req_fulfilled_units request_data + units_from_inventory in
        let inventory_used :=
          int_or (req_inventory_used request_data) 0 + units_from_inventory in
        (* Update status *)
        let remaining := req_units_needed request_data - fulfilled in
        if remaining <=? 0 then
          (FlashSuccess,
           set_requests s
             (PyDict.set (blood_requests_db s) request_id
                (req_set_progress request_data fulfilled Fulfilled
                                  (Some inventory_used))))
        else
          (FlashInfo,
           set_requests s
             (PyDict.set (blood_requests_db s) request_id
                (req_set_progress request_data fulfilled Partial
                                  (Some inventory_used))))
  end.

(** [confirm_donor_for_request] *)
Definition confirm_donor_for_request (now : datetime) (request_id : string)
  (assignment_id : string) (s : State) : Outcome * State :=
  match PyDict.get (blood_requests_db s) request_id,
        PyDict.get (donor_request_assignments s) assignment_id with
  | Some _, Some assignment =>
      let assignment' :=
        asg_set_status assignment ConfirmedByRequestor
          (asg_donated_at assignment) (asg_units_donated assignment)
          (Some (strftime_full now)) in
      (FlashSuccess,
       set_assignments s
         (PyDict.set (donor_request_assignments s) assignment_id assignment'))
  | _, _ => (FlashError InvalidDonorOrRequest, s)
  end.

(** [api_update_inventory_for_donor] *)
Definition api_update_inventory_for_donor (id : string) (s : State)
  : Outcome * State :=
  match PyDict.get (donors_db s) id with
  | None => (FlashError DonorNotFound, s)
  | Some donor =>
      let blood_group := donor_blood_group donor in
      match PyDict.get (blood_inventory s) blood_group with
      | Some e =>
          (FlashSuccess,
           set_inventory s (PyDict.set (blood_inventory s) blood_group
                                       (inv_add_donor e id)))
      | None => (KeyError, s)
      end
  end.

(** [fulfill_request] (legacy route) *)
Definition fulfill_request (request_id : string)
  (form_units_fulfilled : option Z) (s : State) : Outcome * State :=
  match PyDict.get (blood_requests_db s) request_id with
  | None => (FlashError RequestNotFound, s)
  | Some request_data =>
      let units_fulfilled := int_or form_units_fulfilled 0 in
      let fulfilled := req_fulfilled_units request_data + units_fulfilled in
      let '(flash, status) :=
        if fulfilled >=? req_units_needed request_data
        then (FlashSuccess, Fulfilled)
        else (FlashInfo, Partial) in
      let s := set_requests s
                 (PyDict.set (blood_requests_db s) request_id
                    (req_set_progress request_data fulfilled status
                                      (req_inventory_used request_data))) in
      (* Update inventory *)
      let s := update_inventory s (req_blood_group request_data)
                                units_fulfilled Remove in
      (flash, s)
  end.

(* ================================================================== *)
(** ** The application as a transition system *)

(** One state-changing HTTP request, with everything the handler reads
    from outside the stores: the clock, fresh identifiers, form fields. *)
Inductive Op :=
| DonorRegister (new_id : string) (form : RegisterForm)
| DonorUpdate (id : string) (available : bool) (city state : option string)
| RecordDonation (now : datetime) (donation_id id : string)
                 (units : option Z)
| DonateToInventory (now : datetime) (donation_id id : string)
                    (units : option Z)
| DonorAcceptRequest (now : datetime) (assignment_id id request_id : string)
                     (units_offered : option Z)
| DonorConfirmDonation (now : datetime) (donation_id assignment_id : string)
                       (units_donated : option Z)
| RequestorConfirmDonor (now : datetime) (rid assignment_id : string)
| RequestorRegister (new_id name : string) (organization : option string)
| TakeFromInventory (now : datetime) (request_id donation_id rid : string)
                    (form : WithdrawForm)
| RequestBlood (now : datetime) (request_id : string) (form : RequestForm)
| UseInventoryForRequest (request_id : string) (units : option Z)
| ConfirmDonorForRequest (now : datetime) (request_id assignment_id : string)
| ApiUpdateInventoryForDonor (id : string)
| FulfillRequest (request_id : string) (units : option Z).

Definition handle (o : Op) (s : State) : Outcome * State :=
  match o with
  | DonorRegister new_id form => donor_register new_id form s
  | DonorUpdate id available city state =>
      donor_update id available city state s
  | RecordDonation now did id units => record_donation now did id units s
  | DonateToInventory now did id units =>
      donate_to_inventory now did id units s
  | DonorAcceptRequest now aid id rid units =>
      donor_accept_request now aid id rid units s
  | DonorConfirmDonation now did aid units =>
      donor_confirm_donation now did aid units s
  | RequestorConfirmDonor now rid aid => requestor_confirm_donor now rid aid s
  | RequestorRegister new_id name org => requestor_register new_id name org s
  | TakeFromInventory now rqid did rid form =>
      take_from_inventory now rqid did rid form s
  | RequestBlood now rqid form => request_blood now rqid form s
  | UseInventoryForRequest rqid units => use_inventory_for_request rqid units s
  | ConfirmDonorForRequest now rqid aid =>
      confirm_donor_for_request now rqid aid s
  | ApiUpdateInventoryForDonor id => api_update_inventory_for_donor id s
  | FulfillRequest rqid units => fulfill_request rqid units s
  end.

(** The stores after a sequence of requests. *)
Definition run (ops : list Op) (s : State) : State :=
  fold_left (fun st o => snd (handle o st)) ops s.

(** *** Start-up ([app.py] lines 1323-1527)

    [init_sample_data] runs when the module is loaded and fills the stores
    unless a donor, requestor or request was loaded from disk.  [None]
    stands for the [KeyError] raised, before anything is saved, when the
    loaded inventory lacks the blood group of a sample donor. *)

Definition sample_donors : list Donor :=
  [ mkDonor "DON-A1B2C3D4" "Rahul Sharma" 28 "O+" "Mumbai" "Maharashtra"
            true "active" 5 (Some "2024-12-01");
    mkDonor "DON-E5F6G7H8" "Priya Patel" 32 "A+" "Delhi" "Delhi"
            true "active" 3 (Some "2025-01-10");
    mkDonor "DON-A2B3C4D5" "Anjali Gupta" 26 "A-" "Mumbai" "Maharashtra"
            true "active" 2 None;
    mkDonor "DON-I9J0K1L2" "Amit Kumar" 25 "B-" "Bangalore" "Karnataka"
            true "active" 2 None;
    mkDonor "DON-M3N4O5P6" "Sneha Gupta" 29 "O-" "Chennai" "Tamil Nadu"
            true "active" 8 (Some "2025-01-15");
    mkDonor "DON-Q7R8S9T0" "Vikram Singh" 35 "AB+" "Pune" "Maharashtra"
            true "active" 4 (Some "2024-11-20") ].

Definition sample_requestors : list Requestor :=
  [ mkRequestor "REQ-X1Y2Z3A4" "Dr. Meera Reddy"
                (Some "City General Hospital") 2 ].

Definition sample_requests : list BloodRequest :=
  [ mkBloodRequest "BR-B5C6D7E8" "REQ-X1Y2Z3A4" "Ramesh Iyer" "A+" 5 0
      "City General Hospital" (Some "Hyderabad") "high" Pending
      "2025-02-01 09:00:00"
      ["DON-E5F6G7H8"; "DON-A2B3C4D5"; "DON-A1B2C3D4"; "DON-M3N4O5P6"]
      (Some 0) None ].

(** truthiness of a [dict] *)
Definition dict_truthy {V} (d : PyDict.t V) : bool :=
  match d with [] => false | _ => true end.

(** [donors_db[donor['donor_id']] = donor] and
    [blood_inventory[donor['blood_group']]['donors'].append(...)] *)
Definition add_sample_donor (st : option State) (donor : Donor)
  : option State :=
  match st with
  | None => None
  | Some s =>
      let s := set_donors s
                 (PyDict.set (donors_db s) (donor_id donor) donor) in
      match PyDict.get (blood_inventory s) (donor_blood_group donor) with
      | Some e =>
          Some (set_inventory s
                  (PyDict.set (blood_inventory s) (donor_blood_group donor)
                     (mkInventoryEntry (inv_units e)
                                       (inv_donors e ++ [donor_id donor]))))
      | None => None
      end
  end.

(** [init_sample_data] *)
Definition init_sample_data (s : State) : option State :=
  if dict_truthy (donors_db s) || dict_truthy (requestors_db s)
     || dict_truthy (blood_requests_db s)
  then Some s
  else
    match fold_left add_sample_donor sample_donors (Some s) with
    | None => None
    | Some s =>
        let s :=
          fold_left
            (fun s requestor =>
               set_requestors s
                 (PyDict.set (requestors_db s) (requestor_id requestor)
                             requestor))
            sample_requestors s in
        let s :=
          fold_left
            (fun s req =>
               set_requests s
                 (PyDict.set (blood_requests_db s) (req_request_id req) req))
            sample_requests s in
        Some s
    end.

(** Every unit amount supplied with the request is a non-negative
    integer. *)
Definition opt_nonneg (o : option Z) : Prop :=
  match o with Some z => 0 <= z | None => True end.

Definition units_nonneg (o : Op) : Prop :=
  match o with
  | RecordDonation _ _ _ units => opt_nonneg units
  | DonateToInventory _ _ _ units => opt_nonneg units
  | DonorAcceptRequest _ _ _ _ units => opt_nonneg units
  | DonorConfirmDonation _ _ _ units => opt_nonneg units
  | TakeFromInventory _ _ _ _ form => opt_nonneg (wf_units_needed form)
  | RequestBlood _ _ form => 0 <= qf_units_needed form
  | UseInventoryForRequest _ units => opt_nonneg units
  | FulfillRequest _ units => opt_nonneg units
  | _ => True
  end.

(** Every inventory entry holds a non-negative number of units. *)
Definition inventory_nonneg (s : State) : Prop :=
  Forall (fun e => 0 <= inv_units e) (PyDict.values (blood_inventory s)).

(** The ledger invariant of a request. *)
Definition request_invariant (r : BloodRequest) : Prop :=
  req_status r = Fulfilled <-> req_fulfilled_units r >= req_units_needed r.

(** The status rule as the specification words it. *)
Definition spec_status_rule (r : BloodRequest) (old_status : RequestStatus)
  : RequestStatus :=
  if req_units_needed r - req_fulfilled_units r <=? 0 then Fulfilled
  else if req_fulfilled_units r >? 0 then Partial
  else old_status.

(** The status rule the three crediting routes implement. *)
Definition code_status_rule (r : BloodRequest) : RequestStatus :=
  if req_units_needed r - req_fulfilled_units r <=? 0 then Fulfilled
  else Partial.

(** The eligibility score as the specification words it. *)

(** plus 5 if [last_donation] is set and parseable and more than 90 days
    old *)
Definition rested_bonus (now : datetime) (last_donation : option string)
  : Z :=
  match last_donation with
  | Some s =>
      match strptime_ymd s with
      | Some last => if sub_days now last >? 90 then 5 else 0
      | None => 0
      end
  | None => 0
  end.

(** plus 10 if [last_donation] is null *)
Definition new_donor_bonus (last_donation : option string) : Z :=
  match last_donation with None => 10 | Some _ => 0 end.

Definition spec_eligibility_score (now : datetime) (donor : Donor) : Z :=
  let age := donor_age donor in
  let age_bonus := if (25 <=? age) && (age <=? 45) then 10 else 0 in
  let age_penalty := if (age <? 18) || (65 <? age) then 50 else 0 in
  let unavailable_penalty := if donor_available donor then 0 else 100 in
  let history_bonus := Z.min (donor_total_donations donor * 2) 20 in
  Z.max 0 (Z.min (100 + age_bonus - age_penalty - unavailable_penalty
                  + rested_bonus now (donor_last_donation donor)
                  + new_donor_bonus (donor_last_donation donor)
                  + history_bonus) 150).

(** A donor record as the routes and [init_sample_data] write it:
    [last_donation] is null or a non-empty text. *)
Definition last_donation_written (d : Donor) : Prop :=
  donor_last_donation d <> Some "".

Definition donors_written (s : State) : Prop :=
  Forall last_donation_written (PyDict.values (donors_db s)).

(** The same formula with the new-donor bonus tied to [last_donation]
    being falsy ([None] or the empty string), as [if last_donation:] has
    it. *)
Definition falsy_eligibility_score (now : datetime) (donor : Donor) : Z :=
  let age := donor_age donor in
  let age_bonus := if (25 <=? age) && (age <=? 45) then 10 else 0 in
  let age_penalty := if (age <? 18) || (65 <? age) then 50 else 0 in
  let unavailable_penalty := if donor_available donor then 0 else 100 in
  let rested_bonus :=
    match donor_last_donation donor with
    | Some s =>
        match strptime_ymd s with
        | Some last => if sub_days now last >? 90 then 5 else 0
        | None => 0
        end
    | None => 0
    end in
  let new_donor_bonus :=
    if PyStr.opt_truthy (donor_last_donation donor) then 0 else 10 in
  let history_bonus := Z.min (donor_total_donations donor * 2) 20 in
  Z.max 0 (Z.min (100 + age_bonus - age_penalty - unavailable_penalty
                  + rested_bonus + new_donor_bonus + history_bonus) 150).

(* ================================================================== *)
(** * Properties *)

(** ** Compatibility tables *)

Lemma in_blood_groups g :
  In g blood_groups ->
  g = "A+" \/ g = "A-" \/ g = "B+" \/ g = "B-" \/
  g = "AB+" \/ g = "AB-" \/ g = "O+" \/ g = "O-".
Proof. unfold blood_groups; simpl; intuition auto. Qed.

Ltac each_group H :=
  apply in_blood_groups in H;
  repeat (destruct H as [H|H]); subst.

Ltac decide_str_in :=
  repeat rewrite <- str_in_In; vm_compute;
  first [ reflexivity | split; intros H; (exact H || discriminate H) ].

(** C3: the donor->recipients table and the recipient->donors table are
    converses of one another on the eight blood groups; O- is in every
    recipient's list and AB+ lists all eight groups.  The tables of
    [app_aws.py] are the same two tables. *)
Theorem compatibility_tables_consistent (donorGroup recipientGroup : string) :
  In donorGroup blood_groups ->
  In recipientGroup blood_groups ->
  (In donorGroup (get_compatible_donor_blood_groups recipientGroup)
   <-> In recipientGroup (donor_can_give_to donorGroup))
  /\ In "O-" (get_compatible_donor_blood_groups recipientGroup)
  /\ In donorGroup (get_compatible_donor_blood_groups "AB+")
  /\ AppAws.BLOOD_COMPATIBILITY = BLOOD_COMPATIBILITY
  /\ AppAws.RECEIVE_COMPATIBILITY = RECEIVE_COMPATIBILITY.
Proof.
  intros Hd Hr.
  each_group Hd; each_group Hr;
    (split; [|split; [|split; [|split]]]); decide_str_in.
Qed.

Lemma compatibility_tables_consistent_witness :
  (In "O+" (get_compatible_donor_blood_groups "A-")
   <-> In "A-" (donor_can_give_to "O+"))
  /\ In "O-" (get_compatible_donor_blood_groups "A-")
  /\ In "O+" (get_compatible_donor_blood_groups "AB+")
  /\ AppAws.BLOOD_COMPATIBILITY = BLOOD_COMPATIBILITY
  /\ AppAws.RECEIVE_COMPATIBILITY = RECEIVE_COMPATIBILITY.
Proof.
  apply (compatibility_tables_consistent "O+" "A-");
    unfold blood_groups; simpl; auto 10.
Defined.

(** ** Eligibility helpers *)

Lemma strptime_truthy s d : strptime_ymd s = Some d -> PyStr.truthy s = true.
Proof. destruct s; [discriminate|reflexivity]. Qed.

Lemma strptime_midnight s d :
  strptime_ymd s = Some d ->
  d = mkDatetime (year d) (month d) (day d) 0 0 0 0.
Proof.
  unfold strptime_ymd.
  destruct (parse_year _) as [[y r]|]; [|discriminate].
  destruct (parse_month r) as [[m r']|]; [|discriminate].
  destruct (parse_day r') as [dd|]; [|discriminate].
  destruct (_ && _); [|discriminate].
  now intros [= <-].
Qed.

(** For a parsed date, [(now - last).days] counts calendar days. *)
Lemma sub_days_parsed now s d :
  PyDate.wf now -> strptime_ymd s = Some d ->
  sub_days now d = toordinal now - toordinal d.
Proof.
  intros Hwf Hp. rewrite (strptime_midnight _ _ Hp).
  now rewrite sub_days_midnight.
Qed.

(** *** Dates written by [strftime] and read back by [strptime] *)

Lemma byte_digit_char n : PyStr.byte (digit_char n) = 48 + n mod 10.
Proof.
  pose proof (Z.mod_pos_bound n 10 ltac:(lia)).
  unfold PyStr.byte, digit_char. rewrite nat_ascii_embedding; lia.
Qed.

(** An ASCII character is its own code point. *)
Lemma codepoints_ascii c s :
  PyStr.byte c < 0x80 ->
  PyStr.codepoints (String c s) = PyStr.byte c :: PyStr.codepoints s.
Proof.
  intros Hc.
  assert (H2 : forall b1, PyStr.decode2 (PyStr.byte c) b1 = None).
  { intros b1. unfold PyStr.decode2, PyStr.between.
    replace (0xC0 <=? PyStr.byte c) with false
      by (symmetry; apply Z.leb_gt; lia).
    reflexivity. }
  assert (H3 : forall b1 b2, PyStr.decode3 (PyStr.byte c) b1 b2 = None).
  { intros b1 b2. unfold PyStr.decode3, PyStr.between.
    replace (0xE0 <=? PyStr.byte c) with false
      by (symmetry; apply Z.leb_gt; lia).
    reflexivity. }
  assert (H4 : forall b1 b2 b3,
            PyStr.decode4 (PyStr.byte c) b1 b2 b3 = None).
  { intros b1 b2 b3. unfold PyStr.decode4, PyStr.between.
    replace (0xF0 <=? PyStr.byte c) with false
      by (symmetry; apply Z.leb_gt; lia).
    reflexivity. }
  assert (Hs : PyStr.single (PyStr.byte c) = PyStr.byte c).
  { unfold PyStr.single.
    replace (PyStr.byte c <? 0x80) with true
      by (symmetry; apply Z.ltb_lt; lia).
    reflexivity. }
  destruct s as [|c1 [|c2 [|c3 s4]]]; cbn [PyStr.codepoints];
    rewrite ?H2, ?H3, ?H4, Hs; reflexivity.
Qed.

Lemma byte_of_byte b : 0 <= b < 256 -> PyStr.byte (PyStr.of_byte b) = b.
Proof.
  intros Hb. unfold PyStr.byte, PyStr.of_byte.
  rewrite nat_ascii_embedding; lia.
Qed.

Ltac decide_leb :=
  repeat match goal with
  | |- context [?a <=? ?b] =>
      destruct (Z.leb_spec a b);
      try (exfalso; Z.div_mod_to_equations; lia)
  end.

Lemma text_cons c l :
  PyStr.text (c :: l)
  = String.append (string_of_list_ascii (map PyStr.of_byte (PyStr.utf8 c)))
                  (PyStr.text l).
Proof.
  unfold PyStr.text. cbn [flat_map]. rewrite map_app.
  induction (map PyStr.of_byte (PyStr.utf8 c)) as [|a x IH]; cbn;
    [reflexivity|].
  now rewrite IH.
Qed.

(** Every text is read back from its encoding. *)
Lemma codepoints_text l :
  Forall (fun c => 0 <= c <= 0x10FFFF) l ->
  PyStr.codepoints (PyStr.text l) = l.
Proof.
  induction 1 as [|c l Hc Hl IH]; [reflexivity|].
  rewrite text_cons. unfold PyStr.utf8.
  destruct (Z.ltb_spec c 0); [lia|].
  destruct (Z.ltb_spec c 0x80).
  { cbn [map string_of_list_ascii String.append].
    rewrite codepoints_ascii; rewrite byte_of_byte by lia;
      [now rewrite IH|lia]. }
  destruct (Z.ltb_spec c 0x800).
  { cbn [map string_of_list_ascii String.append PyStr.codepoints].
    rewrite !byte_of_byte by (Z.div_mod_to_equations; lia).
    replace (PyStr.decode2 (0xC0 + c / 64) (0x80 + c mod 64)) with (Some c).
    - now rewrite IH.
    - unfold PyStr.decode2, PyStr.is_cont, PyStr.between. decide_leb.
      cbn [andb]. f_equal. Z.div_mod_to_equations. lia. }
  destruct (Z.ltb_spec c 0x10000).
  { cbn [map string_of_list_ascii String.append PyStr.codepoints].
    rewrite !byte_of_byte by (Z.div_mod_to_equations; lia).
    replace (PyStr.decode2 (0xE0 + c / 4096) (0x80 + (c / 64) mod 64))
      with (@None Z).
    2:{ unfold PyStr.decode2, PyStr.between at 1.
        replace (0xE0 + c / 4096 <=? 0xDF) with false
          by (symmetry; apply Z.leb_gt; Z.div_mod_to_equations; lia).
        now rewrite andb_false_r. }
    replace (PyStr.decode3 (0xE0 + c / 4096) (0x80 + (c / 64) mod 64)
                           (0x80 + c mod 64)) with (Some c).
    - now rewrite IH.
    - unfold PyStr.decode3, PyStr.is_cont, PyStr.between. decide_leb.
      cbn [andb]. f_equal. Z.div_mod_to_equations. lia. }
  cbn [map string_of_list_ascii String.append PyStr.codepoints].
  rewrite !byte_of_byte by (Z.div_mod_to_equations; lia).
  replace (PyStr.decode2 (0xF0 + c / 262144) (0x80 + (c / 4096) mod 64))
    with (@None Z).
  2:{ unfold PyStr.decode2, PyStr.between at 1.
      replace (0xF0 + c / 262144 <=? 0xDF) with false
        by (symmetry; apply Z.leb_gt; Z.div_mod_to_equations; lia).
      now rewrite andb_false_r. }
  replace (PyStr.decode3 (0xF0 + c / 262144) (0x80 + (c / 4096) mod 64)
                         (0x80 + (c / 64) mod 64)) with (@None Z).
  2:{ unfold PyStr.decode3, PyStr.between at 1.
      replace (0xF0 + c / 262144 <=? 0xEF) with false
        by (symmetry; apply Z.leb_gt; Z.div_mod_to_equations; lia).
      now rewrite andb_false_r. }
  replace (PyStr.decode4 (0xF0 + c / 262144) (0x80 + (c / 4096) mod 64)
                         (0x80 + (c / 64) mod 64) (0x80 + c mod 64))
    with (Some c).
  - now rewrite IH.
  - unfold PyStr.decode4, PyStr.is_cont, PyStr.between. decide_leb.
    cbn [andb]. f_equal. Z.div_mod_to_equations. lia.
Qed.

Lemma codepoints_digit_char n s :
  PyStr.codepoints (String (digit_char n) s)
  = (48 + n mod 10) :: PyStr.codepoints s.
Proof.
  pose proof (Z.mod_pos_bound n 10 ltac:(lia)).
  rewrite codepoints_ascii; rewrite byte_digit_char; [reflexivity|lia].
Qed.

(** The code points of [strftime('%Y-%m-%d')]: ten ASCII characters. *)
Lemma codepoints_strftime_ymd t :
  PyStr.codepoints (strftime_ymd t)
  = [48 + (year t / 1000) mod 10; 48 + (year t / 100) mod 10;
     48 + (year t / 10) mod 10; 48 + year t mod 10; 45;
     48 + (month t / 10) mod 10; 48 + month t mod 10; 45;
     48 + (day t / 10) mod 10; 48 + day t mod 10].
Proof.
  unfold strftime_ymd, pad4, pad2. cbn [String.append].
  rewrite !codepoints_digit_char.
  rewrite (codepoints_ascii "-") by (vm_compute; reflexivity).
  rewrite !codepoints_digit_char.
  rewrite (codepoints_ascii "-") by (vm_compute; reflexivity).
  rewrite !codepoints_digit_char.
  reflexivity.
Qed.

(** The ASCII digits are the first run of decimal digits. *)
Lemma to_decimal_ascii c :
  48 <= c <= 57 -> to_decimal c = Some (c - 48).
Proof.
  intros Hc. unfold to_decimal, decimal_zeros. cbn [find].
  unfold PyStr.between.
  replace (0x30 <=? c) with true by (symmetry; apply Z.leb_le; lia).
  replace (c <=? 0x30 + 9) with true by (symmetry; apply Z.leb_le; lia).
  reflexivity.
Qed.

Lemma is_digit_ascii c : 48 <= c <= 57 -> is_digit c = true.
Proof. intros Hc. unfold is_digit. now rewrite to_decimal_ascii. Qed.

Lemma digit_val_ascii c : 48 <= c <= 57 -> digit_val c = c - 48.
Proof. intros Hc. unfold digit_val. now rewrite to_decimal_ascii. Qed.

Lemma parse_year_digits y rest :
  1000 <= y <= 9999 ->
  parse_year (48 + (y / 1000) mod 10 :: 48 + (y / 100) mod 10
              :: 48 + (y / 10) mod 10 :: 48 + y mod 10 :: 45 :: rest)
  = Some (y, rest).
Proof.
  intros Hy. unfold parse_year.
  pose proof (Z.mod_pos_bound (y / 1000) 10 ltac:(lia)).
  pose proof (Z.mod_pos_bound (y / 100) 10 ltac:(lia)).
  pose proof (Z.mod_pos_bound (y / 10) 10 ltac:(lia)).
  pose proof (Z.mod_pos_bound y 10 ltac:(lia)).
  rewrite !is_digit_ascii, !digit_val_ascii by lia.
  change (is_char "-" 45) with true. cbn [andb].
  do 2 f_equal.
  Z.div_mod_to_equations. lia.
Qed.

Lemma parse_month_digits m rest :
  1 <= m <= 12 ->
  parse_month (48 + (m / 10) mod 10 :: 48 + m mod 10 :: 45 :: rest)
  = Some (m, rest).
Proof.
  intros Hm.
  assert (H : m = 1 \/ m = 2 \/ m = 3 \/ m = 4 \/ m = 5 \/ m = 6 \/ m = 7
              \/ m = 8 \/ m = 9 \/ m = 10 \/ m = 11 \/ m = 12) by lia.
  repeat (destruct H as [->|H]; [reflexivity|]). subst. reflexivity.
Qed.

Lemma parse_day_digits d :
  1 <= d <= 31 ->
  parse_day [48 + (d / 10) mod 10; 48 + d mod 10] = Some d.
Proof.
  intros Hd.
  assert (H : exists n, (n < 31)%nat /\ d = Z.of_nat (S n)).
  { exists (Z.to_nat (d - 1)). lia. }
  destruct H as (n & Hn & ->).
  do 31 (destruct n as [|n]; [reflexivity|]). lia.
Qed.

Lemma days_in_month_le_31 y m : days_in_month y m <= 31.
Proof.
  unfold days_in_month.
  destruct (_ && _); [lia|]. destruct (m =? 2); [lia|].
  destruct (_ || _); lia.
Qed.

Lemma strptime_of_strftime t :
  PyDate.wf t -> 1000 <= year t ->
  strptime_ymd (strftime_ymd t)
  = Some (mkDatetime (year t) (month t) (day t) 0 0 0 0).
Proof.
  intros (Hy & Hm & Hd & _) Hy4.
  unfold strptime_ymd. rewrite codepoints_strftime_ymd.
  rewrite parse_year_digits by lia.
  rewrite parse_month_digits by lia.
  pose proof (days_in_month_le_31 (year t) (month t)).
  rewrite parse_day_digits by lia.
  replace (1 <=? year t) with true by (symmetry; apply Z.leb_le; lia).
  replace (day t <=? days_in_month (year t) (month t)) with true
    by (symmetry; apply Z.leb_le; lia).
  reflexivity.
Qed.

(** *** What [strptime] reads *)

Lemma some_inj {A} (a a' : A) : Some a = Some a' -> a = a'.
Proof. congruence. Qed.

Lemma some_pair_inj {A B} (a a' : A) (b b' : B) :
  Some (a, b) = Some (a', b') -> a = a' /\ b = b'.
Proof. intros H. split; congruence. Qed.

Lemma to_decimal_bounds c v : to_decimal c = Some v -> 0 <= v <= 9.
Proof.
  unfold to_decimal.
  destruct (find _ decimal_zeros) as [zero|] eqn:E; [|discriminate].
  apply find_some in E. destruct E as [_ E].
  unfold PyStr.between in E. intros [= <-]. lia.
Qed.

Lemma digit_val_bounds c : 0 <= digit_val c <= 9.
Proof.
  unfold digit_val. destruct (to_decimal c) as [v|] eqn:E; [|lia].
  now apply to_decimal_bounds in E.
Qed.

Lemma in_range_digit lo hi c a b :
  in_range lo hi c = true ->
  PyStr.byte lo = a -> PyStr.byte hi = b -> 48 <= a -> b <= 57 ->
  a <= c <= b /\ digit_val c = c - 48.
Proof.
  unfold in_range, PyStr.between. intros H <- <- Hlo Hhi.
  assert (Hc : PyStr.byte lo <= c <= PyStr.byte hi) by lia.
  split; [exact Hc|]. apply digit_val_ascii. lia.
Qed.

Ltac digit_range H :=
  eapply in_range_digit in H;
  [ | vm_compute; reflexivity | vm_compute; reflexivity | lia | lia ].

Lemma parse_year_range l y rest :
  parse_year l = Some (y, rest) -> 0 <= y <= 9999.
Proof.
  unfold parse_year.
  destruct l as [|y1 [|y2 [|y3 [|y4 [|c r]]]]]; try discriminate.
  destruct (_ && _); [|discriminate].
  intros H; apply some_pair_inj in H; destruct H as [<- _].
  pose proof (digit_val_bounds y1). pose proof (digit_val_bounds y2).
  pose proof (digit_val_bounds y3). pose proof (digit_val_bounds y4). lia.
Qed.

Lemma parse_month_range l m rest :
  parse_month l = Some (m, rest) -> 1 <= m <= 12.
Proof.
  unfold parse_month.
  destruct l as [|c1 [|c2 [|c3 r]]]; try discriminate.
  - destruct (in_range "1" "9" c1) eqn:E1; [|discriminate].
    destruct (is_char "-" c2); [|discriminate].
    intros H; apply some_pair_inj in H; destruct H as [<- _].
    digit_range E1. lia.
  - destruct (is_char "1" c1 && in_range "0" "2" c2 && is_char "-" c3) eqn:A1.
    { intros H; apply some_pair_inj in H; destruct H as [<- _].
      apply andb_prop in A1. destruct A1 as [A1 _].
      apply andb_prop in A1. destruct A1 as [_ A1]. digit_range A1. lia. }
    destruct (is_char "0" c1 && in_range "1" "9" c2 && is_char "-" c3) eqn:A2.
    { intros H; apply some_pair_inj in H; destruct H as [<- _].
      apply andb_prop in A2. destruct A2 as [A2 _].
      apply andb_prop in A2. destruct A2 as [_ A2]. digit_range A2. lia. }
    destruct (in_range "1" "9" c1 && is_char "-" c2) eqn:A3; [|discriminate].
    intros H; apply some_pair_inj in H; destruct H as [<- _].
    apply andb_prop in A3. destruct A3 as [A3 _].
    digit_range A3. lia.
Qed.

Lemma parse_day_positive l d : parse_day l = Some d -> 1 <= d.
Proof.
  unfold parse_day.
  destruct l as [|c1 [|c2 [|c3 r]]]; try discriminate.
  - destruct (in_range "1" "9" c1) eqn:E1; [|discriminate].
    intros H; apply some_inj in H; subst d. digit_range E1. lia.
  - destruct (is_char "3" c1 && in_range "0" "1" c2) eqn:A1.
    { intros H; apply some_inj in H; subst d.
      pose proof (digit_val_bounds c2). lia. }
    destruct (in_range "1" "2" c1 && is_digit c2) eqn:A2.
    { intros H; apply some_inj in H; subst d.
      apply andb_prop in A2. destruct A2 as [A2 _].
      digit_range A2. pose proof (digit_val_bounds c2). lia. }
    destruct (is_char "0" c1 && in_range "1" "9" c2) eqn:A3.
    { intros H; apply some_inj in H; subst d.
      apply andb_prop in A3. destruct A3 as [_ A3].
      digit_range A3. lia. }
    destruct (is_char " " c1 && in_range "1" "9" c2) eqn:A4; [|discriminate].
    intros H; apply some_inj in H; subst d.
    apply andb_prop in A4. destruct A4 as [_ A4].
    digit_range A4. lia.
Qed.

(** What [strptime] returns is a calendar day at midnight. *)
Lemma strptime_wf s d : strptime_ymd s = Some d -> PyDate.wf d.
Proof.
  unfold strptime_ymd.
  destruct (parse_year _) as [[y r]|] eqn:Ey; [|discriminate].
  destruct (parse_month r) as [[m r']|] eqn:Em; [|discriminate].
  destruct (parse_day r') as [dd|] eqn:Ed; [|discriminate].
  destruct ((1 <=? y) && (dd <=? days_in_month y m)) eqn:E; [|discriminate].
  intros [= <-].
  apply parse_year_range in Ey. apply parse_month_range in Em.
  apply parse_day_positive in Ed.
  unfold PyDate.wf; cbn [year month day hour minute second microsecond].
  lia.
Qed.

(** C7: [can_donate] answers [True] for a null or unparseable date;
    for a parsed date it answers [True] exactly when at least 56 days
    have elapsed, so 56 elapsed days give [True] and 55 give [False].
    What [strptime] parses is a calendar day at midnight, so for a
    well-formed [now] the elapsed days are the difference of the two
    calendar days.  Every calendar day written as [YYYY-MM-DD] is parsed
    as that day: for such a text [can_donate] answers [True] exactly when
    the day lies at least 56 days before the day of [now].
    [app_aws.py]'s copy is the same function. *)
Theorem can_donate_spec (now : datetime) (lastDonationDate : option string) :
  (lastDonationDate = None -> can_donate now lastDonationDate = true)
  /\ (forall s, lastDonationDate = Some s -> strptime_ymd s = None ->
        can_donate now lastDonationDate = true)
  /\ (forall s last, lastDonationDate = Some s ->
        strptime_ymd s = Some last ->
        (can_donate now lastDonationDate = true <-> sub_days now last >= 56)
        /\ (sub_days now last = 56 -> can_donate now lastDonationDate = true)
        /\ (sub_days now last = 55 -> can_donate now lastDonationDate = false)
        /\ PyDate.wf last
        /\ (PyDate.wf now ->
            sub_days now last = toordinal now - toordinal last))
  /\ (forall date, PyDate.wf date -> 1000 <= year date ->
        strptime_ymd (strftime_ymd date)
        = Some (mkDatetime (year date) (month date) (day date) 0 0 0 0)
        /\ (PyDate.wf now ->
            (can_donate now (Some (strftime_ymd date)) = true
             <-> toordinal now - toordinal date >= 56)))
  /\ AppAws.can_donate now lastDonationDate = can_donate now lastDonationDate.
Proof.
  split; [|split; [|split; [|split; [|reflexivity]]]].
  - now intros ->.
  - intros s -> Hp. unfold can_donate; simpl.
    destruct (PyStr.truthy s); simpl; auto. now rewrite Hp.
  - intros s last -> Hp. unfold can_donate; simpl.
    rewrite (strptime_truthy _ _ Hp); simpl. rewrite Hp.
    split; [|split; [|split; [|split]]].
    + rewrite Z.geb_le. lia.
    + now intros ->.
    + now intros ->.
    + now apply strptime_wf with (s := s).
    + intros Hwf. now apply sub_days_parsed with (s := s).
  - intros date Hwf Hy.
    pose proof (strptime_of_strftime date Hwf Hy) as Hp.
    split; [exact Hp|]. intros Hnow.
    unfold can_donate. cbn [PyStr.opt_truthy].
    rewrite (strptime_truthy _ _ Hp). cbn [negb]. rewrite Hp.
    rewrite sub_days_midnight by exact Hnow. unfold toordinal.
    rewrite Z.geb_le. lia.
Qed.

Example can_donate_examples :
  let now := mkDatetime 2024 2 26 10 15 0 0 in
  map (can_donate now)
      [ None; Some ""; Some "2024-01-01"; Some "2024-01-02"; Some "2024-1-2";
        Some "2024-01-02 08:00:00"; Some "01/02/2024"; Some "2024-02-30";
        Some (PyStr.text [0xFF12; 0xFF10; 0xFF12; 0xFF14; 45; 48; 49; 45;
                          48; 50]) ]
  = [ true; true; true; false; false; true; true; true; false ].
Proof. vm_compute. reflexivity. Qed.

(** C8 as stated fails: on 2024-02-26, 56 days after 2024-01-01,
    [can_donate] does not answer [False]. *)
Lemma can_donate_2024_02_26_not_false :
  can_donate (mkDatetime 2024 2 26 0 0 0 0) (Some "2024-01-01") <> false.
Proof. vm_compute. discriminate. Qed.

(** C8, amended: at any time of day on 2024-02-26, [can_donate] answers
    [True] for a last donation on 2024-01-01, the two days being exactly
    56 days apart. *)
Theorem can_donate_2024_02_26 (h mi sec us : Z) :
  0 <= h < 24 -> 0 <= mi < 60 -> 0 <= sec < 60 -> 0 <= us < 1000000 ->
  can_donate (mkDatetime 2024 2 26 h mi sec us) (Some "2024-01-01") = true
  /\ sub_days (mkDatetime 2024 2 26 h mi sec us)
              (mkDatetime 2024 1 1 0 0 0 0) = 56.
Proof.
  intros Hh Hm Hs Hus.
  assert (Hwf : PyDate.wf (mkDatetime 2024 2 26 h mi sec us)).
  { unfold PyDate.wf; simpl. repeat split; try lia; vm_compute; discriminate. }
  assert (Hd : sub_days (mkDatetime 2024 2 26 h mi sec us)
                        (mkDatetime 2024 1 1 0 0 0 0) = 56).
  { rewrite sub_days_midnight by exact Hwf. reflexivity. }
  split; [|exact Hd].
  unfold can_donate. cbn [PyStr.opt_truthy PyStr.truthy negb].
  change (strptime_ymd "2024-01-01")
    with (Some (mkDatetime 2024 1 1 0 0 0 0)).
  cbv beta iota. now rewrite Hd.
Qed.

Lemma can_donate_2024_02_26_witness :
  can_donate (mkDatetime 2024 2 26 12 30 0 0) (Some "2024-01-01") = true
  /\ sub_days (mkDatetime 2024 2 26 12 30 0 0)
              (mkDatetime 2024 1 1 0 0 0 0) = 56.
Proof. apply (can_donate_2024_02_26 12 30 0 0); lia. Defined.

(** *** The score and the records the program writes *)

Ltac route_cases :=
  repeat match goal with
  | |- context [match PyDict.get ?d ?k with Some _ => _ | None => _ end] =>
      destruct (PyDict.get d k) eqn:?
  | |- context [if ?b then _ else _] => destruct b eqn:?
  | |- context [match ?o with Some _ => _ | None => _ end] => destruct o eqn:?
  end.

Ltac store_projections :=
  cbn [fst snd donors_db requestors_db blood_requests_db donations_db
       donor_request_assignments blood_inventory
       set_donors set_requestors set_requests set_donations set_assignments
       set_inventory] in *.

Lemma Forall_values_set {V} (P : V -> Prop) (d : PyDict.t V) k v :
  Forall P (PyDict.values d) -> P v -> Forall P (PyDict.values (PyDict.set d k v)).
Proof.
  intros Hd Hv. apply Forall_forall. intros x Hx.
  apply PyDict.in_values_set in Hx. destruct Hx as [->|Hx]; auto.
  rewrite Forall_forall in Hd. auto.
Qed.

Lemma Forall_values_get {V} (P : V -> Prop) (d : PyDict.t V) k v :
  Forall P (PyDict.values d) -> PyDict.get d k = Some v -> P v.
Proof.
  intros Hd Hg. rewrite Forall_forall in Hd.
  apply Hd. now apply PyDict.get_in_values with (k := k).
Qed.

Lemma strftime_ymd_not_empty t : strftime_ymd t <> "".
Proof. unfold strftime_ymd, pad4. cbn [String.append]. discriminate. Qed.

Lemma handle_donors_written o s :
  donors_written s -> donors_written (snd (handle o s)).
Proof.
  unfold donors_written. intros Hs.
  assert (Hget : forall id d,
            PyDict.get (donors_db s) id = Some d -> last_donation_written d).
  { intros id d Hg. exact (Forall_values_get _ _ _ _ Hs Hg). }
  assert (Hnow : forall now d,
            last_donation_written
              (donor_set_donated d (strftime_ymd now)
                                 (donor_total_donations d + 1))).
  { intros now d. unfold last_donation_written, donor_set_donated.
    cbn [donor_last_donation]. intros E. apply some_inj in E.
    now apply strftime_ymd_not_empty in E. }
  destruct o; cbn [handle];
    unfold donor_register, donor_update, record_donation,
      donate_to_inventory, donor_accept_request, donor_confirm_donation,
      requestor_confirm_donor, requestor_register, take_from_inventory,
      request_blood, use_inventory_for_request, confirm_donor_for_request,
      api_update_inventory_for_donor, fulfill_request, update_inventory;
    store_projections; route_cases; store_projections;
    try assumption;
    apply Forall_values_set; try assumption;
    try apply Hnow;
    try (unfold last_donation_written; cbn;
         first [discriminate | eapply Hget; eassumption]).
Qed.

Lemma add_sample_donors_donors l :
  forall st s',
    fold_left add_sample_donor l st = Some s' ->
    exists s0,
      st = Some s0
      /\ donors_db s'
         = fold_left (fun d donor => PyDict.set d (donor_id donor) donor)
                     l (donors_db s0).
Proof.
  induction l as [|donor l IH]; cbn [fold_left]; intros st s' H.
  - exists s'. now split.
  - apply IH in H. destruct H as (s1 & H1 & ->).
    destruct st as [s0|]; [|discriminate].
    exists s0. split; [reflexivity|].
    cbn [add_sample_donor] in H1. store_projections.
    destruct (PyDict.get (blood_inventory s0) (donor_blood_group donor));
      [|discriminate].
    apply some_inj in H1. now subst s1.
Qed.

Lemma init_sample_data_donors s s' :
  init_sample_data s = Some s' ->
  donors_db s' = donors_db s
  \/ PyDict.values (donors_db s') = sample_donors.
Proof.
  unfold init_sample_data.
  destruct (dict_truthy (donors_db s)) eqn:Ed; cbn [orb].
  { intros H; apply some_inj in H. left. now subst. }
  destruct (_ || _); [intros H; apply some_inj in H; left; now subst|].
  destruct (fold_left add_sample_donor sample_donors (Some s)) as [s1|] eqn:E;
    [|discriminate].
  intros H; apply some_inj in H; subst s'. right.
  apply add_sample_donors_donors in E. destruct E as (s0 & [= <-] & E).
  unfold sample_requestors, sample_requests. cbn [fold_left].
  store_projections. rewrite E.
  destruct (donors_db s) as [|kv d]; [reflexivity|discriminate].
Qed.

(** The hypothesis of C9 is needed for a record that was edited by hand
    to hold the empty text: it is scored as a record holding null. *)
Example empty_last_donation_scored_as_null :
  let donor := mkDonor "DON-1" "D" 20 "O+" "Pune" "MH" true "active" 0
                       (Some "") in
  let now := mkDatetime 2025 2 1 9 0 0 0 in
  calculate_donor_eligibility now donor = 110
  /\ spec_eligibility_score now donor = 100.
Proof. split; reflexivity. Qed.

(** C9: the score is 100, plus 10 for an age in 25..45, minus 50 for an
    age below 18 or above 65, minus 100 for an unavailable donor, plus 5
    for a set and parseable last donation more than 90 days old, plus 10
    for a null [last_donation], plus [min(total_donations * 2, 20)],
    clamped to 0..150, for every donor record whose [last_donation] is
    null or a non-empty text.  Such are all records the program writes:
    [init_sample_data] and every route keep [last_donation] null or
    non-empty.  The two last-donation bonuses never both apply, and
    0 <= score <= 150 holds for every record whatsoever.  (The empty
    text is falsy: for every record the score is the same formula with
    the new-donor bonus given to a null or empty [last_donation].)
    [app_aws.py]'s copy computes the same score. *)
Theorem eligibility_score_formula (now : datetime) (donor : Donor) :
  0 <= calculate_donor_eligibility now donor <= 150
  /\ (last_donation_written donor ->
      calculate_donor_eligibility now donor
      = spec_eligibility_score now donor)
  /\ (rested_bonus now (donor_last_donation donor) = 0
      \/ new_donor_bonus (donor_last_donation donor) = 0)
  /\ (forall s s', donors_written s -> init_sample_data s = Some s' ->
        donors_written s')
  /\ (forall o s, donors_written s -> donors_written (snd (handle o s)))
  /\ calculate_donor_eligibility now donor
     = falsy_eligibility_score now donor
  /\ AppAws.calculate_donor_eligibility now donor
     = calculate_donor_eligibility now donor.
Proof.
  assert (Hf : calculate_donor_eligibility now donor
               = falsy_eligibility_score now donor).
  { unfold calculate_donor_eligibility, falsy_eligibility_score.
    destruct donor as [i n age bg c st av stt tot last].
    cbn [donor_age donor_available donor_last_donation
         donor_total_donations].
    destruct last as [[|ch s]|]; cbn [PyStr.opt_truthy PyStr.truthy];
      [ change (strptime_ymd "") with (@None datetime) | | ];
      cbv beta iota zeta;
      try (destruct (strptime_ymd (String ch s)) as [l|];
           [rewrite Z.gtb_ltb; destruct (90 <? sub_days now l)|]);
      destruct av; cbn [negb];
      destruct ((25 <=? age) && (age <=? 45)) eqn:E1;
      destruct ((age <? 18) || (65 <? age)) eqn:E2;
      try (exfalso; clear - E1 E2; lia); lia. }
  split; [|split; [|split; [|split; [|split; [|split;
    [exact Hf|reflexivity]]]]]].
  - rewrite Hf. unfold falsy_eligibility_score. lia.
  - intros Hne. rewrite Hf.
    unfold falsy_eligibility_score, spec_eligibility_score,
      rested_bonus, new_donor_bonus, last_donation_written in *.
    destruct (donor_last_donation donor) as [[|c s]|]; simpl; auto.
    congruence.
  - unfold rested_bonus, new_donor_bonus.
    destruct (donor_last_donation donor); auto.
  - intros s s' Hs Hi. unfold donors_written in *.
    destruct (init_sample_data_donors _ _ Hi) as [->| ->]; [exact Hs|].
    unfold sample_donors.
    repeat constructor; unfold last_donation_written; cbn; discriminate.
  - intros o s. apply handle_donors_written.
Qed.

Example sample_donor_scores :
  let now := mkDatetime 2025 2 1 9 30 0 0 in
  map (fun d => (donor_id d,
                 calculate_donor_eligibility now d,
                 can_donate now (donor_last_donation d)))
      sample_donors
  = [ ("DON-A1B2C3D4", 120, true); ("DON-E5F6G7H8", 116, false);
      ("DON-A2B3C4D5", 124, true); ("DON-I9J0K1L2", 124, true);
      ("DON-M3N4O5P6", 126, false); ("DON-Q7R8S9T0", 118, true) ].
Proof. vm_compute. reflexivity. Qed.

(** ** Matcher *)

Lemma in_firstn {A} (n : nat) (l : list A) (x : A) :
  In x (firstn n l) -> In x l.
Proof.
  intros H. rewrite <- (firstn_skipn n l). apply in_or_app. now left.
Qed.

Lemma aws_get_compatible_donors_eq s g location :
  AppAws.get_compatible_donors (PyDict.values (donors_db s)) g location
  = get_compatible_donors s g location.
Proof.
  unfold AppAws.get_compatible_donors, get_compatible_donors.
  f_equal. apply filter_ext. intros d.
  now rewrite <- !andb_assoc.
Qed.

Lemma find_app_last {A} (p : A -> bool) l x :
  find p (l ++ [x])
  = match find p l with
    | Some y => Some y
    | None => if p x then Some x else None
    end.
Proof.
  induction l as [|a l IH]; cbn; [reflexivity|].
  destruct (p a); auto.
Qed.

Lemma aws_inventory_fold items :
  forall m g,
    PyDict.get
      (fold_left
         (fun m i => PyDict.set m (AppAws.item_blood_group i)
                                (AppAws.item_units i)) items m) g
    = match find (fun i => String.eqb (AppAws.item_blood_group i) g)
                 (rev items) with
      | Some i => Some (AppAws.item_units i)
      | None => PyDict.get m g
      end.
Proof.
  induction items as [|i items IH]; intros m g; [reflexivity|].
  cbn [fold_left rev]. rewrite IH, find_app_last.
  destruct (find _ (rev items)); [reflexivity|].
  destruct (String.eqb_spec (AppAws.item_blood_group i) g) as [<-|Hne].
  - apply PyDict.get_set_same.
  - apply PyDict.get_set_other. congruence.
Qed.

(** C4: [match_blood_request] returns the donors found by
    [get_compatible_donors] for the request's group and location, each
    with its eligibility score and [can_donate] flag, ranked by score in
    descending order with equal scores kept in their order of arrival,
    cut to the first 10; the number of compatible donors before the cut;
    the remaining units; the inventory units of the exact group (0 when
    the group is absent); and [fulfillable], true when the inventory covers
    the remaining units or some donor is compatible.  In [app.py] the
    units are those of the group's entry of [blood_inventory]; in
    [app_aws.py], whose matcher has its own copies of the helpers and
    reads the donors and the inventory items from [db_scan], they are the
    units of the scanned item that carries the group (of the last such
    item, should the scan return several). *)
Theorem match_blood_request_spec (now : datetime) (request : BloodRequest) :
  let group := req_blood_group request in
  let location := Some (PyStr.or_else (req_location request) "") in
  let is_match (score : Donor -> Z) (flag : option string -> bool)
               (found : list Donor) (units : Z) (result : MatchResult) :=
    let annotated :=
      map (fun d => mkScoredDonor d (score d) (flag (donor_last_donation d)))
          found in
    exists ranked : list ScoredDonor,
      Permutation annotated ranked
      /\ StronglySorted (fun a b => match_score a >= match_score b) ranked
      /\ (forall k, filter (fun a => match_score a =? k) ranked
                    = filter (fun a => match_score a =? k) annotated)
      /\ compatible_donors result = firstn 10 ranked
      /\ Forall (fun d =>
                   match_score d = score (sd_donor d)
                   /\ can_donate_now d
                      = flag (donor_last_donation (sd_donor d)))
                (compatible_donors result)
      /\ total_compatible result = Z.of_nat (List.length found)
      /\ remaining_units result
         = req_units_needed request - req_fulfilled_units request
      /\ exact_match_inventory result = units
      /\ fulfillable result
         = (exact_match_inventory result >=? remaining_units result)
           || (total_compatible result >? 0) in
  (forall s : State,
     is_match (calculate_donor_eligibility now) (can_donate now)
       (get_compatible_donors s group location)
       match PyDict.get (blood_inventory s) group with
       | Some entry => inv_units entry
       | None => 0
       end
       (match_blood_request now s request))
  /\ (forall (donors : list Donor)
             (inventory_items : list AppAws.InventoryItem),
        is_match (AppAws.calculate_donor_eligibility now)
          (AppAws.can_donate now)
          (AppAws.get_compatible_donors donors group location)
          match find (fun item =>
                        String.eqb (AppAws.item_blood_group item) group)
                     (rev inventory_items) with
          | Some item => AppAws.item_units item
          | None => 0
          end
          (AppAws.match_blood_request now donors inventory_items request)).
Proof.
  intros group location is_match.
  assert (Hgen : forall score flag found units,
            is_match score flag found units
              (let scored :=
                 PySort.sort_by_desc match_score
                   (map (fun d => mkScoredDonor d (score d)
                                    (flag (donor_last_donation d)))
                        found) in
               let remaining :=
                 req_units_needed request - req_fulfilled_units request in
               mkMatchResult units (firstn 10 scored)
                 (Z.of_nat (List.length scored))
                 ((units >=? remaining)
                  || (Z.of_nat (List.length scored) >? 0))
                 remaining)).
  { intros score flag found units. unfold is_match.
    set (annotated := map _ found).
    exists (PySort.sort_by_desc match_score annotated).
    cbn [compatible_donors total_compatible remaining_units
         exact_match_inventory fulfillable].
    split; [apply PySort.sort_desc_perm|].
    split; [apply PySort.sort_by_desc_sorted|].
    split; [intros k; apply PySort.sort_by_desc_stable|].
    split; [reflexivity|].
    split.
    - apply Forall_forall. intros d Hd.
      apply in_firstn in Hd.
      apply (Permutation_in _ (Permutation_sym
               (PySort.sort_desc_perm _ annotated))) in Hd.
      apply in_map_iff in Hd. destruct Hd as [x [<- _]]. now split.
    - split.
      { unfold PySort.sort_by_desc.
        rewrite PySort.sort_desc_length. unfold annotated.
        now rewrite length_map. }
      split; [reflexivity|]. split; reflexivity. }
  split.
  - intros s. apply Hgen.
  - intros donors inventory_items.
    unfold AppAws.match_blood_request, AppAws.inventory_map.
    rewrite aws_inventory_fold. cbn [PyDict.get].
    destruct (find _ (rev inventory_items)); apply Hgen.
Qed.

Example match_ranks_by_score :
  let now := mkDatetime 2025 2 1 9 0 0 0 in
  let d1 := mkDonor "DON-1" "Rahul" 28 "O+" "Mumbai" "MH" true "active" 5
                    (Some "2024-12-01") in
  let d2 := mkDonor "DON-2" "Anjali" 26 "A-" "Mumbai" "MH" true "active" 2
                    None in
  let d3 := mkDonor "DON-3" "Amit" 25 "B-" "Mumbai" "MH" true "active" 2
                    None in
  let s := mkState [("DON-1", d1); ("DON-2", d2); ("DON-3", d3)] [] [] [] []
                   DEFAULT_INVENTORY in
  let r := mkBloodRequest "BR-1" "GUEST" "P" "A+" 5 0 "H" (Some "mumbai")
                          "high" Pending "2025-02-01 09:00:00" [] (Some 0)
                          None in
  let m := match_blood_request now s r in
  map (fun d => (donor_id (sd_donor d), match_score d, can_donate_now d))
      (compatible_donors m)
  = [("DON-2", 124, true); ("DON-1", 120, true)]
  /\ total_compatible m = 2 /\ exact_match_inventory m = 50
  /\ remaining_units m = 5 /\ fulfillable m = true.
Proof. vm_compute. repeat split. Qed.

(** ** Inventory accounting *)

Lemma inv_add_donor_units e id : inv_units (inv_add_donor e id) = inv_units e.
Proof. unfold inv_add_donor. now destruct (str_in id (inv_donors e)). Qed.

Lemma update_inventory_nonneg s g units operation :
  inventory_nonneg s ->
  (operation = Add -> 0 <= units) ->
  inventory_nonneg (update_inventory s g units operation).
Proof.
  unfold inventory_nonneg, update_inventory. intros Hs Hu.
  destruct (PyDict.get (blood_inventory s) g) as [e|] eqn:Hg; auto.
  cbn [set_inventory blood_inventory].
  apply Forall_values_set; auto. cbn [inv_units].
  pose proof (Forall_values_get _ _ _ _ Hs Hg) as He. cbv beta in He.
  destruct operation; [specialize (Hu eq_refl)|]; lia.
Qed.

Lemma update_inventory_other_stores s g units operation :
  let s' := update_inventory s g units operation in
  donors_db s' = donors_db s /\ requestors_db s' = requestors_db s
  /\ blood_requests_db s' = blood_requests_db s
  /\ donations_db s' = donations_db s
  /\ donor_request_assignments s' = donor_request_assignments s.
Proof.
  unfold update_inventory.
  destruct (PyDict.get (blood_inventory s) g); simpl; auto.
Qed.

Lemma add_donor_nonneg s g e id :
  inventory_nonneg s ->
  PyDict.get (blood_inventory s) g = Some e ->
  inventory_nonneg
    (set_inventory s (PyDict.set (blood_inventory s) g (inv_add_donor e id))).
Proof.
  unfold inventory_nonneg. intros Hs Hg. cbn [set_inventory blood_inventory].
  apply Forall_values_set; auto. rewrite inv_add_donor_units.
  exact (Forall_values_get _ _ _ _ Hs Hg).
Qed.

(** A route that leaves [blood_inventory] alone keeps it non-negative. *)
Lemma inventory_nonneg_same s s' :
  blood_inventory s' = blood_inventory s ->
  inventory_nonneg s -> inventory_nonneg s'.
Proof. unfold inventory_nonneg. now intros ->. Qed.

Lemma donor_register_nonneg new_id form s :
  inventory_nonneg s -> inventory_nonneg (snd (donor_register new_id form s)).
Proof.
  intros Hs. unfold donor_register. cbn [donor_age donor_blood_group].
  destruct (_ || _); [exact Hs|].
  destruct (rf_weight_below_50 form); [exact Hs|].
  set (s1 := set_donors s _).
  assert (H1 : inventory_nonneg s1) by exact Hs.
  set (s2 := if negb (PyDict.mem (blood_inventory s1) (rf_blood_group form))
             then _ else s1).
  assert (H2 : inventory_nonneg s2).
  { unfold s2. destruct (negb _); auto.
    unfold inventory_nonneg. cbn [set_inventory blood_inventory].
    apply Forall_values_set; [exact H1|simpl; lia]. }
  destruct (PyDict.get (blood_inventory s2) (rf_blood_group form)) eqn:Hg;
    cbn [snd]; auto.
  now apply add_donor_nonneg.
Qed.

Lemma record_donation_nonneg now did id units s :
  inventory_nonneg s -> opt_nonneg units ->
  inventory_nonneg (snd (record_donation now did id units s)).
Proof.
  intros Hs Hu. unfold record_donation.
  destruct (PyDict.get (donors_db s) id); [|exact Hs].
  destruct (negb _); [exact Hs|]. cbn [snd].
  apply update_inventory_nonneg; [exact Hs|].
  intros _. destruct units; simpl in *; lia.
Qed.

Lemma donate_to_inventory_nonneg now did id units s :
  inventory_nonneg s ->
  inventory_nonneg (snd (donate_to_inventory now did id units s)).
Proof.
  intros Hs. unfold donate_to_inventory.
  destruct (PyDict.get (donors_db s) id) as [donor|]; [|exact Hs].
  destruct (negb _); [exact Hs|].
  destruct ((int_or units 1 <=? 0) || (50 <? int_or units 1)) eqn:Hr;
    [exact Hs|].
  set (s3 := update_inventory _ _ _ Add).
  assert (H3 : inventory_nonneg s3).
  { apply update_inventory_nonneg; [exact Hs|]. intros _. lia. }
  destruct (PyDict.get (blood_inventory s3) (donor_blood_group donor)) eqn:Hg;
    cbn [snd]; auto.
  now apply add_donor_nonneg.
Qed.

Lemma donor_confirm_donation_nonneg now did aid units s :
  inventory_nonneg s ->
  inventory_nonneg (snd (donor_confirm_donation now did aid units s)).
Proof.
  intros Hs. unfold donor_confirm_donation.
  destruct (PyDict.get (donor_request_assignments s) aid) as [a|]; [|exact Hs].
  destruct (PyDict.get (donors_db s) (asg_donor_id a)) as [donor|]; [|exact Hs].
  destruct (PyDict.get (blood_requests_db s) (asg_request_id a)) as [r|];
    [|exact Hs].
  cbn [set_assignments blood_inventory].
  destruct (PyDict.get (blood_inventory s) (donor_blood_group donor))
    as [e|] eqn:Hg; cbn [snd]; [|exact Hs].
  unfold inventory_nonneg. cbn [set_donations set_donors set_requests
    set_inventory blood_inventory].
  apply Forall_values_set; [exact Hs|]. cbn [inv_units]. lia.
Qed.

Lemma take_from_inventory_nonneg now rqid did rid form s :
  inventory_nonneg s ->
  inventory_nonneg (snd (take_from_inventory now rqid did rid form s)).
Proof.
  intros Hs. unfold take_from_inventory.
  destruct (PyDict.get (requestors_db s) rid); [|exact Hs].
  destruct (wf_blood_group form) as [g|]; [|exact Hs].
  destruct (PyDict.get (blood_inventory s) g); [|exact Hs].
  destruct (_ <=? 0); [exact Hs|].
  destruct (_ <? _); [exact Hs|]. cbn [snd].
  match goal with
  | |- inventory_nonneg (set_donations (set_requestors ?x _) _) =>
      apply inventory_nonneg_same with (s := x); [reflexivity|]
  end.
  apply update_inventory_nonneg; [exact Hs|discriminate].
Qed.

Lemma use_inventory_for_request_nonneg rqid units s :
  inventory_nonneg s ->
  inventory_nonneg (snd (use_inventory_for_request rqid units s)).
Proof.
  intros Hs. unfold use_inventory_for_request.
  destruct (PyDict.get (blood_requests_db s) rqid) as [r|]; [|exact Hs].
  destruct (_ >? _); [exact Hs|].
  destruct (_ <=? 0); cbn [snd];
    (eapply inventory_nonneg_same; [reflexivity|]);
    (apply update_inventory_nonneg; [exact Hs|discriminate]).
Qed.

Lemma fulfill_request_nonneg rqid units s :
  inventory_nonneg s ->
  inventory_nonneg (snd (fulfill_request rqid units s)).
Proof.
  intros Hs. unfold fulfill_request.
  destruct (PyDict.get (blood_requests_db s) rqid) as [r|]; [|exact Hs].
  destruct (_ >=? _); cbn [snd];
    (apply update_inventory_nonneg; [exact Hs|discriminate]).
Qed.

Lemma api_update_inventory_for_donor_nonneg id s :
  inventory_nonneg s ->
  inventory_nonneg (snd (api_update_inventory_for_donor id s)).
Proof.
  intros Hs. unfold api_update_inventory_for_donor.
  destruct (PyDict.get (donors_db s) id) as [donor|]; [|exact Hs].
  destruct (PyDict.get (blood_inventory s) (donor_blood_group donor)) eqn:Hg;
    cbn [snd]; auto.
  now apply add_donor_nonneg.
Qed.

Lemma request_blood_inventory now rqid form s :
  blood_inventory (snd (request_blood now rqid form s)) = blood_inventory s.
Proof.
  unfold request_blood.
  cbn [snd set_requests blood_inventory requestors_db req_requestor_id].
  destruct (PyDict.get (requestors_db s) _); reflexivity.
Qed.

Lemma handle_inventory_nonneg o s :
  inventory_nonneg s -> units_nonneg o ->
  inventory_nonneg (snd (handle o s)).
Proof.
  intros Hs Hu. destruct o; cbn [handle units_nonneg] in *.
  - now apply donor_register_nonneg.
  - unfold donor_update. destruct (PyDict.get _ _); exact Hs.
  - now apply record_donation_nonneg.
  - now apply donate_to_inventory_nonneg.
  - unfold donor_accept_request.
    destruct (PyDict.get _ _); [destruct (PyDict.get _ _)|]; exact Hs.
  - now apply donor_confirm_donation_nonneg.
  - unfold requestor_confirm_donor.
    destruct (PyDict.get _ _); [|exact Hs].
    destruct (PyDict.get _ _); [|exact Hs].
    destruct (PyDict.get _ _); [|exact Hs].
    destruct (PyDict.get _ _); exact Hs.
  - exact Hs.
  - now apply take_from_inventory_nonneg.
  - eapply inventory_nonneg_same; [apply request_blood_inventory|exact Hs].
  - now apply use_inventory_for_request_nonneg.
  - unfold confirm_donor_for_request.
    destruct (PyDict.get _ _); [destruct (PyDict.get _ _)|]; exact Hs.
  - now apply api_update_inventory_for_donor_nonneg.
  - now apply fulfill_request_nonneg.
Qed.

Lemma default_inventory_nonneg : inventory_nonneg initial_state.
Proof.
  unfold inventory_nonneg, initial_state, DEFAULT_INVENTORY; simpl.
  repeat constructor; simpl; lia.
Qed.

(** C6: when every unit amount supplied with a request is a non-negative
    integer, every inventory entry stays non-negative through any
    sequence of operations (registration, donations, confirmations,
    withdrawals, inventory use, legacy fulfilment); the default inventory
    of a first start is non-negative. *)
Theorem inventory_never_negative (ops : list Op) (s : State) :
  inventory_nonneg s ->
  Forall units_nonneg ops ->
  inventory_nonneg (run ops s) /\ inventory_nonneg initial_state.
Proof.
  intros Hs Hops. split; [|exact default_inventory_nonneg].
  revert s Hs. induction Hops as [|o ops Ho Hops IH]; intros s Hs.
  - exact Hs.
  - cbn [run fold_left]. apply IH. now apply handle_inventory_nonneg.
Qed.

(** A session on a first start: an AB- donor registers, a guest files a
    request for 5 units, the donor accepts it and confirms 20 units (more
    than the 15 in stock), a requestor registers and withdraws all 40
    units of O-, the legacy route credits 0 units. *)
Definition sample_now : datetime := mkDatetime 2025 2 1 9 30 0 0.

Definition sample_ops : list Op :=
  [ DonorRegister "DON-1" (mkRegisterForm "Asha" 30 "AB-" false "Pune" "MH");
    RequestBlood sample_now "BR-1"
      (mkRequestForm None "P" "AB-" 5 "City Hospital" (Some "Pune") None);
    DonorAcceptRequest sample_now "ASGN-1" "DON-1" "BR-1" (Some 2);
    DonorConfirmDonation sample_now "DN-1" "ASGN-1" (Some 20);
    RequestorRegister "REQ-1" "Dr. Rao" (Some "City Hospital");
    TakeFromInventory sample_now "BR-2" "DN-2" "REQ-1"
      (mkWithdrawForm (Some "O-") (Some 40) None);
    FulfillRequest "BR-1" None ].

Example sample_ops_inventory :
  map (fun kv => (fst kv, inv_units (snd kv)))
      (blood_inventory (run sample_ops initial_state))
  = [("A+", 50); ("A-", 30); ("B+", 45); ("B-", 25);
     ("AB+", 20); ("AB-", 0); ("O+", 60); ("O-", 0)].
Proof. reflexivity. Qed.

Lemma inventory_never_negative_witness :
  inventory_nonneg (run sample_ops initial_state)
  /\ inventory_nonneg initial_state.
Proof.
  apply (inventory_never_negative sample_ops initial_state).
  - unfold inventory_nonneg; simpl. repeat constructor; simpl; lia.
  - unfold sample_ops. repeat constructor; simpl; lia.
Defined.

(** ** Withdrawal from the inventory *)

(** C5: for a registered requestor, a blood group held in the inventory
    and a positive number of units, [take_from_inventory] fails and
    leaves every store as it was when the units exceed the stock;
    otherwise it succeeds, lowers the stock of that group by exactly the
    units, stores a request of type [inventory_withdrawal] that is
    fulfilled with [fulfilled_units = units_needed], and stores a
    completed donation whose donor is [INVENTORY]; with fresh identifiers
    both records are new last entries of their stores. *)
Theorem take_from_inventory_spec (now : datetime)
  (request_id donation_id rid : string) (form : WithdrawForm) (s : State)
  (requestor : Requestor) (group : string) (entry : InventoryEntry)
  (units : Z) :
  PyDict.get (requestors_db s) rid = Some requestor ->
  wf_blood_group form = Some group ->
  PyDict.get (blood_inventory s) group = Some entry ->
  int_or (wf_units_needed form) 1 = units ->
  0 < units ->
  let result := take_from_inventory now request_id donation_id rid form s in
  (units > inv_units entry ->
     fst result = FlashError InsufficientInventory /\ snd result = s)
  /\ (units <= inv_units entry ->
      fst result = FlashSuccess
      /\ blood_inventory (snd result)
         = PyDict.set (blood_inventory s) group
             (mkInventoryEntry (inv_units entry - units) (inv_donors entry))
      /\ (exists r,
            PyDict.get (blood_requests_db (snd result)) request_id = Some r
            /\ req_type r = Some "inventory_withdrawal"
            /\ req_status r = Fulfilled
            /\ req_units_needed r = units
            /\ req_fulfilled_units r = req_units_needed r
            /\ req_blood_group r = group
            /\ (PyDict.get (blood_requests_db s) request_id = None ->
                blood_requests_db (snd result)
                = blood_requests_db s ++ [(request_id, r)]))
      /\ (exists d,
            PyDict.get (donations_db (snd result)) donation_id = Some d
            /\ don_donor_id d = "INVENTORY"
            /\ don_status d = Some "completed"
            /\ don_units d = units
            /\ don_blood_group d = group
            /\ don_request_id d = Some request_id
            /\ (PyDict.get (donations_db s) donation_id = None ->
                donations_db (snd result)
                = donations_db s ++ [(donation_id, d)]))).
Proof.
  intros Hrq Hg Hinv Hunits Hpos result.
  unfold result, take_from_inventory.
  rewrite Hrq, Hg, Hinv, Hunits.
  destruct (Z.leb_spec units 0) as [Hle|_]; [lia|].
  split; intros Hcmp.
  - destruct (Z.ltb_spec (inv_units entry) units) as [_|Hge]; [|lia].
    now split.
  - destruct (Z.ltb_spec (inv_units entry) units) as [Hlt|_]; [lia|].
    cbn [fst snd]. split; [reflexivity|].
    unfold update_inventory.
    cbn [set_requests blood_inventory]. rewrite Hinv.
    cbn [set_donations set_requestors set_inventory blood_inventory
         blood_requests_db donations_db].
    split; [|split].
    + f_equal. f_equal. lia.
    + eexists. split; [apply PyDict.get_set_same|].
      cbn [req_type req_status req_units_needed req_fulfilled_units
           req_blood_group].
      repeat (split; [reflexivity|]).
      intros Hfresh. now apply PyDict.set_fresh.
    + eexists. split; [apply PyDict.get_set_same|].
      cbn [don_donor_id don_status don_units don_blood_group don_request_id].
      repeat (split; [reflexivity|]).
      intros Hfresh. now apply PyDict.set_fresh.
Qed.

(** The scenario of the specification: with 10 units of O- in stock, a
    withdrawal of 15 fails and a withdrawal of 10 leaves 0. *)
Definition o_neg_10_state : State :=
  mkState [] [("REQ-1", mkRequestor "REQ-1" "Dr. Rao" (Some "City Hospital") 0)]
          [] [] [] [("O-", mkInventoryEntry 10 ["DON-9"])].

Example withdraw_15_of_10_fails :
  take_from_inventory sample_now "BR-1" "DN-1" "REQ-1"
    (mkWithdrawForm (Some "O-") (Some 15) None) o_neg_10_state
  = (FlashError InsufficientInventory, o_neg_10_state).
Proof. reflexivity. Qed.

Lemma take_from_inventory_spec_witness :
  let result :=
    take_from_inventory sample_now "BR-1" "DN-1" "REQ-1"
      (mkWithdrawForm (Some "O-") (Some 10) None) o_neg_10_state in
  fst result = FlashSuccess
  /\ blood_inventory (snd result) = [("O-", mkInventoryEntry 0 ["DON-9"])].
Proof.
  destruct (take_from_inventory_spec sample_now "BR-1" "DN-1" "REQ-1"
              (mkWithdrawForm (Some "O-") (Some 10) None) o_neg_10_state
              (mkRequestor "REQ-1" "Dr. Rao" (Some "City Hospital") 0)
              "O-" (mkInventoryEntry 10 ["DON-9"]) 10
              eq_refl eq_refl eq_refl eq_refl ltac:(lia))
    as [_ Hok].
  destruct (Hok ltac:(simpl; lia)) as (Hflash & Hinv & _).
  split; [exact Hflash|exact Hinv].
Defined.

(** ** Confirmation of a donation *)

(** The routes that can answer "You must wait 56 days between
    donations!". *)
Definition checks_cooldown (o : Op) : bool :=
  match o with
  | RecordDonation _ _ _ _ | DonateToInventory _ _ _ _ => true
  | _ => false
  end.

Lemma cooldown_error_only_on_donation_routes o s :
  fst (handle o s) = FlashError MustWait56Days -> checks_cooldown o = true.
Proof.
  destruct o; cbn [handle checks_cooldown]; auto.
  - unfold donor_register.
    destruct (_ || _); [discriminate|].
    destruct (rf_weight_below_50 form); [discriminate|].
    destruct (PyDict.get _ _); discriminate.
  - unfold donor_update. destruct (PyDict.get _ _); discriminate.
  - unfold donor_accept_request.
    destruct (PyDict.get _ _); [destruct (PyDict.get _ _)|]; discriminate.
  - unfold donor_confirm_donation.
    destruct (PyDict.get _ _) as [a|]; [|discriminate].
    destruct (PyDict.get (donors_db s) _) as [d|]; [|discriminate].
    destruct (PyDict.get (blood_requests_db s) _) as [r|]; [|discriminate].
    cbn [set_assignments blood_inventory].
    destruct (PyDict.get (blood_inventory s) _); discriminate.
  - unfold requestor_confirm_donor.
    destruct (PyDict.get _ _); [|discriminate].
    destruct (PyDict.get _ _); [|discriminate].
    destruct (PyDict.get _ _); [|discriminate].
    destruct (PyDict.get _ _); discriminate.
  - discriminate.
  - unfold take_from_inventory.
    destruct (PyDict.get _ _); [|discriminate].
    destruct (wf_blood_group form); [|discriminate].
    destruct (PyDict.get _ _); [|discriminate].
    destruct (_ <=? 0); [discriminate|].
    destruct (_ <? _); discriminate.
  - discriminate.
  - unfold use_inventory_for_request.
    destruct (PyDict.get _ _); [|discriminate].
    destruct (_ >? _); [discriminate|].
    destruct (_ <=? 0); discriminate.
  - unfold confirm_donor_for_request.
    destruct (PyDict.get _ _); [destruct (PyDict.get _ _)|]; discriminate.
  - unfold api_update_inventory_for_donor.
    destruct (PyDict.get _ _); [|discriminate].
    destruct (PyDict.get _ _); discriminate.
  - unfold fulfill_request.
    destruct (PyDict.get _ _); [|discriminate].
    destruct (_ >=? _); discriminate.
Qed.

(** C10: [donor_confirm_donation] never consults [can_donate].  Whenever
    the assignment, its donor and its request exist it succeeds: the
    assignment is completed, the request is credited, the stock of the
    donor's group is lowered (not below 0), the donor's counter and
    [last_donation] are updated and a completed donation is stored -- also
    when the donor last donated fewer than 56 days ago, a state in which
    [record_donation] and [donate_to_inventory] refuse the same donor.
    Those two routes are the only ones that answer with the 56-day
    error. *)
Theorem confirm_donation_ignores_cooldown (now : datetime)
  (donation_id assignment_id : string) (form_units : option Z) (s : State)
  (a : Assignment) (donor : Donor) (r : BloodRequest) :
  PyDict.get (donor_request_assignments s) assignment_id = Some a ->
  PyDict.get (donors_db s) (asg_donor_id a) = Some donor ->
  PyDict.get (blood_requests_db s) (asg_request_id a) = Some r ->
  let units := int_or form_units (asg_units_offered a) in
  let result :=
    donor_confirm_donation now donation_id assignment_id form_units s in
  fst result = FlashSuccess
  /\ (exists a',
        PyDict.get (donor_request_assignments (snd result)) assignment_id
        = Some a'
        /\ asg_status a' = Completed /\ asg_units_donated a' = Some units)
  /\ (exists r',
        PyDict.get (blood_requests_db (snd result)) (asg_request_id a)
        = Some r'
        /\ req_fulfilled_units r' = req_fulfilled_units r + units)
  /\ (forall e,
        PyDict.get (blood_inventory s) (donor_blood_group donor) = Some e ->
        PyDict.get (blood_inventory (snd result)) (donor_blood_group donor)
        = Some (mkInventoryEntry (Z.max 0 (inv_units e - units))
                                 (inv_donors e)))
  /\ (exists donor',
        PyDict.get (donors_db (snd result)) (asg_donor_id a) = Some donor'
        /\ donor_total_donations donor' = donor_total_donations donor + 1
        /\ donor_last_donation donor' = Some (strftime_ymd now))
  /\ (exists d,
        PyDict.get (donations_db (snd result)) donation_id = Some d
        /\ don_donor_id d = asg_donor_id a
        /\ don_request_id d = Some (asg_request_id a)
        /\ don_units d = units
        /\ don_status d = Some "completed"
        /\ (PyDict.get (donations_db s) donation_id = None ->
            donations_db (snd result) = donations_db s ++ [(donation_id, d)]))
  /\ (can_donate now (donor_last_donation donor) = false ->
      forall donation_id' form_units',
        record_donation now donation_id' (asg_donor_id a) form_units' s
        = (FlashError MustWait56Days, s)
        /\ donate_to_inventory now donation_id' (asg_donor_id a) form_units' s
           = (FlashError MustWait56Days, s))
  /\ (forall o s0,
        fst (handle o s0) = FlashError MustWait56Days ->
        checks_cooldown o = true).
Proof.
  intros Ha Hd Hr units result.
  assert (Hcool :
    can_donate now (donor_last_donation donor) = false ->
    forall donation_id' form_units',
      record_donation now donation_id' (asg_donor_id a) form_units' s
      = (FlashError MustWait56Days, s)
      /\ donate_to_inventory now donation_id' (asg_donor_id a) form_units' s
         = (FlashError MustWait56Days, s)).
  { intros Hcd did' fu'. unfold record_donation, donate_to_inventory.
    rewrite Hd, Hcd. now split. }
  unfold result, donor_confirm_donation. rewrite Ha, Hd, Hr.
  cbn [set_assignments blood_inventory]. fold units.
  destruct (PyDict.get (blood_inventory s) (donor_blood_group donor))
    as [e|] eqn:He;
    cbn [fst snd set_donations set_donors set_requests set_inventory
         donor_request_assignments blood_requests_db blood_inventory
         donors_db donations_db];
    (split; [reflexivity|]);
    (split; [eexists; split; [apply PyDict.get_set_same|now split]|]);
    (split; [eexists; split; [apply PyDict.get_set_same|reflexivity]|]);
    (split; [intros e' [= <-]; apply PyDict.get_set_same|]);
    (split; [eexists; split; [apply PyDict.get_set_same|now split]|]);
    (split; [eexists; split; [apply PyDict.get_set_same|];
             repeat (split; [reflexivity|]);
             intros Hfresh; now apply PyDict.set_fresh|]);
    (split; [exact Hcool|]);
    intros o s0; apply cooldown_error_only_on_donation_routes.
Qed.

(** A donor who gave blood 10 days ago, holding an accepted assignment
    of 3 units on a request that needs 5. *)
Definition cooldown_state : State :=
  mkState
    [("DON-1", mkDonor "DON-1" "Asha" 30 "O-" "Pune" "MH" true "active" 4
                       (Some "2025-01-22"))]
    []
    [("BR-1", mkBloodRequest "BR-1" "GUEST" "P" "O-" 5 0 "City Hospital"
                (Some "Pune") "normal" Pending "2025-01-30 08:00:00" []
                (Some 0) None)]
    []
    [("ASGN-1", mkAssignment "ASGN-1" "DON-1" "BR-1" 3 Accepted
                  "2025-01-31 08:00:00" None None None)]
    DEFAULT_INVENTORY.

Lemma confirm_donation_ignores_cooldown_witness :
  can_donate sample_now (Some "2025-01-22") = false
  /\ fst (donor_confirm_donation sample_now "DN-1" "ASGN-1" None
            cooldown_state) = FlashSuccess
  /\ record_donation sample_now "DN-1" "DON-1" None cooldown_state
     = (FlashError MustWait56Days, cooldown_state).
Proof.
  destruct (confirm_donation_ignores_cooldown sample_now "DN-1" "ASGN-1" None
              cooldown_state
              (mkAssignment "ASGN-1" "DON-1" "BR-1" 3 Accepted
                 "2025-01-31 08:00:00" None None None)
              (mkDonor "DON-1" "Asha" 30 "O-" "Pune" "MH" true "active" 4
                 (Some "2025-01-22"))
              (mkBloodRequest "BR-1" "GUEST" "P" "O-" 5 0 "City Hospital"
                 (Some "Pune") "normal" Pending "2025-01-30 08:00:00" []
                 (Some 0) None)
              eq_refl eq_refl eq_refl)
    as (Hflash & _ & _ & _ & _ & _ & Hcool & _).
  split; [reflexivity|]. split; [exact Hflash|].
  exact (proj1 (Hcool eq_refl "DN-1" None)).
Defined.

Example confirm_in_cooldown_effects :
  let s' := snd (donor_confirm_donation sample_now "DN-1" "ASGN-1" None
                   cooldown_state) in
  option_map (fun r => (req_status r, req_fulfilled_units r))
             (PyDict.get (blood_requests_db s') "BR-1") = Some (Partial, 3)
  /\ inventory_units s' "O-" = 37
  /\ option_map donor_last_donation (PyDict.get (donors_db s') "DON-1")
     = Some (Some "2025-02-01").
Proof. repeat split. Qed.

(** ** Status of a credited request *)

(** The request a route credits and the units it credits, when the route
    reaches its [fulfilled_units] assignment. *)
Definition credit_of (o : Op) (s : State) : option (string * Z) :=
  match o with
  | DonorConfirmDonation _ _ assignment_id units =>
      match PyDict.get (donor_request_assignments s) assignment_id with
      | Some a =>
          match PyDict.get (donors_db s) (asg_donor_id a),
                PyDict.get (blood_requests_db s) (asg_request_id a) with
          | Some _, Some _ =>
              Some (asg_request_id a, int_or units (asg_units_offered a))
          | _, _ => None
          end
      | None => None
      end
  | UseInventoryForRequest request_id units =>
      match PyDict.get (blood_requests_db s) request_id with
      | Some r =>
          if int_or units 0 >? inventory_units s (req_blood_group r)
          then None
          else Some (request_id, int_or units 0)
      | None => None
      end
  | FulfillRequest request_id units =>
      match PyDict.get (blood_requests_db s) request_id with
      | Some _ => Some (request_id, int_or units 0)
      | None => None
      end
  | _ => None
  end.

(** A pending request for 5 units of A+, nothing fulfilled yet. *)
Definition pending_state : State :=
  mkState [] []
    [("BR-1", mkBloodRequest "BR-1" "GUEST" "P" "A+" 5 0 "City Hospital"
                (Some "Pune") "normal" Pending "2025-01-30 08:00:00" []
                (Some 0) None)]
    [] [] DEFAULT_INVENTORY.

(** C1 as stated fails: crediting 0 units to a pending request with
    [fulfilled_units = 0] through [use_inventory_for_request] (whose form
    field defaults to 0) turns it to [partial], where the stated rule
    keeps it [pending]. *)
Lemma credit_zero_makes_partial :
  credit_of (UseInventoryForRequest "BR-1" None) pending_state
  = Some ("BR-1", 0)
  /\ exists r',
       PyDict.get
         (blood_requests_db
            (snd (handle (UseInventoryForRequest "BR-1" None) pending_state)))
         "BR-1" = Some r'
       /\ req_fulfilled_units r' = 0
       /\ req_status r' = Partial
       /\ spec_status_rule r' Pending = Pending
       /\ req_status r' <> spec_status_rule r' Pending.
Proof. split; [reflexivity|]. eexists. repeat split. discriminate. Qed.

Lemma update_inventory_requests s g units operation :
  blood_requests_db (update_inventory s g units operation)
  = blood_requests_db s.
Proof. apply update_inventory_other_stores. Qed.

(** C1, amended: whenever [donor_confirm_donation],
    [use_inventory_for_request] or [fulfill_request] credits [delta] units
    to a request, the request ends with [fulfilled_units] raised by
    [delta] and with status [fulfilled] if
    [units_needed - fulfilled_units <= 0] and [partial] otherwise; this is
    the stated rule whenever the request ends with
    [fulfilled_units > 0] or with nothing remaining. *)
Theorem credit_sets_status (o : Op) (s : State) (request_id : string)
  (delta : Z) (r : BloodRequest) :
  credit_of o s = Some (request_id, delta) ->
  PyDict.get (blood_requests_db s) request_id = Some r ->
  exists r',
    PyDict.get (blood_requests_db (snd (handle o s))) request_id = Some r'
    /\ req_units_needed r' = req_units_needed r
    /\ req_fulfilled_units r' = req_fulfilled_units r + delta
    /\ req_status r' = code_status_rule r'
    /\ (req_fulfilled_units r' > 0
        \/ req_units_needed r' - req_fulfilled_units r' <= 0 ->
        req_status r' = spec_status_rule r' (req_status r)).
Proof.
  assert (Hrule : forall r0 f u st,
    st = (if req_units_needed r0 - f <=? 0 then Fulfilled else Partial) ->
    let r' := req_set_progress r0 f st u in
    req_units_needed r' = req_units_needed r0
    /\ req_fulfilled_units r' = f
    /\ req_status r' = code_status_rule r'
    /\ (req_fulfilled_units r' > 0
        \/ req_units_needed r' - req_fulfilled_units r' <= 0 ->
        req_status r' = spec_status_rule r' (req_status r0))).
  { intros r0 f u st -> r'. unfold code_status_rule, spec_status_rule.
    cbn [r' req_set_progress req_units_needed req_fulfilled_units req_status].
    repeat split.
    intros H. destruct (Z.leb_spec (req_units_needed r0 - f) 0); auto.
    destruct (Z.gtb_spec f 0); auto. lia. }
  intros Hc Hr. destruct o; try discriminate Hc; cbn [credit_of handle] in *.
  - (* donor_confirm_donation *)
    unfold donor_confirm_donation.
    destruct (PyDict.get (donor_request_assignments s) assignment_id)
      as [a|]; [|discriminate].
    destruct (PyDict.get (donors_db s) (asg_donor_id a)) as [d|];
      [|discriminate].
    destruct (PyDict.get (blood_requests_db s) (asg_request_id a)) as [r0|]
      eqn:Hr0; [|discriminate].
    injection Hc as <- <-. rewrite Hr in Hr0. injection Hr0 as <-.
    cbn [set_assignments blood_inventory].
    destruct (PyDict.get (blood_inventory s) (donor_blood_group d));
      cbn [snd set_donations set_donors set_requests set_inventory
           blood_requests_db];
      (eexists; split; [apply PyDict.get_set_same|]);
      apply Hrule; reflexivity.
  - (* use_inventory_for_request *)
    unfold use_inventory_for_request.
    destruct (PyDict.get (blood_requests_db s) request_id0) as [r0|] eqn:Hr0;
      [|discriminate].
    destruct (_ >? _); [discriminate|]. injection Hc as <- <-.
    rewrite Hr in Hr0. injection Hr0 as <-.
    destruct (Z.leb_spec
                (req_units_needed r - (req_fulfilled_units r + int_or units 0))
                0) as [Hle|Hgt];
      cbn [snd set_requests blood_requests_db];
      (eexists; split; [apply PyDict.get_set_same|]);
      apply Hrule;
      [ destruct (Z.leb_spec (req_units_needed r
                              - (req_fulfilled_units r + int_or units 0)) 0)
      | destruct (Z.leb_spec (req_units_needed r
                              - (req_fulfilled_units r + int_or units 0)) 0) ];
      (reflexivity || lia).
  - (* fulfill_request *)
    unfold fulfill_request.
    destruct (PyDict.get (blood_requests_db s) request_id0) as [r0|] eqn:Hr0;
      [|discriminate].
    injection Hc as <- <-. rewrite Hr in Hr0. injection Hr0 as <-.
    destruct (Z.geb_spec (req_fulfilled_units r + int_or units 0)
                         (req_units_needed r)) as [Hge|Hlt];
      cbn [snd]; rewrite update_inventory_requests;
      cbn [set_requests blood_requests_db];
      (eexists; split; [apply PyDict.get_set_same|]);
      apply Hrule;
      destruct (Z.leb_spec (req_units_needed r
                            - (req_fulfilled_units r + int_or units 0)) 0);
      (reflexivity || lia).
Qed.

Lemma credit_sets_status_witness :
  exists r',
    PyDict.get
      (blood_requests_db
         (snd (handle (DonorConfirmDonation sample_now "DN-1" "ASGN-1" None)
                      cooldown_state)))
      "BR-1" = Some r'
    /\ req_units_needed r' = 5
    /\ req_fulfilled_units r' = 0 + 3
    /\ req_status r' = code_status_rule r'.
Proof.
  destruct (credit_sets_status
              (DonorConfirmDonation sample_now "DN-1" "ASGN-1" None)
              cooldown_state "BR-1" 3
              (mkBloodRequest "BR-1" "GUEST" "P" "O-" 5 0 "City Hospital"
                 (Some "Pune") "normal" Pending "2025-01-30 08:00:00" []
                 (Some 0) None)
              eq_refl eq_refl)
    as (r' & Hget & Hneed & Hful & Hst & _).
  exists r'. repeat split; assumption.
Defined.

(** The scenario of the specification: a request needs 5 units; a
    confirmation of 3 makes it partial, a further one of 2 fulfils it. *)
Example confirm_3_then_2 :
  let s0 :=
    snd (donor_accept_request sample_now "ASGN-2" "DON-1" "BR-1" (Some 2)
           cooldown_state) in
  let s1 := snd (donor_confirm_donation sample_now "DN-1" "ASGN-1" None s0) in
  let s2 := snd (donor_confirm_donation sample_now "DN-2" "ASGN-2" None s1) in
  let view s :=
    option_map (fun r => (req_status r,
                          req_units_needed r - req_fulfilled_units r))
               (PyDict.get (blood_requests_db s) "BR-1") in
  view s0 = Some (Pending, 5) /\ view s1 = Some (Partial, 2)
  /\ view s2 = Some (Fulfilled, 0).
Proof. repeat split. Qed.

(** ** The ledger invariant *)

Definition requests_ok (s : State) : Prop :=
  Forall request_invariant (PyDict.values (blood_requests_db s)).

(** Every request filed through [request_blood] asks for at least one
    unit. *)
Definition files_positive (o : Op) : Prop :=
  match o with
  | RequestBlood _ _ form => 0 < qf_units_needed form
  | _ => True
  end.

(** C2: the invariant [status = fulfilled <-> fulfilled_units >=
    units_needed] fails for the request that [request_blood] files with
    [units_needed = 0]: it is stored as [pending] with
    [fulfilled_units = 0 >= units_needed]. *)
Theorem request_blood_zero_units_breaks_invariant :
  let form :=
    mkRequestForm None "P" "A+" 0 "City Hospital" (Some "Pune") None in
  let s' := snd (request_blood sample_now "BR-1" form initial_state) in
  exists r,
    PyDict.get (blood_requests_db s') "BR-1" = Some r
    /\ req_status r = Pending
    /\ req_fulfilled_units r = 0
    /\ req_units_needed r = 0
    /\ ~ request_invariant r.
Proof.
  eexists. split; [reflexivity|]. cbn.
  repeat (split; [reflexivity|]).
  unfold request_invariant; cbn. intros [_ H].
  assert (Hge : 0 >= 0) by lia. specialize (H Hge). discriminate H.
Qed.

Lemma progress_invariant r f u st :
  st = (if req_units_needed r - f <=? 0 then Fulfilled else Partial) ->
  request_invariant (req_set_progress r f st u).
Proof.
  intros ->. unfold request_invariant.
  cbn [req_set_progress req_status req_fulfilled_units req_units_needed].
  destruct (Z.leb_spec (req_units_needed r - f) 0); split; intros Hx;
    (reflexivity || discriminate || lia).
Qed.

Lemma requests_ok_same s s' :
  blood_requests_db s' = blood_requests_db s -> requests_ok s -> requests_ok s'.
Proof. unfold requests_ok. now intros ->. Qed.

Lemma donor_register_requests new_id form s :
  blood_requests_db (snd (donor_register new_id form s)) = blood_requests_db s.
Proof.
  unfold donor_register.
  destruct (_ || _); [reflexivity|].
  destruct (rf_weight_below_50 form); [reflexivity|].
  destruct (negb _); destruct (PyDict.get _ _); reflexivity.
Qed.

Lemma handle_requests_ok o s :
  requests_ok s -> files_positive o -> requests_ok (snd (handle o s)).
Proof.
  intros Hs Hpos. destruct o; cbn [handle files_positive] in *.
  - eapply requests_ok_same; [apply donor_register_requests|exact Hs].
  - unfold donor_update. destruct (PyDict.get _ _); exact Hs.
  - unfold record_donation.
    destruct (PyDict.get _ _); [|exact Hs].
    destruct (negb _); [exact Hs|].
    unfold requests_ok. cbn [snd].
    rewrite update_inventory_requests. exact Hs.
  - unfold donate_to_inventory.
    destruct (PyDict.get _ _); [|exact Hs].
    destruct (negb _); [exact Hs|].
    destruct (_ || _); [exact Hs|].
    destruct (PyDict.get _ _); unfold requests_ok;
      cbn [snd set_inventory blood_requests_db];
      rewrite update_inventory_requests; exact Hs.
  - unfold donor_accept_request.
    destruct (PyDict.get _ _); [destruct (PyDict.get _ _)|]; exact Hs.
  - unfold donor_confirm_donation.
    destruct (PyDict.get _ _) as [a|]; [|exact Hs].
    destruct (PyDict.get (donors_db s) _) as [d|]; [|exact Hs].
    destruct (PyDict.get (blood_requests_db s) _) as [r|]; [|exact Hs].
    cbn [set_assignments blood_inventory].
    destruct (PyDict.get (blood_inventory s) _);
      unfold requests_ok;
      cbn [snd set_donations set_donors set_requests set_inventory
           blood_requests_db];
      (apply Forall_values_set; [exact Hs|]);
      apply progress_invariant; reflexivity.
  - unfold requestor_confirm_donor.
    destruct (PyDict.get _ _); [|exact Hs].
    destruct (PyDict.get _ _); [|exact Hs].
    destruct (PyDict.get _ _); [|exact Hs].
    destruct (PyDict.get _ _); exact Hs.
  - exact Hs.
  - unfold take_from_inventory.
    destruct (PyDict.get _ _); [|exact Hs].
    destruct (wf_blood_group form) as [g|]; [|exact Hs].
    destruct (PyDict.get _ _); [|exact Hs].
    destruct (_ <=? 0); [exact Hs|].
    destruct (_ <? _); [exact Hs|].
    unfold requests_ok.
    cbn [snd set_donations set_requestors blood_requests_db].
    rewrite update_inventory_requests. cbn [set_requests blood_requests_db].
    apply Forall_values_set; [exact Hs|].
    unfold request_invariant; cbn. split; [lia|reflexivity].
  - unfold request_blood, requests_ok.
    cbn [snd set_requests blood_requests_db].
    apply Forall_values_set.
    + assert (H1 : Forall request_invariant
                     (PyDict.values
                        (PyDict.set (blood_requests_db s) request_id
                           (mkBloodRequest request_id
                              (str_or (qf_requestor_id form) "GUEST")
                              (qf_patient_name form) (qf_blood_group form)
                              (qf_units_needed form) 0 (qf_hospital_name form)
                              (Some (str_or (qf_city form) ""))
                              (str_or (qf_urgency form) "normal") Pending
                              (strftime_full now) [] (Some 0) None)))).
      { apply Forall_values_set; [exact Hs|].
        unfold request_invariant; cbn. split; [discriminate|lia]. }
      match goal with
      | |- context [match ?x with Some _ => _ | None => _ end] => destruct x
      end; exact H1.
    + unfold request_invariant; cbn. split; [discriminate|lia].
  - unfold use_inventory_for_request.
    destruct (PyDict.get _ _) as [r|]; [|exact Hs].
    destruct (_ >? _); [exact Hs|].
    destruct (Z.leb_spec (req_units_needed r
                          - (req_fulfilled_units r + int_or units 0)) 0)
      as [Hle|Hgt];
      unfold requests_ok; cbn [snd set_requests blood_requests_db];
      rewrite update_inventory_requests;
      (apply Forall_values_set; [exact Hs|]);
      apply progress_invariant;
      destruct (Z.leb_spec (req_units_needed r
                            - (req_fulfilled_units r + int_or units 0)) 0);
      (reflexivity || lia).
  - unfold confirm_donor_for_request.
    destruct (PyDict.get _ _); [destruct (PyDict.get _ _)|]; exact Hs.
  - unfold api_update_inventory_for_donor.
    destruct (PyDict.get _ _); [|exact Hs].
    destruct (PyDict.get _ _); exact Hs.
  - unfold fulfill_request.
    destruct (PyDict.get _ _) as [r|]; [|exact Hs].
    destruct (Z.geb_spec (req_fulfilled_units r + int_or units 0)
                         (req_units_needed r)) as [Hge|Hlt];
      unfold requests_ok; cbn [snd];
      rewrite update_inventory_requests;
      cbn [set_requests blood_requests_db];
      (apply Forall_values_set; [exact Hs|]);
      apply progress_invariant;
      destruct (Z.leb_spec (req_units_needed r
                            - (req_fulfilled_units r + int_or units 0)) 0);
      (reflexivity || lia).
Qed.

(** Apart from that case the invariant is kept: when every filed request
    asks for at least one unit, every stored request satisfies it after
    any sequence of operations, whatever units they credit. *)
Lemma request_invariant_preserved (ops : list Op) (s : State) :
  requests_ok s -> Forall files_positive ops -> requests_ok (run ops s).
Proof.
  intros Hs Hops. revert s Hs.
  induction Hops as [|o ops Ho Hops IH]; intros s Hs; [exact Hs|].
  cbn [run fold_left]. apply IH. now apply handle_requests_ok.
Qed.

(* ================================================================== *)
(** * Queries and dashboards ([app.py] lines 193-415)

    The read-only helpers behind the dashboards, modelled on the same
    stores, and what the routes above guarantee about them. *)

(** ** [list.sort(key=...)], ascending, and the order of sorted lists *)

Module PySortAsc.

Section Asc.
Context {A : Type} (lt_key : A -> A -> bool).

(** [x] comes from before every element of [l]: it passes only the
    elements whose key is strictly smaller. *)
Fixpoint insert_asc (x : A) (l : list A) : list A :=
  match l with
  | [] => [x]
  | y :: l' => if lt_key y x then y :: insert_asc x l' else x :: l
  end.

Fixpoint sort_asc (l : list A) : list A :=
  match l with
  | [] => []
  | x :: l' => insert_asc x (sort_asc l')
  end.

Lemma insert_asc_perm x l : Permutation (x :: l) (insert_asc x l).
Proof.
  induction l as [|y l IH]; simpl; auto.
  destruct (lt_key y x); auto.
  rewrite perm_swap. now constructor.
Qed.

Lemma sort_asc_perm l : Permutation l (sort_asc l).
Proof.
  induction l as [|x l IH]; simpl; auto.
  rewrite <- insert_asc_perm. now constructor.
Qed.

(** A filter that never keeps two elements of different rank sees the
    same list before and after either sort: equal keys keep their order. *)
Hypothesis lt_asym : forall a b, lt_key a b = true -> lt_key b a = false.
Hypothesis ge_trans :
  forall a b c, lt_key a b = false -> lt_key b c = false -> lt_key a c = false.

Definition le_key (a b : A) : Prop := lt_key b a = false.
Definition ge_key (a b : A) : Prop := lt_key a b = false.

Lemma insert_asc_sorted x l :
  StronglySorted le_key l -> StronglySorted le_key (insert_asc x l).
Proof.
  induction 1 as [|y l Hs IH Hall]; simpl.
  - repeat constructor.
  - destruct (lt_key y x) eqn:E.
    + constructor; auto.
      apply (Permutation_Forall (insert_asc_perm x l)).
      constructor; auto. unfold le_key. now apply lt_asym.
    + constructor; [now constructor|].
      constructor; [exact E|].
      eapply Forall_impl; [|exact Hall].
      unfold le_key. intros z Hz. now apply ge_trans with (b := y).
Qed.

Lemma sort_asc_sorted l : StronglySorted le_key (sort_asc l).
Proof.
  induction l as [|x l IH]; simpl; [constructor|].
  now apply insert_asc_sorted.
Qed.

Lemma insert_desc_sorted_gen x l :
  StronglySorted ge_key l ->
  StronglySorted ge_key (PySort.insert_desc lt_key x l).
Proof.
  induction 1 as [|y l Hs IH Hall]; simpl.
  - repeat constructor.
  - destruct (lt_key x y) eqn:E.
    + constructor; auto.
      apply (Permutation_Forall (PySort.insert_desc_perm lt_key x l)).
      constructor; auto. unfold ge_key. now apply lt_asym.
    + constructor; [now constructor|].
      constructor; [exact E|].
      eapply Forall_impl; [|exact Hall].
      unfold ge_key. intros z Hz. now apply ge_trans with (b := y).
Qed.

Lemma sort_desc_sorted_gen l :
  StronglySorted ge_key (PySort.sort_desc lt_key l).
Proof.
  induction l as [|x l IH]; simpl; [constructor|].
  now apply insert_desc_sorted_gen.
Qed.

Section Stable.
Variable p : A -> bool.
Hypothesis p_same_rank :
  forall a b, p a = true -> p b = true -> lt_key a b = false.

Lemma insert_asc_stable x l :
  filter p (insert_asc x l) = filter p (x :: l).
Proof.
  induction l as [|y l IH]; auto.
  cbn [insert_asc]. destruct (lt_key y x) eqn:E; auto.
  cbn [filter] in *. rewrite IH.
  destruct (p x) eqn:Px, (p y) eqn:Py; auto.
  rewrite (p_same_rank y x Py Px) in E. discriminate.
Qed.

Lemma sort_asc_stable l : filter p (sort_asc l) = filter p l.
Proof.
  induction l as [|x l IH]; auto.
  cbn [sort_asc]. rewrite insert_asc_stable. cbn [filter]. now rewrite IH.
Qed.

Lemma insert_desc_stable_gen x l :
  filter p (PySort.insert_desc lt_key x l) = filter p (x :: l).
Proof.
  induction l as [|y l IH]; auto.
  cbn [PySort.insert_desc]. destruct (lt_key x y) eqn:E; auto.
  cbn [filter] in *. rewrite IH.
  destruct (p x) eqn:Px, (p y) eqn:Py; auto.
  rewrite (p_same_rank x y Px Py) in E. discriminate.
Qed.

Lemma sort_desc_stable_gen l : filter p (PySort.sort_desc lt_key l) = filter p l.
Proof.
  induction l as [|x l IH]; auto.
  cbn [PySort.sort_desc]. rewrite insert_desc_stable_gen.
  cbn [filter]. now rewrite IH.
Qed.

End Stable.
End Asc.

End PySortAsc.

(** ** The order of Python strings *)

Lemma ascii_compare_lt_trans a b c :
  Ascii.compare a b = Lt -> Ascii.compare b c = Lt -> Ascii.compare a c = Lt.
Proof.
  unfold Ascii.compare. rewrite !N.compare_lt_iff. apply N.lt_trans.
Qed.

Lemma ascii_compare_refl a : Ascii.compare a a = Eq.
Proof. unfold Ascii.compare. apply N.compare_refl. Qed.

Lemma str_compare_refl s : String.compare s s = Eq.
Proof.
  induction s as [|c s IH]; simpl; auto. now rewrite ascii_compare_refl.
Qed.

Lemma str_compare_lt_trans a :
  forall b c,
    String.compare a b = Lt -> String.compare b c = Lt ->
    String.compare a c = Lt.
Proof.
  induction a as [|x a IH]; intros [|y b] [|z c]; simpl; auto;
    try discriminate.
  destruct (Ascii.compare x y) eqn:Exy; try discriminate;
    destruct (Ascii.compare y z) eqn:Eyz; try discriminate; intros H1 H2.
  - apply Ascii.compare_eq_iff in Exy, Eyz. subst.
    rewrite ascii_compare_refl. eauto.
  - apply Ascii.compare_eq_iff in Exy. subst. now rewrite Eyz.
  - apply Ascii.compare_eq_iff in Eyz. subst. now rewrite Exy.
  - now rewrite (ascii_compare_lt_trans _ _ _ Exy Eyz).
Qed.

Lemma str_ltb_irrefl s : String.ltb s s = false.
Proof. unfold String.ltb. now rewrite str_compare_refl. Qed.

Lemma str_ltb_asym a b : String.ltb a b = true -> String.ltb b a = false.
Proof.
  unfold String.ltb. rewrite (String.compare_antisym b a).
  destruct (String.compare a b); simpl; auto; discriminate.
Qed.

Lemma str_ltb_trans a b c :
  String.ltb a b = true -> String.ltb b c = true -> String.ltb a c = true.
Proof.
  unfold String.ltb.
  destruct (String.compare a b) eqn:E1; try discriminate.
  destruct (String.compare b c) eqn:E2; try discriminate.
  now rewrite (str_compare_lt_trans _ _ _ E1 E2).
Qed.

(** [a >= b] and [b >= c] give [a >= c]. *)
Lemma str_ge_trans a b c :
  String.ltb a b = false -> String.ltb b c = false -> String.ltb a c = false.
Proof.
  intros H1 H2. destruct (String.ltb a c) eqn:E; auto. exfalso.
  unfold String.ltb in *.
  destruct (String.compare a c) eqn:Eac; try discriminate.
  destruct (String.compare a b) eqn:Eab; try discriminate.
  - apply String.compare_eq_iff in Eab. subst. now rewrite Eac in H2.
  - (* a > b, a < c: then b < c *)
    rewrite String.compare_antisym in Eab.
    destruct (String.compare b a) eqn:Eba; try discriminate.
    now rewrite (str_compare_lt_trans _ _ _ Eba Eac) in H2.
Qed.

Lemma str_ltb_neq a b : String.ltb a b = true -> a <> b.
Proof. intros H ->. now rewrite str_ltb_irrefl in H. Qed.

(** ** Dashboard queries *)

(** [assignment['status'] in ['pending', 'accepted']]: no route writes
    ['pending'], which [AssignmentStatus] therefore does not carry. *)
Definition asg_is_open (a : Assignment) : bool :=
  match asg_status a with Accepted => true | _ => false end.

(** [get_donor_assigned_requests]: each open assignment of the donor,
    with its request. *)
Definition get_donor_assigned_requests (s : State) (id : string)
  : list (Assignment * BloodRequest) :=
  flat_map
    (fun assignment =>
       if String.eqb (asg_donor_id assignment) id && asg_is_open assignment
       then match PyDict.get (blood_requests_db s)
                             (asg_request_id assignment) with
            | Some request_data => [(assignment, request_data)]
            | None => []
            end
       else [])
    (PyDict.values (donor_request_assignments s)).

(** [get_request_assigned_donors]: each assignment of the request, with
    its donor. *)
Definition get_request_assigned_donors (s : State) (request_id : string)
  : list (Assignment * Donor) :=
  flat_map
    (fun assignment =>
       if String.eqb (asg_request_id assignment) request_id
       then match PyDict.get (donors_db s) (asg_donor_id assignment) with
            | Some donor_data => [(assignment, donor_data)]
            | None => []
            end
       else [])
    (PyDict.values (donor_request_assignments s)).

(** [any(a['donor_id'] == donor_id and a['request_id'] == request_id
         for a in donor_request_assignments.values())] *)
Definition already_assigned (s : State) (id request_id : string) : bool :=
  existsb
    (fun a => String.eqb (asg_donor_id a) id
              && String.eqb (asg_request_id a) request_id)
    (PyDict.values (donor_request_assignments s)).

(** [{'critical': 0, 'high': 1, 'normal': 2}.get(urgency, 2)] *)
Definition urgency_order (urgency : string) : Z :=
  if String.eqb urgency "critical" then 0
  else if String.eqb urgency "high" then 1
  else 2.

(** A request dictionary extended with ['remaining_units']. *)
Record AvailableRequest := mkAvailableRequest {
  ar_request : BloodRequest;
  ar_remaining_units : Z
}.

(** The sort key [(urgency_order.get(urgency, 2), created_at or
    '1900-01-01')] and the order of such tuples. *)
Definition ar_key (x : AvailableRequest) : Z * string :=
  (urgency_order (req_urgency (ar_request x)),
   PyStr.or_else (Some (req_created_at (ar_request x))) "1900-01-01").

Definition key_zs_ltb (a b : Z * string) : bool :=
  (fst a <? fst b) || ((fst a =? fst b) && String.ltb (snd a) (snd b)).

Definition request_is_open (r : BloodRequest) : bool :=
  match req_status r with Pending | Partial => true | Fulfilled => false end.

Definition request_is_fulfilled (r : BloodRequest) : bool :=
  match req_status r with Fulfilled => true | _ => false end.

(** [get_available_requests_for_donor] *)
Definition get_available_requests_for_donor (s : State) (id : string)
  : list AvailableRequest :=
  match PyDict.get (donors_db s) id with
  | None => []
  | Some donor =>
      let can_donate_to := donor_can_give_to (donor_blood_group donor) in
      let available_requests :=
        flat_map
          (fun item : string * BloodRequest =>
             let (request_id, request_data) := item in
             if str_in (req_blood_group request_data) can_donate_to
                && request_is_open request_data
                && negb (already_assigned s id request_id)
             then [mkAvailableRequest request_data
                     (req_units_needed request_data
                      - req_fulfilled_units request_data)]
             else [])
          (blood_requests_db s) in
      PySortAsc.sort_asc (fun a b => key_zs_ltb (ar_key a) (ar_key b))
                         available_requests
  end.

Record Statistics := mkStatistics {
  total_donors : Z;
  total_requestors : Z;
  total_requests : Z;
  active_requests : Z;
  fulfilled_requests : Z;
  total_units : Z;
  critical_groups : list string
}.

Definition count {A} (p : A -> bool) (l : list A) : Z :=
  Z.of_nat (List.length (filter p l)).

Definition sum_units (inventory : PyDict.t InventoryEntry) : Z :=
  fold_right (fun e acc => inv_units e + acc) 0 (PyDict.values inventory).

(** [get_statistics] *)
Definition get_statistics (s : State) : Statistics :=
  mkStatistics
    (Z.of_nat (List.length (donors_db s)))
    (Z.of_nat (List.length (requestors_db s)))
    (Z.of_nat (List.length (blood_requests_db s)))
    (count request_is_open (PyDict.values (blood_requests_db s)))
    (count request_is_fulfilled (PyDict.values (blood_requests_db s)))
    (sum_units (blood_inventory s))
    (map fst (filter (fun kv => inv_units (snd kv) <? 20) (blood_inventory s))).

Record EligibleDonor := mkEligibleDonor {
  ed_donor_id : string;
  ed_name : string;
  ed_last_donation : option string;
  ed_total_donations : Z;
  ed_can_donate_now : bool;
  ed_is_already_assigned : bool;
  ed_blood_group : string
}.

(** The sort key [(not can_donate_now, -total_donations)]; [False]
    sorts before [True]. *)
Definition ed_key (x : EligibleDonor) : bool * Z :=
  (negb (ed_can_donate_now x), - ed_total_donations x).

Definition key_bz_ltb (a b : bool * Z) : bool :=
  (negb (fst a) && fst b)
  || (Bool.eqb (fst a) (fst b) && (snd a <? snd b)).

(** [get_eligible_donors_for_remaining] *)
Definition get_eligible_donors_for_remaining (now : datetime) (s : State)
  (request_id : string) : list EligibleDonor :=
  match PyDict.get (blood_requests_db s) request_id with
  | None => []
  | Some request_data =>
      let remaining :=
        req_units_needed request_data - req_fulfilled_units request_data in
      if remaining <=? 0 then []
      else
        let required_blood_group := req_blood_group request_data in
        let eligible_donors :=
          flat_map
            (fun item : string * Donor =>
               let (id, donor) := item in
               if negb (String.eqb (donor_blood_group donor)
                                   required_blood_group)
               then []
               else if negb (donor_available donor)
                       || negb (String.eqb (donor_status donor) "active")
               then []
               else
                 [mkEligibleDonor id (donor_name donor)
                    (donor_last_donation donor) (donor_total_donations donor)
                    (can_donate now (donor_last_donation donor))
                    (already_assigned s id request_id)
                    (donor_blood_group donor)])
            (donors_db s) in
        PySortAsc.sort_asc (fun a b => key_bz_ltb (ed_key a) (ed_key b))
                           eligible_donors
  end.

Record MatchingDonor := mkMatchingDonor {
  md_assignment_id : string;
  md_donor_id : string;
  md_donor_name : string;
  md_blood_group : string;
  md_units_offered : Z;
  md_status : AssignmentStatus
}.

(** [get_matching_donors_for_request] *)
Definition get_matching_donors_for_request (s : State) (request_id : string)
  : list MatchingDonor :=
  match PyDict.get (blood_requests_db s) request_id with
  | None => []
  | Some _ =>
      flat_map
        (fun assignment =>
           if String.eqb (asg_request_id assignment) request_id
           then match PyDict.get (donors_db s) (asg_donor_id assignment) with
                | Some donor =>
                    [mkMatchingDonor (asg_assignment_id assignment)
                       (asg_donor_id assignment) (donor_name donor)
                       (donor_blood_group donor) (asg_units_offered assignment)
                       (asg_status assignment)]
                | None => []
                end
           else [])
        (PyDict.values (donor_request_assignments s))
  end.

(** [donation.get('request_id') == request_id and
     donation.get('status') == 'completed'] *)
Definition fulfils (request_id : string) (donation : Donation) : bool :=
  match don_request_id donation, don_status donation with
  | Some rid, Some st => String.eqb rid request_id && String.eqb st "completed"
  | _, _ => false
  end.

(** [get_fulfilled_history_for_request]: the completed donations made
    for the request. *)
Definition get_fulfilled_history_for_request (s : State) (request_id : string)
  : list Donation :=
  match PyDict.get (blood_requests_db s) request_id with
  | None => []
  | Some _ => filter (fulfils request_id) (PyDict.values (donations_db s))
  end.

(* ================================================================== *)
(** * Further properties *)

(** ** The donor search of the matcher *)

(** The filter of [get_compatible_donors], named. *)
Definition location_matches (location : option string) (d : Donor) : bool :=
  match location with
  | Some loc =>
      if PyStr.truthy loc then
        PyStr.contains (PyStr.lower loc) (PyStr.lower (donor_city d))
        || PyStr.contains (PyStr.lower loc) (PyStr.lower (donor_state d))
      else true
  | None => true
  end.

Definition donor_matches (g : string) (location : option string) (d : Donor)
  : bool :=
  str_in (donor_blood_group d) (get_compatible_donor_blood_groups g)
  && (donor_available d && String.eqb (donor_status d) "active")
  && location_matches location d.

Definition last_donation_key (d : Donor) : string :=
  PyStr.or_else (donor_last_donation d) "1900-01-01".

Lemma get_compatible_donors_unfold s g location :
  get_compatible_donors s g location
  = PySort.sort_desc
      (fun a b => String.ltb (last_donation_key a) (last_donation_key b))
      (filter (donor_matches g location) (PyDict.values (donors_db s))).
Proof. reflexivity. Qed.

Lemma in_compatible_donors s g location d :
  In d (get_compatible_donors s g location)
  <-> In d (PyDict.values (donors_db s))
      /\ In (donor_blood_group d) (get_compatible_donor_blood_groups g)
      /\ donor_available d = true
      /\ donor_status d = "active"
      /\ location_matches location d = true.
Proof.
  rewrite get_compatible_donors_unfold.
  assert (Hperm := PySort.sort_desc_perm
            (fun a b => String.ltb (last_donation_key a) (last_donation_key b))
            (filter (donor_matches g location) (PyDict.values (donors_db s)))).
  split.
  - intros H. apply (Permutation_in _ (Permutation_sym Hperm)) in H.
    apply filter_In in H. destruct H as [Hin Hm].
    unfold donor_matches in Hm.
    apply andb_prop in Hm. destruct Hm as [Hm Hloc].
    apply andb_prop in Hm. destruct Hm as [Hg Hm].
    apply andb_prop in Hm. destruct Hm as [Hav Hst].
    apply str_in_In in Hg. apply String.eqb_eq in Hst. auto.
  - intros (Hin & Hg & Hav & Hst & Hloc).
    apply (Permutation_in _ Hperm). apply filter_In. split; auto.
    unfold donor_matches. apply str_in_In in Hg.
    rewrite Hg, Hav, Hloc, Hst. reflexivity.
Qed.

(** X1: [get_compatible_donors] lists exactly the stored donors whose
    group may give to the recipient group, who are available and active,
    and whose city or state, lower-cased, contains the lower-cased
    location (when one is given), each as often as it is stored; for a
    group outside the table it lists nobody. *)
Theorem get_compatible_donors_exact (s : State) (g : string)
  (location : option string) (d : Donor) :
  (In d (get_compatible_donors s g location)
   <-> In d (PyDict.values (donors_db s))
       /\ In (donor_blood_group d) (get_compatible_donor_blood_groups g)
       /\ donor_available d = true
       /\ donor_status d = "active"
       /\ location_matches location d = true)
  /\ Permutation
       (filter (donor_matches g location) (PyDict.values (donors_db s)))
       (get_compatible_donors s g location)
  /\ (PyDict.get RECEIVE_COMPATIBILITY g = None ->
      get_compatible_donors s g location = []).
Proof.
  split; [apply in_compatible_donors|].
  rewrite get_compatible_donors_unfold.
  split; [apply PySort.sort_desc_perm|].
  intros Hnone.
  assert (Hnil : filter (donor_matches g location)
                        (PyDict.values (donors_db s)) = []).
  { unfold donor_matches, get_compatible_donor_blood_groups, get_or_nil.
    rewrite Hnone.
    induction (PyDict.values (donors_db s)) as [|a l IH]; simpl; auto. }
  now rewrite Hnil.
Qed.

(** The location is compared without regard to case, also beyond ASCII:
    a donor of "PUNE" written with a capital acute E is found for the
    location written in small letters. *)
Example location_beyond_ascii :
  let city := PyStr.text [0x50; 0x55; 0x4E; 0xC9] in
  let location := PyStr.text [0x70; 0x75; 0x6E; 0xE9] in
  let d := mkDonor "DON-1" "D" 30 "O-" city "MH" true "active" 0 None in
  let s := mkState [("DON-1", d)] [] [] [] [] DEFAULT_INVENTORY in
  map donor_id (get_compatible_donors s "A+" (Some location)) = ["DON-1"]
  /\ map donor_id (get_compatible_donors s "A+" (Some "mumbai")) = [].
Proof. vm_compute. split; reflexivity. Qed.

(** X2: the donors come most recent donation first, a donor without
    [last_donation] counting as ['1900-01-01']; donors with the same date
    stay in the order of the store. *)
Theorem get_compatible_donors_order (s : State) (g : string)
  (location : option string) :
  StronglySorted
    (fun a b => String.ltb (last_donation_key a) (last_donation_key b) = false)
    (get_compatible_donors s g location)
  /\ forall date,
       filter (fun d => String.eqb (last_donation_key d) date)
              (get_compatible_donors s g location)
       = filter (fun d => String.eqb (last_donation_key d) date)
                (filter (donor_matches g location)
                        (PyDict.values (donors_db s))).
Proof.
  rewrite get_compatible_donors_unfold. split.
  - apply (PySortAsc.sort_desc_sorted_gen
             (fun a b => String.ltb (last_donation_key a)
                                    (last_donation_key b))).
    + intros a b. apply str_ltb_asym.
    + intros a b c. apply str_ge_trans.
  - intros date. apply PySortAsc.sort_desc_stable_gen.
    intros a b Ha Hb. apply String.eqb_eq in Ha, Hb.
    rewrite Ha, Hb. apply str_ltb_irrefl.
Qed.

(** ** Requests offered to a donor *)

Lemma dict_get_In {V} (d : PyDict.t V) k v :
  PyDict.get d k = Some v -> In (k, v) d.
Proof.
  induction d as [|[k0 v0] d IH]; simpl; [discriminate|].
  destruct (String.eqb_spec k k0) as [->|Hne].
  - intros [= ->]. now left.
  - intros H. right. auto.
Qed.

Lemma open_not_fulfilled r :
  request_is_open r = true <-> req_status r <> Fulfilled.
Proof.
  unfold request_is_open. destruct (req_status r); split; intros H;
    try reflexivity; try discriminate; try congruence.
Qed.

Lemma in_available_requests s id donor x :
  PyDict.get (donors_db s) id = Some donor ->
  In x (get_available_requests_for_donor s id)
  <-> exists request_id,
        In (request_id, ar_request x) (blood_requests_db s)
        /\ In (req_blood_group (ar_request x))
              (donor_can_give_to (donor_blood_group donor))
        /\ req_status (ar_request x) <> Fulfilled
        /\ already_assigned s id request_id = false
        /\ ar_remaining_units x
           = req_units_needed (ar_request x)
             - req_fulfilled_units (ar_request x).
Proof.
  intros Hd. unfold get_available_requests_for_donor. rewrite Hd. split.
  - intros H.
    apply (Permutation_in _ (Permutation_sym (PySortAsc.sort_asc_perm _ _)))
      in H.
    apply in_flat_map in H. destruct H as [[rid r] [Hin Hx]].
    destruct (str_in (req_blood_group r) _) eqn:Hg; [|destruct Hx].
    destruct (request_is_open r) eqn:Ho; [|destruct Hx].
    destruct (already_assigned s id rid) eqn:Ha; [destruct Hx|].
    destruct Hx as [<-|[]]. cbn [ar_request ar_remaining_units].
    exists rid. repeat split; auto.
    + now apply str_in_In.
    + now apply open_not_fulfilled.
  - intros (rid & Hin & Hg & Ho & Ha & Hrem).
    apply (Permutation_in _ (PySortAsc.sort_asc_perm _ _)).
    apply in_flat_map. exists (rid, ar_request x). split; auto.
    apply str_in_In in Hg. apply open_not_fulfilled in Ho.
    rewrite Hg, Ho, Ha. cbn. left.
    destruct x as [r rem]. cbn in *. now subst.
Qed.

(** X3: [get_available_requests_for_donor] offers a donor exactly the
    stored requests whose group the donor's group may give to, that are
    pending or partial, and for which no assignment links the donor to
    the request's key -- each with
    [remaining_units = units_needed - fulfilled_units]; an unknown donor
    is offered nothing. *)
Theorem available_requests_exact (s : State) (id : string)
  (x : AvailableRequest) :
  (In x (get_available_requests_for_donor s id)
   <-> exists donor request_id,
         PyDict.get (donors_db s) id = Some donor
         /\ In (request_id, ar_request x) (blood_requests_db s)
         /\ In (req_blood_group (ar_request x))
               (donor_can_give_to (donor_blood_group donor))
         /\ req_status (ar_request x) <> Fulfilled
         /\ already_assigned s id request_id = false
         /\ ar_remaining_units x
            = req_units_needed (ar_request x)
              - req_fulfilled_units (ar_request x))
  /\ (PyDict.get (donors_db s) id = None ->
      get_available_requests_for_donor s id = []).
Proof.
  split.
  - destruct (PyDict.get (donors_db s) id) as [donor|] eqn:Hd.
    + rewrite (in_available_requests s id donor x Hd). split.
      * intros (rid & H). exists donor, rid. now split.
      * intros (d0 & rid & [= <-] & H). now exists rid.
    + unfold get_available_requests_for_donor. rewrite Hd. split.
      * intros [].
      * intros (d0 & rid & H & _). discriminate.
  - intros Hd. unfold get_available_requests_for_donor. now rewrite Hd.
Qed.

Lemma key_zs_ltb_asym a b : key_zs_ltb a b = true -> key_zs_ltb b a = false.
Proof.
  unfold key_zs_ltb. destruct a as [a1 a2], b as [b1 b2]; cbn [fst snd].
  intros H. apply orb_prop in H. apply orb_false_iff.
  destruct H as [H|H].
  - apply Z.ltb_lt in H. split; [apply Z.ltb_ge; lia|].
    apply andb_false_iff. left. apply Z.eqb_neq. lia.
  - apply andb_prop in H. destruct H as [He Hl]. apply Z.eqb_eq in He.
    split; [apply Z.ltb_ge; lia|].
    apply andb_false_iff. right. now apply str_ltb_asym.
Qed.

Lemma key_zs_ge_trans a b c :
  key_zs_ltb a b = false -> key_zs_ltb b c = false -> key_zs_ltb a c = false.
Proof.
  unfold key_zs_ltb.
  destruct a as [a1 a2], b as [b1 b2], c as [c1 c2]; cbn [fst snd].
  rewrite !orb_false_iff, !andb_false_iff, !Z.ltb_ge, !Z.eqb_neq.
  intros [H1 H1'] [H2 H2']. split; [lia|].
  destruct (Z.eq_dec a1 c1) as [E|]; [right|now left].
  destruct H1' as [?|H1']; [lia|]. destruct H2' as [?|H2']; [lia|].
  now apply str_ge_trans with (b := b2).
Qed.

Lemma key_zs_ltb_irrefl a : key_zs_ltb a a = false.
Proof.
  unfold key_zs_ltb. rewrite Z.ltb_irrefl, str_ltb_irrefl.
  now rewrite andb_false_r.
Qed.

(** The candidates of [get_available_requests_for_donor] before its
    sort, in the order of the store. *)
Definition available_requests_unsorted (s : State) (id : string)
  (donor : Donor) : list AvailableRequest :=
  flat_map
    (fun item : string * BloodRequest =>
       let (request_id, request_data) := item in
       if str_in (req_blood_group request_data)
                 (donor_can_give_to (donor_blood_group donor))
          && request_is_open request_data
          && negb (already_assigned s id request_id)
       then [mkAvailableRequest request_data
               (req_units_needed request_data
                - req_fulfilled_units request_data)]
       else [])
    (blood_requests_db s).

Definition key_zs_eqb (a b : Z * string) : bool :=
  (fst a =? fst b) && String.eqb (snd a) (snd b).

(** X4: the offered requests are ordered by urgency (critical, high,
    then everything else) and, within one urgency, oldest [created_at]
    first; requests that agree on both stay in the order of the store. *)
Theorem available_requests_order (s : State) (id : string) :
  StronglySorted
    (fun a b => key_zs_ltb (ar_key b) (ar_key a) = false)
    (get_available_requests_for_donor s id)
  /\ StronglySorted
       (fun a b => urgency_order (req_urgency (ar_request a))
                   <= urgency_order (req_urgency (ar_request b)))
       (get_available_requests_for_donor s id)
  /\ (forall donor key,
        PyDict.get (donors_db s) id = Some donor ->
        filter (fun x => key_zs_eqb (ar_key x) key)
               (get_available_requests_for_donor s id)
        = filter (fun x => key_zs_eqb (ar_key x) key)
                 (available_requests_unsorted s id donor)).
Proof.
  assert (Hs : StronglySorted
                 (fun a b => key_zs_ltb (ar_key b) (ar_key a) = false)
                 (get_available_requests_for_donor s id)).
  { unfold get_available_requests_for_donor.
    destruct (PyDict.get (donors_db s) id); [|constructor].
    apply (PySortAsc.sort_asc_sorted
             (fun a b => key_zs_ltb (ar_key a) (ar_key b))).
    - intros a b. apply key_zs_ltb_asym.
    - intros a b c. apply key_zs_ge_trans. }
  split; [exact Hs|]. split.
  - induction Hs as [|a l Hs IH Hall]; constructor; auto.
    eapply Forall_impl; [|exact Hall]. cbv beta. intros b Hb.
    unfold key_zs_ltb, ar_key in Hb. cbn [fst snd] in Hb.
    apply orb_false_iff in Hb. destruct Hb as [Hb _].
    apply Z.ltb_ge in Hb. lia.
  - intros donor key Hd. unfold get_available_requests_for_donor.
    rewrite Hd. fold (available_requests_unsorted s id donor).
    apply (PySortAsc.sort_asc_stable
             (fun a b => key_zs_ltb (ar_key a) (ar_key b))).
    intros a b Ha Hb. unfold key_zs_eqb in Ha, Hb.
    apply andb_prop in Ha, Hb. destruct Ha as [Ha1 Ha2], Hb as [Hb1 Hb2].
    apply Z.eqb_eq in Ha1, Hb1. apply String.eqb_eq in Ha2, Hb2.
    destruct (ar_key a) as [a1 a2], (ar_key b) as [b1 b2]. cbn in *. subst.
    apply key_zs_ltb_irrefl.
Qed.

(** The two tables agree on every string, known group or not. *)
Lemma give_implies_receive d r :
  In r (donor_can_give_to d) -> In d (get_compatible_donor_blood_groups r).
Proof.
  unfold donor_can_give_to, get_or_nil.
  destruct (PyDict.get BLOOD_COMPATIBILITY d) as [l|] eqn:Hg; [|intros []].
  apply dict_get_In in Hg. unfold BLOOD_COMPATIBILITY in Hg.
  cbn [In] in Hg.
  repeat (destruct Hg as [Hg|Hg];
          [injection Hg as <- <-; cbn [In]; intros Hr;
           repeat (destruct Hr as [<-|Hr]; [apply str_in_In; reflexivity|]);
           destruct Hr|]).
  destruct Hg.
Qed.

(** A store with two donors, three requests and one accepted
    assignment. *)
Definition demo_state : State :=
  mkState
    [("DON-1", mkDonor "DON-1" "Asha" 30 "O-" "Pune" "MH" true "active" 4
                       (Some "2024-10-01"));
     ("DON-2", mkDonor "DON-2" "Ravi" 41 "A+" "Mumbai" "MH" true "active" 0
                       None)]
    [("REQ-1", mkRequestor "REQ-1" "Dr. Rao" (Some "City Hospital") 1)]
    [("BR-1", mkBloodRequest "BR-1" "REQ-1" "P1" "A+" 5 0 "City Hospital"
                (Some "Pune") "high" Pending "2025-01-30 08:00:00" []
                (Some 0) None);
     ("BR-2", mkBloodRequest "BR-2" "GUEST" "P2" "O-" 4 1 "City Hospital"
                (Some "") "critical" Partial "2025-01-31 08:00:00" []
                (Some 1) None);
     ("BR-3", mkBloodRequest "BR-3" "GUEST" "P3" "AB+" 2 2 "City Hospital"
                (Some "") "normal" Fulfilled "2025-01-29 08:00:00" []
                (Some 2) None)]
    []
    [("ASGN-1", mkAssignment "ASGN-1" "DON-2" "BR-1" 2 Accepted
                  "2025-01-31 09:00:00" None None None)]
    DEFAULT_INVENTORY.

Example demo_offers :
  map (fun x => (req_request_id (ar_request x), ar_remaining_units x))
      (get_available_requests_for_donor demo_state "DON-1")
  = [("BR-2", 3); ("BR-1", 5)]
  /\ map (fun x => req_request_id (ar_request x))
         (get_available_requests_for_donor demo_state "DON-2") = []
  /\ get_available_requests_for_donor demo_state "DON-9" = [].
Proof. repeat split. Qed.

(** X5: the two directions of the matching agree: whenever a request is
    offered to an available, active donor, [get_compatible_donors] run
    for that request's group (without location filter) lists the
    donor. *)
Theorem offered_request_lists_donor (s : State) (id : string) (donor : Donor)
  (x : AvailableRequest) :
  PyDict.get (donors_db s) id = Some donor ->
  In x (get_available_requests_for_donor s id) ->
  donor_available donor = true ->
  donor_status donor = "active" ->
  In donor (get_compatible_donors s (req_blood_group (ar_request x)) None).
Proof.
  intros Hd Hx Hav Hst.
  apply (in_available_requests s id donor x Hd) in Hx.
  destruct Hx as (rid & _ & Hg & _).
  apply in_compatible_donors. repeat split; auto.
  - eapply PyDict.get_in_values. exact Hd.
  - now apply give_implies_receive.
Qed.

Lemma offered_request_lists_donor_witness :
  In (mkDonor "DON-1" "Asha" 30 "O-" "Pune" "MH" true "active" 4
              (Some "2024-10-01"))
     (get_compatible_donors demo_state "O-" None).
Proof.
  apply (offered_request_lists_donor demo_state "DON-1"
           (mkDonor "DON-1" "Asha" 30 "O-" "Pune" "MH" true "active" 4
                    (Some "2024-10-01"))
           (mkAvailableRequest
              (mkBloodRequest "BR-2" "GUEST" "P2" "O-" 4 1 "City Hospital"
                 (Some "") "critical" Partial "2025-01-31 08:00:00" []
                 (Some 1) None) 3));
    [reflexivity | simpl; auto | reflexivity | reflexivity].
Defined.

(** ** Records are filed under their own id *)

Definition keyed {V} (id_of : V -> string) (d : PyDict.t V) : Prop :=
  Forall (fun kv => id_of (snd kv) = fst kv) d.

Definition stores_keyed (s : State) : Prop :=
  keyed donor_id (donors_db s)
  /\ keyed requestor_id (requestors_db s)
  /\ keyed req_request_id (blood_requests_db s)
  /\ keyed don_donation_id (donations_db s)
  /\ keyed asg_assignment_id (donor_request_assignments s).

Lemma keyed_set {V} (id_of : V -> string) d k v :
  keyed id_of d -> id_of v = k -> keyed id_of (PyDict.set d k v).
Proof.
  unfold keyed. intros Hd Hv.
  induction d as [|[k0 v0] d IH]; simpl.
  - repeat constructor. exact Hv.
  - apply Forall_cons_iff in Hd. destruct Hd as [H0 Hd'].
    destruct (String.eqb_spec k k0) as [E|Hne].
    + constructor; auto. cbn. congruence.
    + constructor; auto.
Qed.

Lemma keyed_get {V} (id_of : V -> string) d k v :
  keyed id_of d -> PyDict.get d k = Some v -> id_of v = k.
Proof.
  intros Hd Hg. apply dict_get_In in Hg.
  unfold keyed in Hd. rewrite Forall_forall in Hd.
  exact (Hd _ Hg).
Qed.

Ltac keyed_step :=
  repeat (apply keyed_set; [|cbn; try reflexivity]);
  try assumption;
  try (eapply keyed_get; [|eassumption]; assumption).

Lemma handle_keyed o s : stores_keyed s -> stores_keyed (snd (handle o s)).
Proof.
  intros (Hd & Hq & Hr & Hn & Ha).
  destruct o; cbn [handle];
    unfold donor_register, donor_update, record_donation,
      donate_to_inventory, donor_accept_request, donor_confirm_donation,
      requestor_confirm_donor, requestor_register, take_from_inventory,
      request_blood, use_inventory_for_request, confirm_donor_for_request,
      api_update_inventory_for_donor, fulfill_request, update_inventory;
    store_projections; route_cases; store_projections;
    unfold stores_keyed; store_projections;
    (split; [|split; [|split; [|split]]]); keyed_step.
Qed.

(** X6: every route files what it stores under the record's own id:
    if each donor, requestor, request, donation and assignment sits under
    its id, this is still so after any sequence of operations (and it is
    so on a first start). *)
Theorem records_stay_under_their_id (ops : list Op) (s : State) :
  stores_keyed s -> stores_keyed (run ops s) /\ stores_keyed initial_state.
Proof.
  intros Hs. split.
  - revert s Hs. induction ops as [|o ops IH]; intros s Hs; [exact Hs|].
    cbn [run fold_left]. apply IH. now apply handle_keyed.
  - repeat split; constructor.
Qed.

Lemma records_stay_under_their_id_witness :
  stores_keyed (run sample_ops demo_state) /\ stores_keyed initial_state.
Proof.
  apply (records_stay_under_their_id sample_ops demo_state).
  unfold stores_keyed, keyed, demo_state; cbn.
  repeat split; repeat constructor.
Defined.

(** ** What the routes never do *)

Ltac unfold_routes :=
  unfold donor_register, donor_update, record_donation,
    donate_to_inventory, donor_accept_request, donor_confirm_donation,
    requestor_confirm_donor, requestor_register, take_from_inventory,
    request_blood, use_inventory_for_request, confirm_donor_for_request,
    api_update_inventory_for_donor, fulfill_request, update_inventory.

Lemma mem_set_mono {V} (d : PyDict.t V) k v k' :
  PyDict.mem d k' = true -> PyDict.mem (PyDict.set d k v) k' = true.
Proof.
  unfold PyDict.mem. destruct (String.eqb_spec k' k) as [->|Hne].
  - now rewrite PyDict.get_set_same.
  - now rewrite PyDict.get_set_other.
Qed.

(** Every key of [s] is still a key of [s'], store by store. *)
Definition keeps_keys (s s' : State) : Prop :=
  (forall k, PyDict.mem (donors_db s) k = true ->
             PyDict.mem (donors_db s') k = true)
  /\ (forall k, PyDict.mem (requestors_db s) k = true ->
                PyDict.mem (requestors_db s') k = true)
  /\ (forall k, PyDict.mem (blood_requests_db s) k = true ->
                PyDict.mem (blood_requests_db s') k = true)
  /\ (forall k, PyDict.mem (donations_db s) k = true ->
                PyDict.mem (donations_db s') k = true)
  /\ (forall k, PyDict.mem (donor_request_assignments s) k = true ->
                PyDict.mem (donor_request_assignments s') k = true)
  /\ (forall k, PyDict.mem (blood_inventory s) k = true ->
                PyDict.mem (blood_inventory s') k = true).

Lemma handle_keeps_keys o s : keeps_keys s (snd (handle o s)).
Proof.
  destruct o; cbn [handle]; unfold_routes;
    store_projections; route_cases; store_projections;
    unfold keeps_keys; store_projections;
    repeat split; intros k Hk; repeat apply mem_set_mono; exact Hk.
Qed.

(** X7: no route deletes anything: a donor, requestor, request,
    donation, assignment or inventory group present in the stores is
    still present after any sequence of operations. *)
Theorem stores_never_shrink (ops : list Op) (s : State) :
  keeps_keys s (run ops s).
Proof.
  revert s. induction ops as [|o ops IH]; intros s.
  - repeat split; auto.
  - cbn [run fold_left].
    destruct (handle_keeps_keys o s) as (H1 & H2 & H3 & H4 & H5 & H6).
    destruct (IH (snd (handle o s))) as (I1 & I2 & I3 & I4 & I5 & I6).
    repeat split; intros k Hk; auto.
Qed.

(** The routes through which units enter or leave the inventory. *)
Definition moves_units (o : Op) : bool :=
  match o with
  | RecordDonation _ _ _ _ | DonateToInventory _ _ _ _
  | DonorConfirmDonation _ _ _ _ | TakeFromInventory _ _ _ _ _
  | UseInventoryForRequest _ _ | FulfillRequest _ _ => true
  | _ => false
  end.

Lemma inventory_units_set s g e g' :
  inventory_units (set_inventory s (PyDict.set (blood_inventory s) g e)) g'
  = if String.eqb g' g then inv_units e else inventory_units s g'.
Proof.
  unfold inventory_units. cbn [set_inventory blood_inventory].
  destruct (String.eqb_spec g' g) as [->|Hne].
  - now rewrite PyDict.get_set_same.
  - now rewrite PyDict.get_set_other.
Qed.

Lemma inventory_units_add_donor s g e id g' :
  PyDict.get (blood_inventory s) g = Some e ->
  inventory_units
    (set_inventory s (PyDict.set (blood_inventory s) g (inv_add_donor e id))) g'
  = inventory_units s g'.
Proof.
  intros Hg. rewrite inventory_units_set.
  destruct (String.eqb_spec g' g) as [->|Hne]; auto.
  rewrite inv_add_donor_units. unfold inventory_units. now rewrite Hg.
Qed.

(** The key under which a route files a new request. *)
Definition new_request_id (o : Op) : option string :=
  match o with
  | RequestBlood _ request_id _ => Some request_id
  | TakeFromInventory _ request_id _ _ _ => Some request_id
  | _ => None
  end.

Lemma non_ledger_keeps_request o s k r :
  moves_units o = false ->
  PyDict.get (blood_requests_db s) k = Some r ->
  new_request_id o <> Some k ->
  PyDict.get (blood_requests_db (snd (handle o s))) k = Some r.
Proof.
  intros Hm Hr Hfresh.
  assert (Hsame : forall s',
            blood_requests_db s' = blood_requests_db s ->
            PyDict.get (blood_requests_db s') k = Some r).
  { now intros s' ->. }
  destruct o; try discriminate Hm; cbn [handle].
  - apply Hsame, donor_register_requests.
  - apply Hsame. unfold_routes. route_cases; reflexivity.
  - apply Hsame. unfold_routes. route_cases; reflexivity.
  - apply Hsame. unfold_routes. route_cases; reflexivity.
  - apply Hsame. reflexivity.
  - assert (Hne : request_id <> k) by (cbn in Hfresh; congruence).
    unfold request_blood. cbn [snd set_requests blood_requests_db].
    rewrite PyDict.get_set_other by congruence.
    match goal with
    | |- context [match ?x with Some _ => _ | None => _ end] => destruct x
    end; cbn [set_requestors set_requests blood_requests_db];
      rewrite PyDict.get_set_other by congruence; exact Hr.
  - apply Hsame. unfold_routes. route_cases; reflexivity.
  - apply Hsame. unfold_routes. route_cases; reflexivity.
Qed.

(** X8: registering, updating a profile, accepting a request, filing a
    request and either requestor-side confirmation leave the stock of
    every blood group as it was (a group that registration adds to the
    inventory starts with 0 units) and leave every stored request's
    [fulfilled_units] and status as they were (unless a new request is
    filed under the same key). *)
Theorem units_move_only_in_ledger_routes (o : Op) (s : State) :
  moves_units o = false ->
  (forall g, inventory_units (snd (handle o s)) g = inventory_units s g)
  /\ (forall k r,
        PyDict.get (blood_requests_db s) k = Some r ->
        new_request_id o <> Some k ->
        exists r',
          PyDict.get (blood_requests_db (snd (handle o s))) k = Some r'
          /\ req_fulfilled_units r' = req_fulfilled_units r
          /\ req_status r' = req_status r
          /\ req_units_needed r' = req_units_needed r).
Proof.
  intros Hm. split.
  - intros g. destruct o; try discriminate Hm; cbn [handle].
    + (* donor_register *)
      unfold donor_register. cbn [donor_age donor_blood_group].
      destruct (_ || _); [reflexivity|].
      destruct (rf_weight_below_50 form); [reflexivity|].
      set (s1 := set_donors s _).
      unfold PyDict.mem.
      destruct (PyDict.get (blood_inventory s1) (rf_blood_group form))
        as [e|] eqn:He; cbn [negb].
      * rewrite He. cbn [snd]. now rewrite inventory_units_add_donor.
      * set (s2 := set_inventory s1 _).
        assert (H2 : PyDict.get (blood_inventory s2) (rf_blood_group form)
                     = Some (mkInventoryEntry 0 []))
          by apply PyDict.get_set_same.
        rewrite H2. cbn [snd].
        rewrite (inventory_units_add_donor s2 _ _ _ g H2).
        unfold s2. rewrite inventory_units_set.
        destruct (String.eqb_spec g (rf_blood_group form)) as [->|Hne];
          [|reflexivity].
        unfold inventory_units. subst s1. cbn in He. now rewrite He.
    + unfold donor_update. destruct (PyDict.get _ _); reflexivity.
    + unfold donor_accept_request.
      destruct (PyDict.get _ _); [destruct (PyDict.get _ _)|]; reflexivity.
    + unfold requestor_confirm_donor.
      destruct (PyDict.get _ _); [|reflexivity].
      destruct (PyDict.get _ _); [|reflexivity].
      destruct (PyDict.get _ _); [|reflexivity].
      destruct (PyDict.get _ _); reflexivity.
    + reflexivity.
    + unfold inventory_units. now rewrite request_blood_inventory.
    + unfold confirm_donor_for_request.
      destruct (PyDict.get _ _); [destruct (PyDict.get _ _)|]; reflexivity.
    + unfold api_update_inventory_for_donor.
      destruct (PyDict.get (donors_db s) id) as [d|]; [|reflexivity].
      destruct (PyDict.get (blood_inventory s) _) eqn:He; [|reflexivity].
      cbn [snd]. now rewrite inventory_units_add_donor.
  - intros k r Hr Hfresh. exists r.
    split; [now apply non_ledger_keeps_request|auto].
Qed.

Lemma units_move_only_in_ledger_routes_witness :
  (forall g,
     inventory_units
       (snd (handle (DonorAcceptRequest sample_now "ASGN-2" "DON-1" "BR-2"
                                        (Some 3)) demo_state)) g
     = inventory_units demo_state g)
  /\ exists r',
       PyDict.get
         (blood_requests_db
            (snd (handle (DonorAcceptRequest sample_now "ASGN-2" "DON-1" "BR-2"
                                             (Some 3)) demo_state)))
         "BR-2" = Some r'
       /\ req_fulfilled_units r' = 1 /\ req_status r' = Partial.
Proof.
  destruct (units_move_only_in_ledger_routes
              (DonorAcceptRequest sample_now "ASGN-2" "DON-1" "BR-2" (Some 3))
              demo_state eq_refl) as [Hinv Hreq].
  split; [exact Hinv|].
  destruct (Hreq "BR-2" _ eq_refl ltac:(discriminate))
    as (r' & Hget & Hf & Hs & _).
  exists r'. auto.
Defined.

(** ** Assignments and what the dashboards show *)

Lemma in_values_set_new {V} (d : PyDict.t V) k v :
  In v (PyDict.values (PyDict.set d k v)).
Proof. eapply PyDict.get_in_values. apply PyDict.get_set_same. Qed.

(** X9: once a donor has accepted a request, that request is no longer
    offered to the same donor: the assignment links the two, and no
    request filed under the accepted id appears in the donor's list of
    available requests. *)
Theorem accepted_request_not_offered_again (now : datetime)
  (assignment_id id request_id : string) (units_offered : option Z)
  (s : State) (donor : Donor) (r : BloodRequest) :
  PyDict.get (donors_db s) id = Some donor ->
  PyDict.get (blood_requests_db s) request_id = Some r ->
  keyed req_request_id (blood_requests_db s) ->
  let s' := snd (donor_accept_request now assignment_id id request_id
                                      units_offered s) in
  already_assigned s' id request_id = true
  /\ forall x, In x (get_available_requests_for_donor s' id) ->
               req_request_id (ar_request x) <> request_id.
Proof.
  intros Hd Hr Hk s'.
  assert (Hs' : s' = set_assignments s
                       (PyDict.set (donor_request_assignments s) assignment_id
                          (mkAssignment assignment_id id request_id
                             (int_or units_offered 1) Accepted
                             (strftime_full now) None None None))).
  { unfold s', donor_accept_request. now rewrite Hd, Hr. }
  assert (Ha : already_assigned s' id request_id = true).
  { unfold already_assigned. apply existsb_exists.
    eexists. split.
    - rewrite Hs'. cbn [set_assignments donor_request_assignments].
      apply in_values_set_new.
    - cbn. now rewrite !String.eqb_refl. }
  split; [exact Ha|].
  intros x Hx Heq.
  assert (Hd' : PyDict.get (donors_db s') id = Some donor)
    by (rewrite Hs'; exact Hd).
  apply (in_available_requests s' id donor x Hd') in Hx.
  destruct Hx as (k & Hin & _ & _ & Hna & _).
  rewrite Hs' in Hin. cbn [set_assignments blood_requests_db] in Hin.
  unfold keyed in Hk. rewrite Forall_forall in Hk.
  specialize (Hk _ Hin). cbn in Hk.
  rewrite Heq in Hk. subst k. congruence.
Qed.

Lemma accepted_request_not_offered_again_witness :
  let s' := snd (donor_accept_request sample_now "ASGN-2" "DON-1" "BR-2"
                                      (Some 3) demo_state) in
  already_assigned s' "DON-1" "BR-2" = true
  /\ forall x, In x (get_available_requests_for_donor s' "DON-1") ->
               req_request_id (ar_request x) <> "BR-2".
Proof.
  apply (accepted_request_not_offered_again sample_now "ASGN-2" "DON-1" "BR-2"
           (Some 3) demo_state
           (mkDonor "DON-1" "Asha" 30 "O-" "Pune" "MH" true "active" 4
                    (Some "2024-10-01"))
           (mkBloodRequest "BR-2" "GUEST" "P2" "O-" 4 1 "City Hospital"
              (Some "") "critical" Partial "2025-01-31 08:00:00" []
              (Some 1) None));
    [reflexivity | reflexivity |].
  unfold keyed, demo_state; cbn. repeat constructor.
Defined.

Lemma in_donor_assigned s id a r :
  In (a, r) (get_donor_assigned_requests s id)
  <-> In a (PyDict.values (donor_request_assignments s))
      /\ asg_donor_id a = id
      /\ asg_status a = Accepted
      /\ PyDict.get (blood_requests_db s) (asg_request_id a) = Some r.
Proof.
  unfold get_donor_assigned_requests. rewrite in_flat_map. split.
  - intros (a' & Hin & H).
    destruct (String.eqb_spec (asg_donor_id a') id) as [E|]; [|destruct H].
    unfold asg_is_open in H.
    destruct (asg_status a') eqn:Est; cbn in H; try destruct H.
    destruct (PyDict.get (blood_requests_db s) (asg_request_id a')) eqn:Eg;
      [|destruct H].
    destruct H as [[= <- <-]|[]]. auto.
  - intros (Hin & Hid & Hst & Hg). exists a. split; auto.
    unfold asg_is_open. rewrite Hid, String.eqb_refl, Hst, Hg. now left.
Qed.

(** X10: an accepted request shows on the donor's dashboard:
    after [donor_accept_request] succeeds, [get_donor_assigned_requests]
    lists the new assignment (status [accepted], the units offered,
    default 1) together with its request. *)
Theorem accepted_assignment_is_listed (now : datetime)
  (assignment_id id request_id : string) (units_offered : option Z)
  (s : State) (donor : Donor) (r : BloodRequest) :
  PyDict.get (donors_db s) id = Some donor ->
  PyDict.get (blood_requests_db s) request_id = Some r ->
  let result := donor_accept_request now assignment_id id request_id
                                     units_offered s in
  fst result = FlashSuccess
  /\ exists a,
       PyDict.get (donor_request_assignments (snd result)) assignment_id
       = Some a
       /\ asg_status a = Accepted
       /\ asg_units_offered a = int_or units_offered 1
       /\ In (a, r) (get_donor_assigned_requests (snd result) id).
Proof.
  intros Hd Hr result. unfold result, donor_accept_request.
  rewrite Hd, Hr. cbn [fst snd]. split; [reflexivity|].
  eexists. split; [apply PyDict.get_set_same|].
  split; [reflexivity|]. split; [reflexivity|].
  apply in_donor_assigned. cbn. repeat split; auto.
  apply in_values_set_new.
Qed.

Lemma accepted_assignment_is_listed_witness :
  fst (donor_accept_request sample_now "ASGN-2" "DON-1" "BR-2" None
                            demo_state) = FlashSuccess
  /\ exists a,
       PyDict.get
         (donor_request_assignments
            (snd (donor_accept_request sample_now "ASGN-2" "DON-1" "BR-2" None
                                       demo_state))) "ASGN-2" = Some a
       /\ asg_status a = Accepted
       /\ asg_units_offered a = 1.
Proof.
  destruct (accepted_assignment_is_listed sample_now "ASGN-2" "DON-1" "BR-2"
              None demo_state
              (mkDonor "DON-1" "Asha" 30 "O-" "Pune" "MH" true "active" 4
                       (Some "2024-10-01"))
              (mkBloodRequest "BR-2" "GUEST" "P2" "O-" 4 1 "City Hospital"
                 (Some "") "critical" Partial "2025-01-31 08:00:00" []
                 (Some 1) None)
              eq_refl eq_refl) as (Hf & a & Hg & Hs & Hu & _).
  split; [exact Hf|]. exists a. auto.
Defined.

(** The assignment a confirmation route acts on. *)
Definition closes_assignment (o : Op) : option string :=
  match o with
  | DonorConfirmDonation _ _ assignment_id _ => Some assignment_id
  | RequestorConfirmDonor _ _ assignment_id => Some assignment_id
  | ConfirmDonorForRequest _ _ assignment_id => Some assignment_id
  | _ => None
  end.

(** X11: after any confirmation -- the donor's [donor_confirm_donation]
    or the requestor's [requestor_confirm_donor] /
    [confirm_donor_for_request] -- the assignment is stored with a status
    other than [accepted], and [get_donor_assigned_requests] lists it for
    no donor: a requestor-side confirmation already takes the assignment
    off the donor's dashboard. *)
Theorem confirmed_assignment_is_unlisted (o : Op) (s : State)
  (assignment_id : string) :
  closes_assignment o = Some assignment_id ->
  fst (handle o s) = FlashSuccess ->
  exists a',
    PyDict.get (donor_request_assignments (snd (handle o s))) assignment_id
    = Some a'
    /\ asg_status a' <> Accepted
    /\ forall id r,
         ~ In (a', r) (get_donor_assigned_requests (snd (handle o s)) id).
Proof.
  intros Hc Hok.
  assert (Hgoal : forall a',
            PyDict.get (donor_request_assignments (snd (handle o s)))
                       assignment_id = Some a' ->
            asg_status a' <> Accepted ->
            exists a'',
              PyDict.get (donor_request_assignments (snd (handle o s)))
                         assignment_id = Some a''
              /\ asg_status a'' <> Accepted
              /\ forall id r,
                   ~ In (a'', r)
                        (get_donor_assigned_requests (snd (handle o s)) id)).
  { intros a' Hg Hst. exists a'. repeat split; auto.
    intros id r Hin. apply in_donor_assigned in Hin.
    destruct Hin as (_ & _ & Hacc & _). contradiction. }
  destruct o; try discriminate Hc; injection Hc as ->;
    cbn [handle] in *.
  - revert Hok Hgoal. unfold donor_confirm_donation.
    destruct (PyDict.get (donor_request_assignments s) assignment_id)
      as [a|]; [|discriminate].
    destruct (PyDict.get (donors_db s) (asg_donor_id a)) as [d|];
      [|discriminate].
    destruct (PyDict.get (blood_requests_db s) (asg_request_id a)) as [r|];
      [|discriminate].
    cbn [set_assignments blood_inventory].
    destruct (PyDict.get (blood_inventory s) (donor_blood_group d));
      store_projections; intros _ Hgoal;
      (eapply Hgoal; [apply PyDict.get_set_same|discriminate]).
  - revert Hok Hgoal. unfold requestor_confirm_donor.
    destruct (PyDict.get (donor_request_assignments s) assignment_id)
      as [a|]; [|discriminate].
    destruct (PyDict.get (requestors_db s) rid); [|discriminate].
    destruct (PyDict.get (blood_requests_db s) (asg_request_id a));
      [|discriminate].
    destruct (PyDict.get (donors_db s) (asg_donor_id a)); [|discriminate].
    store_projections. intros _ Hgoal.
    eapply Hgoal; [apply PyDict.get_set_same|discriminate].
  - revert Hok Hgoal. unfold confirm_donor_for_request.
    destruct (PyDict.get (blood_requests_db s) request_id); [|discriminate].
    destruct (PyDict.get (donor_request_assignments s) assignment_id)
      as [a|]; [|discriminate].
    store_projections. intros _ Hgoal.
    eapply Hgoal; [apply PyDict.get_set_same|discriminate].
Qed.

Lemma confirmed_assignment_is_unlisted_witness :
  exists a',
    PyDict.get
      (donor_request_assignments
         (snd (handle (RequestorConfirmDonor sample_now "REQ-1" "ASGN-1")
                      demo_state))) "ASGN-1" = Some a'
    /\ asg_status a' <> Accepted.
Proof.
  destruct (confirmed_assignment_is_unlisted
              (RequestorConfirmDonor sample_now "REQ-1" "ASGN-1") demo_state
              "ASGN-1" eq_refl eq_refl) as (a' & Hg & Hs & _).
  exists a'. auto.
Defined.

Example dashboard_before_and_after_requestor_confirmation :
  map (fun ar => asg_assignment_id (fst ar))
      (get_donor_assigned_requests demo_state "DON-2") = ["ASGN-1"]
  /\ get_donor_assigned_requests
       (snd (requestor_confirm_donor sample_now "REQ-1" "ASGN-1" demo_state))
       "DON-2" = [].
Proof. split; reflexivity. Qed.

(** X12: a confirmed donation enters the history of its request:
    after [donor_confirm_donation] succeeds, the donation it stored
    (with the confirmed units, status [completed]) is among
    [get_fulfilled_history_for_request] of the assignment's request. *)
Theorem confirmed_donation_in_history (now : datetime)
  (donation_id assignment_id : string) (form_units : option Z) (s : State)
  (a : Assignment) (donor : Donor) (r : BloodRequest) :
  PyDict.get (donor_request_assignments s) assignment_id = Some a ->
  PyDict.get (donors_db s) (asg_donor_id a) = Some donor ->
  PyDict.get (blood_requests_db s) (asg_request_id a) = Some r ->
  let s' := snd (donor_confirm_donation now donation_id assignment_id
                                        form_units s) in
  exists d,
    PyDict.get (donations_db s') donation_id = Some d
    /\ don_units d = int_or form_units (asg_units_offered a)
    /\ don_donor_id d = asg_donor_id a
    /\ In d (get_fulfilled_history_for_request s' (asg_request_id a)).
Proof.
  intros Ha Hd Hr s'. unfold s', donor_confirm_donation.
  rewrite Ha, Hd, Hr. cbn [set_assignments blood_inventory].
  unfold get_fulfilled_history_for_request.
  destruct (PyDict.get (blood_inventory s) (donor_blood_group donor));
    store_projections; rewrite !PyDict.get_set_same;
    (eexists; split; [reflexivity|]);
    (split; [reflexivity|]); (split; [reflexivity|]);
    apply filter_In; (split; [apply in_values_set_new|]);
    unfold fulfils; cbn; now rewrite String.eqb_refl.
Qed.

Lemma confirmed_donation_in_history_witness :
  exists d,
    PyDict.get
      (donations_db (snd (donor_confirm_donation sample_now "DN-1" "ASGN-1"
                                                 None demo_state)))
      "DN-1" = Some d
    /\ don_units d = 2
    /\ don_donor_id d = "DON-2".
Proof.
  destruct (confirmed_donation_in_history sample_now "DN-1" "ASGN-1" None
              demo_state
              (mkAssignment "ASGN-1" "DON-2" "BR-1" 2 Accepted
                 "2025-01-31 09:00:00" None None None)
              (mkDonor "DON-2" "Ravi" 41 "A+" "Mumbai" "MH" true "active" 0
                       None)
              (mkBloodRequest "BR-1" "REQ-1" "P1" "A+" 5 0 "City Hospital"
                 (Some "Pune") "high" Pending "2025-01-30 08:00:00" []
                 (Some 0) None)
              eq_refl eq_refl eq_refl) as (d & Hg & Hu & Hi & _).
  exists d. auto.
Defined.

(** ** Progress of a request *)

Definition status_rank (st : RequestStatus) : Z :=
  match st with Pending => 0 | Partial => 1 | Fulfilled => 2 end.

Definition offers_nonneg (s : State) : Prop :=
  Forall (fun a => 0 <= asg_units_offered a)
         (PyDict.values (donor_request_assignments s)).

Lemma progress_monotone r delta u st :
  request_invariant r -> 0 <= delta ->
  st = (if req_units_needed r - (req_fulfilled_units r + delta) <=? 0
        then Fulfilled else Partial) ->
  let r' := req_set_progress r (req_fulfilled_units r + delta) st u in
  req_units_needed r' = req_units_needed r
  /\ req_blood_group r' = req_blood_group r
  /\ req_fulfilled_units r <= req_fulfilled_units r'
  /\ status_rank (req_status r) <= status_rank (req_status r').
Proof.
  intros Hinv Hd -> r'. unfold r'.
  cbn [req_set_progress req_units_needed req_blood_group req_fulfilled_units
       req_status].
  repeat split; try lia.
  destruct (Z.leb_spec (req_units_needed r - (req_fulfilled_units r + delta))
                       0) as [Hle|Hgt].
  - destruct (req_status r); cbn; lia.
  - destruct (req_status r) eqn:Est; cbn; try lia.
    unfold request_invariant in Hinv. rewrite Est in Hinv.
    destruct Hinv as [Hinv _]. specialize (Hinv eq_refl). lia.
Qed.

(** X13: no operation takes progress away from a request: when the
    units supplied with the operation and the units offered in the stored
    assignments are non-negative, a request that satisfies the ledger
    invariant keeps its [units_needed] and blood group, its
    [fulfilled_units] does not decrease and its status does not move
    backwards in pending -> partial -> fulfilled -- unless a new request
    is filed under the same key. *)
Theorem request_progress_monotone (o : Op) (s : State) (k : string)
  (r : BloodRequest) :
  units_nonneg o ->
  offers_nonneg s ->
  new_request_id o <> Some k ->
  PyDict.get (blood_requests_db s) k = Some r ->
  request_invariant r ->
  exists r',
    PyDict.get (blood_requests_db (snd (handle o s))) k = Some r'
    /\ req_units_needed r' = req_units_needed r
    /\ req_blood_group r' = req_blood_group r
    /\ req_fulfilled_units r <= req_fulfilled_units r'
    /\ status_rank (req_status r) <= status_rank (req_status r').
Proof.
  intros Hu Hoff Hfresh Hr Hinv.
  assert (Hkeep : PyDict.get (blood_requests_db (snd (handle o s))) k = Some r ->
                  exists r',
                    PyDict.get (blood_requests_db (snd (handle o s))) k
                    = Some r'
                    /\ req_units_needed r' = req_units_needed r
                    /\ req_blood_group r' = req_blood_group r
                    /\ req_fulfilled_units r <= req_fulfilled_units r'
                    /\ status_rank (req_status r) <= status_rank (req_status r')).
  { intros H. exists r. repeat split; auto; lia. }
  destruct (moves_units o) eqn:Hm;
    [|apply Hkeep; now apply non_ledger_keeps_request].
  destruct o; try discriminate Hm; cbn [handle units_nonneg] in *.
  - (* record_donation *)
    apply Hkeep. unfold record_donation.
    destruct (PyDict.get (donors_db s) id); [|exact Hr].
    destruct (negb _); [exact Hr|]. cbn [snd].
    now rewrite update_inventory_requests.
  - (* donate_to_inventory *)
    apply Hkeep. unfold donate_to_inventory.
    destruct (PyDict.get (donors_db s) id); [|exact Hr].
    destruct (negb _); [exact Hr|].
    destruct (_ || _); [exact Hr|].
    match goal with
    | |- context [match ?x with Some _ => _ | None => _ end] => destruct x
    end; cbn [snd set_inventory blood_requests_db];
      now rewrite update_inventory_requests.
  - (* donor_confirm_donation *)
    clear Hkeep. unfold donor_confirm_donation.
    destruct (PyDict.get (donor_request_assignments s) assignment_id)
      as [a|] eqn:Ha; [|exists r; repeat split; auto; lia].
    destruct (PyDict.get (donors_db s) (asg_donor_id a)) as [d|];
      [|exists r; repeat split; auto; lia].
    destruct (PyDict.get (blood_requests_db s) (asg_request_id a)) as [r0|]
      eqn:Hr0; [|exists r; repeat split; auto; lia].
    assert (Hdelta : 0 <= int_or units_donated (asg_units_offered a)).
    { destruct units_donated as [u|]; cbn in *; [exact Hu|].
      unfold offers_nonneg in Hoff. rewrite Forall_forall in Hoff.
      apply (Hoff a). eapply PyDict.get_in_values. exact Ha. }
    cbn [set_assignments blood_inventory].
    destruct (String.eqb_spec k (asg_request_id a)) as [->|Hne].
    + rewrite Hr in Hr0. injection Hr0 as <-.
      destruct (PyDict.get (blood_inventory s) (donor_blood_group d));
        store_projections; rewrite PyDict.get_set_same;
        (eexists; split; [reflexivity|]);
        apply progress_monotone; auto.
    + destruct (PyDict.get (blood_inventory s) (donor_blood_group d));
        store_projections; rewrite PyDict.get_set_other by exact Hne;
        exists r; repeat split; auto; lia.
  - (* take_from_inventory *)
    apply Hkeep. unfold take_from_inventory.
    assert (Hne : request_id <> k) by (cbn in Hfresh; congruence).
    destruct (PyDict.get (requestors_db s) rid); [|exact Hr].
    destruct (wf_blood_group form); [|exact Hr].
    destruct (PyDict.get (blood_inventory s) _); [|exact Hr].
    destruct (_ <=? 0); [exact Hr|].
    destruct (_ <? _); [exact Hr|].
    cbn [snd set_donations set_requestors blood_requests_db].
    rewrite update_inventory_requests. cbn [set_requests blood_requests_db].
    rewrite PyDict.get_set_other by congruence. exact Hr.
  - (* use_inventory_for_request *)
    clear Hkeep. unfold use_inventory_for_request.
    destruct (PyDict.get (blood_requests_db s) request_id) as [r0|] eqn:Hr0;
      [|exists r; repeat split; auto; lia].
    destruct (_ >? _); [exists r; repeat split; auto; lia|].
    assert (Hdelta : 0 <= int_or units 0)
      by (destruct units; cbn in *; lia).
    destruct (String.eqb_spec k request_id) as [->|Hne].
    + rewrite Hr in Hr0. injection Hr0 as <-.
      destruct (Z.leb_spec (req_units_needed r
                            - (req_fulfilled_units r + int_or units 0)) 0)
        as [Hle|Hgt];
        cbn [snd set_requests blood_requests_db];
        rewrite PyDict.get_set_same;
        (eexists; split; [reflexivity|]);
        apply progress_monotone; auto;
        destruct (Z.leb_spec (req_units_needed r
                              - (req_fulfilled_units r + int_or units 0)) 0);
        (reflexivity || lia).
    + destruct (_ <=? 0); cbn [snd set_requests blood_requests_db];
        rewrite PyDict.get_set_other by exact Hne;
        rewrite update_inventory_requests;
        exists r; repeat split; auto; lia.
  - (* fulfill_request *)
    clear Hkeep. unfold fulfill_request.
    destruct (PyDict.get (blood_requests_db s) request_id) as [r0|] eqn:Hr0;
      [|exists r; repeat split; auto; lia].
    assert (Hdelta : 0 <= int_or units 0)
      by (destruct units; cbn in *; lia).
    destruct (String.eqb_spec k request_id) as [->|Hne].
    + rewrite Hr in Hr0. injection Hr0 as <-.
      destruct (Z.geb_spec (req_fulfilled_units r + int_or units 0)
                           (req_units_needed r)) as [Hge|Hlt];
        cbn [snd]; rewrite update_inventory_requests;
        cbn [set_requests blood_requests_db];
        rewrite PyDict.get_set_same;
        (eexists; split; [reflexivity|]);
        apply progress_monotone; auto;
        destruct (Z.leb_spec (req_units_needed r
                              - (req_fulfilled_units r + int_or units 0)) 0);
        (reflexivity || lia).
    + destruct (_ >=? _); cbn [snd]; rewrite update_inventory_requests;
        cbn [set_requests blood_requests_db];
        rewrite PyDict.get_set_other by exact Hne;
        exists r; repeat split; auto; lia.
Qed.

Lemma request_progress_monotone_witness :
  exists r',
    PyDict.get
      (blood_requests_db
         (snd (handle (UseInventoryForRequest "BR-2" (Some 3)) demo_state)))
      "BR-2" = Some r'
    /\ req_units_needed r' = 4
    /\ 1 <= req_fulfilled_units r'
    /\ status_rank Partial <= status_rank (req_status r').
Proof.
  destruct (request_progress_monotone
              (UseInventoryForRequest "BR-2" (Some 3)) demo_state "BR-2"
              (mkBloodRequest "BR-2" "GUEST" "P2" "O-" 4 1 "City Hospital"
                 (Some "") "critical" Partial "2025-01-31 08:00:00" []
                 (Some 1) None))
    as (r' & Hg & Hn & _ & Hf & Hs).
  - cbn. lia.
  - unfold offers_nonneg, demo_state; cbn. repeat constructor. cbn. lia.
  - discriminate.
  - reflexivity.
  - unfold request_invariant; cbn. split; [discriminate|lia].
  - exists r'. auto.
Defined.

(** ** Dates written by the routes and read back by [can_donate] *)

(** X14: a date written with [strftime('%Y-%m-%d')] is read back by
    [strptime] as the same calendar day at midnight, for every
    well-formed [datetime] whose year has four digits; the text is never
    empty, so [can_donate] does parse it. *)
Theorem strptime_strftime_roundtrip (t : datetime) :
  PyDate.wf t -> 1000 <= year t ->
  strptime_ymd (strftime_ymd t)
  = Some (mkDatetime (year t) (month t) (day t) 0 0 0 0)
  /\ PyStr.truthy (strftime_ymd t) = true
  /\ forall now, PyDate.wf now ->
       sub_days now (mkDatetime (year t) (month t) (day t) 0 0 0 0)
       = toordinal now - toordinal t.
Proof.
  intros Hwf Hy4. split; [now apply strptime_of_strftime|].
  split; [reflexivity|].
  intros now Hn. now rewrite sub_days_midnight.
Qed.

Lemma strptime_strftime_roundtrip_witness :
  strptime_ymd (strftime_ymd sample_now)
  = Some (mkDatetime 2025 2 1 0 0 0 0).
Proof.
  refine (proj1 (strptime_strftime_roundtrip sample_now _ _)).
  - unfold PyDate.wf, sample_now; cbn. repeat split; lia.
  - cbn. lia.
Defined.

(** The clock and the donor of a donation route. *)
Definition donation_of (o : Op) (s : State) : option (datetime * string) :=
  match o with
  | RecordDonation now _ id _ => Some (now, id)
  | DonateToInventory now _ id _ => Some (now, id)
  | DonorConfirmDonation now _ assignment_id _ =>
      match PyDict.get (donor_request_assignments s) assignment_id with
      | Some a => Some (now, asg_donor_id a)
      | None => None
      end
  | _ => None
  end.

Lemma can_donate_after now now' :
  PyDate.wf now -> 1000 <= year now -> PyDate.wf now' ->
  (can_donate now' (Some (strftime_ymd now)) = true
   <-> toordinal now' - toordinal now >= 56).
Proof.
  intros Hwf Hy Hwf'.
  pose proof (strptime_of_strftime now Hwf Hy) as Hp.
  unfold can_donate. cbn [PyStr.opt_truthy].
  rewrite (strptime_truthy _ _ Hp). cbn [negb]. rewrite Hp.
  rewrite sub_days_midnight by exact Hwf'. unfold toordinal.
  rewrite Z.geb_le. lia.
Qed.

Lemma update_inventory_donors s g units operation :
  donors_db (update_inventory s g units operation) = donors_db s.
Proof. apply update_inventory_other_stores. Qed.

(** X15: a donation starts the cooldown.  After [record_donation],
    [donate_to_inventory] or [donor_confirm_donation] succeeds at [now],
    the donor's [last_donation] is the day of [now], and [can_donate]
    answers [True] for that donor at a later clock exactly when at least
    56 calendar days have passed. *)
Theorem donation_starts_cooldown (o : Op) (s : State) (now now' : datetime)
  (id : string) :
  donation_of o s = Some (now, id) ->
  fst (handle o s) = FlashSuccess ->
  PyDate.wf now -> 1000 <= year now -> PyDate.wf now' ->
  exists donor',
    PyDict.get (donors_db (snd (handle o s))) id = Some donor'
    /\ donor_last_donation donor' = Some (strftime_ymd now)
    /\ (can_donate now' (donor_last_donation donor') = true
        <-> toordinal now' - toordinal now >= 56).
Proof.
  intros Hdon Hok Hwf Hy Hwf'.
  assert (Hfin : forall donor',
            PyDict.get (donors_db (snd (handle o s))) id = Some donor' ->
            donor_last_donation donor' = Some (strftime_ymd now) ->
            exists donor'0,
              PyDict.get (donors_db (snd (handle o s))) id = Some donor'0
              /\ donor_last_donation donor'0 = Some (strftime_ymd now)
              /\ (can_donate now' (donor_last_donation donor'0) = true
                  <-> toordinal now' - toordinal now >= 56)).
  { intros d' Hg Hl. exists d'. repeat split; auto;
      rewrite Hl; now apply can_donate_after. }
  destruct o; try discriminate Hdon; cbn [handle donation_of] in *.
  - injection Hdon as <- <-. revert Hok Hfin. unfold record_donation.
    destruct (PyDict.get (donors_db s) id0) as [d|]; [|discriminate].
    destruct (negb _); [discriminate|]. cbn [fst snd]. intros _ Hfin.
    eapply Hfin;
      [ rewrite update_inventory_donors; cbn [set_donors donors_db];
        apply PyDict.get_set_same
      | reflexivity ].
  - injection Hdon as <- <-. revert Hok Hfin. unfold donate_to_inventory.
    destruct (PyDict.get (donors_db s) id0) as [d|]; [|discriminate].
    destruct (negb _); [discriminate|].
    destruct (_ || _); [discriminate|].
    match goal with
    | |- context [match ?x with Some _ => _ | None => _ end] => destruct x
    end; [|discriminate].
    cbn [fst snd]. intros _ Hfin.
    eapply Hfin;
      [ cbn [set_inventory donors_db]; rewrite update_inventory_donors;
        cbn [set_donors donors_db]; apply PyDict.get_set_same
      | reflexivity ].
  - revert Hdon Hok Hfin. unfold donor_confirm_donation.
    destruct (PyDict.get (donor_request_assignments s) assignment_id)
      as [a|]; [|discriminate].
    intros [= <- <-].
    destruct (PyDict.get (donors_db s) (asg_donor_id a)) as [d|];
      [|discriminate].
    destruct (PyDict.get (blood_requests_db s) (asg_request_id a)) as [r|];
      [|discriminate].
    cbn [set_assignments blood_inventory].
    destruct (PyDict.get (blood_inventory s) (donor_blood_group d));
      store_projections; intros _ Hfin;
      (eapply Hfin; [apply PyDict.get_set_same|reflexivity]).
Qed.

Lemma donation_starts_cooldown_witness :
  exists donor',
    PyDict.get
      (donors_db (snd (handle (DonateToInventory sample_now "DN-1" "DON-1"
                                                 (Some 2)) demo_state)))
      "DON-1" = Some donor'
    /\ donor_last_donation donor' = Some "2025-02-01"
    /\ (can_donate (mkDatetime 2025 3 29 8 0 0 0)
                   (donor_last_donation donor') = true
        <-> toordinal (mkDatetime 2025 3 29 8 0 0 0) - toordinal sample_now
            >= 56).
Proof.
  apply (donation_starts_cooldown
           (DonateToInventory sample_now "DN-1" "DON-1" (Some 2)) demo_state
           sample_now (mkDatetime 2025 3 29 8 0 0 0) "DON-1");
    try reflexivity;
    try (unfold PyDate.wf; cbn; repeat split; lia).
Defined.

Example cooldown_days_after_donation :
  map (fun day' =>
         can_donate (mkDatetime 2025 3 day' 8 0 0 0) (Some "2025-02-01"))
      [28; 29; 30]
  = [false; true; true].
Proof. reflexivity. Qed.

(** ** Units entering and leaving the inventory *)

Lemma inventory_units_update s g units operation e g' :
  PyDict.get (blood_inventory s) g = Some e ->
  inventory_units (update_inventory s g units operation) g'
  = if String.eqb g' g
    then match operation with
         | Add => inv_units e + units
         | Remove => Z.max 0 (inv_units e - units)
         end
    else inventory_units s g'.
Proof.
  intros He. unfold update_inventory. rewrite He.
  rewrite inventory_units_set. reflexivity.
Qed.

Lemma inventory_units_update_absent s g units operation g' :
  PyDict.get (blood_inventory s) g = None ->
  inventory_units (update_inventory s g units operation) g'
  = inventory_units s g'.
Proof. intros He. unfold update_inventory. now rewrite He. Qed.

(** X16: [record_donation] takes the units from the form as they are:
    for an eligible donor whose group is in the inventory it always
    succeeds and adds exactly the submitted number (default 1) to that
    group, touching no other group; there is no range check, so a
    negative number below minus the stock leaves a negative stock. *)
Theorem record_donation_adds_unchecked (now : datetime)
  (donation_id id : string) (units : option Z) (s : State) (donor : Donor)
  (e : InventoryEntry) :
  PyDict.get (donors_db s) id = Some donor ->
  can_donate now (donor_last_donation donor) = true ->
  PyDict.get (blood_inventory s) (donor_blood_group donor) = Some e ->
  let result := record_donation now donation_id id units s in
  fst result = FlashSuccess
  /\ inventory_units (snd result) (donor_blood_group donor)
     = inv_units e + int_or units 1
  /\ (forall g, g <> donor_blood_group donor ->
                inventory_units (snd result) g = inventory_units s g)
  /\ (int_or units 1 < - inv_units e -> ~ inventory_nonneg (snd result)).
Proof.
  intros Hd Hc He result. unfold result, record_donation.
  rewrite Hd, Hc. cbn [negb fst snd donor_set_donated donor_blood_group].
  set (s1 := set_donors _ _).
  assert (He1 : PyDict.get (blood_inventory s1) (donor_blood_group donor)
                = Some e) by exact He.
  split; [reflexivity|]. split; [|split].
  - rewrite (inventory_units_update s1 _ _ _ e _ He1).
    now rewrite String.eqb_refl.
  - intros g Hg. rewrite (inventory_units_update s1 _ _ _ e _ He1).
    apply String.eqb_neq in Hg. now rewrite Hg.
  - intros Hneg Hnn. unfold inventory_nonneg in Hnn.
    unfold update_inventory in Hnn. rewrite He1 in Hnn.
    cbn [set_inventory blood_inventory] in Hnn.
    rewrite Forall_forall in Hnn.
    specialize (Hnn _ (in_values_set_new _ _ _)). cbn in Hnn. lia.
Qed.

Lemma record_donation_adds_unchecked_witness :
  let result := record_donation sample_now "DN-1" "DON-1" (Some (-60))
                                demo_state in
  fst result = FlashSuccess
  /\ inventory_units (snd result) "O-" = 40 + -60
  /\ ~ inventory_nonneg (snd result).
Proof.
  destruct (record_donation_adds_unchecked sample_now "DN-1" "DON-1"
              (Some (-60)) demo_state
              (mkDonor "DON-1" "Asha" 30 "O-" "Pune" "MH" true "active" 4
                       (Some "2024-10-01"))
              (mkInventoryEntry 40 [])
              eq_refl eq_refl eq_refl) as (Hf & Hu & _ & Hn).
  split; [exact Hf|]. split; [exact Hu|]. apply Hn. cbn. lia.
Defined.

(** X17: [use_inventory_for_request] conserves units: for a stored
    request and a non-negative number of units it fails, changing
    nothing, when the units exceed the stock of the request's group;
    otherwise the stock of that group drops by exactly the units, no other
    group changes, and the request's [fulfilled_units] and
    [inventory_used] rise by exactly the same units. *)
Theorem use_inventory_conserves_units (request_id : string)
  (form_units : option Z) (s : State) (r : BloodRequest) :
  PyDict.get (blood_requests_db s) request_id = Some r ->
  0 <= int_or form_units 0 ->
  let units := int_or form_units 0 in
  let g := req_blood_group r in
  let result := use_inventory_for_request request_id form_units s in
  (units > inventory_units s g ->
   result = (FlashError InsufficientInventory, s))
  /\ (units <= inventory_units s g ->
      inventory_units (snd result) g = inventory_units s g - units
      /\ (forall g', g' <> g ->
                     inventory_units (snd result) g' = inventory_units s g')
      /\ exists r',
           PyDict.get (blood_requests_db (snd result)) request_id = Some r'
           /\ req_fulfilled_units r' = req_fulfilled_units r + units
           /\ req_inventory_used r'
              = Some (int_or (req_inventory_used r) 0 + units)).
Proof.
  intros Hr Hu units g result. unfold result, use_inventory_for_request.
  rewrite Hr. fold units g. split; intros Hcmp.
  - destruct (Z.gtb_spec units (inventory_units s g)); [reflexivity|lia].
  - destruct (Z.gtb_spec units (inventory_units s g)); [lia|].
    assert (Hinv : forall st,
              inventory_units (set_requests (update_inventory s g units Remove)
                                            st) g
              = inventory_units s g - units
              /\ forall g', g' <> g ->
                   inventory_units
                     (set_requests (update_inventory s g units Remove) st) g'
                   = inventory_units s g').
    { intros st.
      change (inventory_units (update_inventory s g units Remove) g
              = inventory_units s g - units
              /\ forall g', g' <> g ->
                   inventory_units (update_inventory s g units Remove) g'
                   = inventory_units s g').
      destruct (PyDict.get (blood_inventory s) g) as [e|] eqn:He.
      - split.
        + rewrite (inventory_units_update s g units Remove e g He).
          rewrite String.eqb_refl.
          unfold inventory_units in Hcmp |- *. rewrite He in *. lia.
        + intros g' Hg'.
          rewrite (inventory_units_update s g units Remove e g' He).
          apply String.eqb_neq in Hg'. now rewrite Hg'.
      - split.
        + rewrite inventory_units_update_absent by exact He.
          unfold inventory_units in Hcmp |- *. rewrite He in *. lia.
        + intros g' _. now rewrite inventory_units_update_absent. }
    destruct (_ <=? 0); cbn [snd];
      (split; [apply Hinv|]); (split; [apply Hinv|]);
      cbn [set_requests blood_requests_db];
      (eexists; split; [apply PyDict.get_set_same|]); split; reflexivity.
Qed.

Lemma use_inventory_conserves_units_witness :
  let result := use_inventory_for_request "BR-2" (Some 3) demo_state in
  inventory_units (snd result) "O-" = 40 - 3
  /\ exists r',
       PyDict.get (blood_requests_db (snd result)) "BR-2" = Some r'
       /\ req_fulfilled_units r' = 1 + 3
       /\ req_inventory_used r' = Some (1 + 3).
Proof.
  destruct (use_inventory_conserves_units "BR-2" (Some 3) demo_state
              (mkBloodRequest "BR-2" "GUEST" "P2" "O-" 4 1 "City Hospital"
                 (Some "") "critical" Partial "2025-01-31 08:00:00" []
                 (Some 1) None)
              eq_refl ltac:(cbn; lia)) as [_ Hok].
  destruct (Hok ltac:(cbn; lia)) as (Hinv & _ & Hreq).
  split; [exact Hinv|exact Hreq].
Defined.

(** X18: the legacy [fulfill_request] does not look at the stock: for a
    stored request and non-negative units it always credits the full
    units to [fulfilled_units] (leaving [inventory_used] alone) while the
    stock of the group only drops to [max(0, stock - units)]; with more
    units than the stock the request is credited more than the inventory
    gave up. *)
Theorem fulfill_request_credits_beyond_stock (request_id : string)
  (form_units : option Z) (s : State) (r : BloodRequest) :
  PyDict.get (blood_requests_db s) request_id = Some r ->
  0 <= int_or form_units 0 ->
  let units := int_or form_units 0 in
  let g := req_blood_group r in
  let s' := snd (fulfill_request request_id form_units s) in
  inventory_units s' g = Z.max 0 (inventory_units s g - units)
  /\ (exists r',
        PyDict.get (blood_requests_db s') request_id = Some r'
        /\ req_fulfilled_units r' = req_fulfilled_units r + units
        /\ req_inventory_used r' = req_inventory_used r)
  /\ (units > inventory_units s g ->
      inventory_units s g - inventory_units s' g < units).
Proof.
  intros Hr Hu units g s'.
  assert (Hinv : inventory_units s' g = Z.max 0 (inventory_units s g - units)).
  { unfold s', fulfill_request. rewrite Hr. fold units g.
    destruct (_ >=? _); cbn [snd];
      match goal with
      | |- inventory_units (update_inventory ?s1 _ _ _) _ = _ =>
          destruct (PyDict.get (blood_inventory s) g) as [e|] eqn:He;
          [ rewrite (inventory_units_update s1 g units Remove e g He);
            rewrite String.eqb_refl;
            unfold inventory_units; rewrite He; reflexivity
          | rewrite (inventory_units_update_absent s1 g units Remove g He);
            unfold inventory_units; cbn [set_requests blood_inventory];
            rewrite He; lia ]
      end. }
  split; [exact Hinv|]. split.
  - unfold s', fulfill_request. rewrite Hr. fold units g.
    destruct (_ >=? _); cbn [snd]; rewrite update_inventory_requests;
      cbn [set_requests blood_requests_db];
      (eexists; split; [apply PyDict.get_set_same|]); split; reflexivity.
  - intros Hgt. rewrite Hinv.
    assert (0 <= inventory_units s g \/ inventory_units s g < 0) by lia.
    lia.
Qed.

Lemma fulfill_request_credits_beyond_stock_witness :
  let s' := snd (fulfill_request "BR-1" (Some 70) demo_state) in
  inventory_units s' "A+" = Z.max 0 (50 - 70)
  /\ exists r',
       PyDict.get (blood_requests_db s') "BR-1" = Some r'
       /\ req_fulfilled_units r' = 0 + 70.
Proof.
  destruct (fulfill_request_credits_beyond_stock "BR-1" (Some 70) demo_state
              (mkBloodRequest "BR-1" "REQ-1" "P1" "A+" 5 0 "City Hospital"
                 (Some "Pune") "high" Pending "2025-01-30 08:00:00" []
                 (Some 0) None)
              eq_refl ltac:(cbn; lia)) as (Hinv & (r' & Hg & Hf & _) & _).
  split; [exact Hinv|]. exists r'. auto.
Defined.

(** X19: [donate_to_inventory] either rejects and changes nothing, or
    succeeds, or fails half-way.  It succeeds exactly for a known donor
    out of cooldown with 1..50 units whose group is in the inventory; the
    stock of the group then grows by the units, the donor is in the
    group's donor list and a completed donation marked for the inventory
    is stored.  For such a donor whose group is missing from the
    inventory the handler raises [KeyError] after the donation and the
    donor's counters were already written, and the inventory is
    untouched. *)
Theorem donate_to_inventory_outcomes (now : datetime)
  (donation_id id : string) (form_units : option Z) (s : State) :
  let units := int_or form_units 1 in
  let result := donate_to_inventory now donation_id id form_units s in
  (forall e, fst result = FlashError e -> snd result = s)
  /\ fst result <> FlashInfo
  /\ (forall donor,
        PyDict.get (donors_db s) id = Some donor ->
        can_donate now (donor_last_donation donor) = true ->
        1 <= units <= 50 ->
        (forall entry,
           PyDict.get (blood_inventory s) (donor_blood_group donor)
           = Some entry ->
           fst result = FlashSuccess
           /\ inventory_units (snd result) (donor_blood_group donor)
              = inv_units entry + units
           /\ (exists entry',
                 PyDict.get (blood_inventory (snd result))
                            (donor_blood_group donor) = Some entry'
                 /\ In id (inv_donors entry'))
           /\ (exists d,
                 PyDict.get (donations_db (snd result)) donation_id = Some d
                 /\ don_units d = units
                 /\ don_requestor_id d = Some "inventory"
                 /\ don_status d = Some "completed"))
        /\ (PyDict.get (blood_inventory s) (donor_blood_group donor) = None ->
            fst result = KeyError
            /\ blood_inventory (snd result) = blood_inventory s
            /\ PyDict.mem (donations_db (snd result)) donation_id = true
            /\ exists donor',
                 PyDict.get (donors_db (snd result)) id = Some donor'
                 /\ donor_total_donations donor'
                    = donor_total_donations donor + 1))
  /\ (fst result = FlashSuccess ->
      exists donor,
        PyDict.get (donors_db s) id = Some donor
        /\ can_donate now (donor_last_donation donor) = true
        /\ 1 <= units <= 50
        /\ PyDict.mem (blood_inventory s) (donor_blood_group donor) = true).
Proof.
  intros units result.
  split; [|split; [|split]].
  - intros e. unfold result, donate_to_inventory.
    destruct (PyDict.get (donors_db s) id) as [d|]; [|reflexivity].
    destruct (negb _); [reflexivity|].
    destruct (_ || _); [reflexivity|].
    match goal with
    | |- context [match ?x with Some _ => _ | None => _ end] => destruct x
    end; discriminate.
  - unfold result, donate_to_inventory.
    destruct (PyDict.get (donors_db s) id) as [d|]; [|discriminate].
    destruct (negb _); [discriminate|].
    destruct (_ || _); [discriminate|].
    match goal with
    | |- context [match ?x with Some _ => _ | None => _ end] => destruct x
    end; discriminate.
  - intros donor Hd Hc Hu. unfold result, donate_to_inventory.
    rewrite Hd, Hc. cbn [negb]. fold units.
    replace ((units <=? 0) || (50 <? units)) with false
      by (symmetry; apply orb_false_iff; split;
          [apply Z.leb_gt|apply Z.ltb_ge]; lia).
    set (s1 := set_donors _ _).
    split.
    + intros entry He.
      assert (He1 : PyDict.get (blood_inventory s1) (donor_blood_group donor)
                    = Some entry) by exact He.
      assert (He2 : PyDict.get
                      (blood_inventory
                         (update_inventory s1 (donor_blood_group donor)
                                           units Add))
                      (donor_blood_group donor)
                    = Some (mkInventoryEntry (inv_units entry + units)
                                             (inv_donors entry))).
      { unfold update_inventory. rewrite He1.
        cbn [set_inventory blood_inventory]. apply PyDict.get_set_same. }
      rewrite He2. cbn [fst snd]. split; [reflexivity|]. split; [|split].
      * rewrite inventory_units_set, String.eqb_refl.
        now rewrite inv_add_donor_units.
      * eexists. split.
        -- cbn [set_inventory blood_inventory]. apply PyDict.get_set_same.
        -- unfold inv_add_donor. cbn [inv_donors inv_units].
           destruct (str_in id (inv_donors entry)) eqn:Hin.
           ++ now apply str_in_In.
           ++ cbn [inv_donors]. apply in_or_app. right. now left.
      * cbn [set_inventory donations_db].
        destruct (update_inventory_other_stores s1 (donor_blood_group donor)
                    units Add) as (_ & _ & _ & Hdn & _).
        rewrite Hdn. unfold s1. cbn [set_donors set_donations donations_db].
        eexists. split; [apply PyDict.get_set_same|]. repeat split.
    + intros He.
      assert (He1 : PyDict.get (blood_inventory s1) (donor_blood_group donor)
                    = None) by exact He.
      assert (Hs2 : update_inventory s1 (donor_blood_group donor) units Add
                    = s1).
      { unfold update_inventory. now rewrite He1. }
      rewrite Hs2, He1. cbn [fst snd]. split; [reflexivity|].
      split; [reflexivity|]. split.
      * unfold s1. cbn [set_donors set_donations donations_db]. unfold PyDict.mem.
        now rewrite PyDict.get_set_same.
      * unfold s1. cbn [set_donors donors_db].
        eexists. split; [apply PyDict.get_set_same|]. reflexivity.
  - unfold result, donate_to_inventory.
    destruct (PyDict.get (donors_db s) id) as [d|]; [|discriminate].
    destruct (can_donate now (donor_last_donation d)) eqn:Hc;
      [|discriminate]. cbn [negb]. fold units.
    destruct (Z.leb_spec units 0); [discriminate|].
    destruct (Z.ltb_spec 50 units); [discriminate|]. cbn [orb].
    set (s1 := set_donors _ _).
    destruct (PyDict.get (blood_inventory s1) (donor_blood_group d))
      as [e|] eqn:He.
    + intros _. exists d. repeat split; auto; try lia.
      unfold PyDict.mem. change (blood_inventory s) with (blood_inventory s1).
      now rewrite He.
    + assert (Hs2 : update_inventory s1 (donor_blood_group d) units Add = s1).
      { unfold update_inventory. now rewrite He. }
      rewrite Hs2, He. discriminate.
Qed.

Example donate_with_group_missing_from_inventory :
  let s := mkState
             [("DON-1", mkDonor "DON-1" "Asha" 30 "O-" "Pune" "MH" true
                                "active" 4 None)]
             [] [] [] [] [("A+", mkInventoryEntry 50 [])] in
  let result := donate_to_inventory sample_now "DN-1" "DON-1" (Some 2) s in
  fst result = KeyError
  /\ map fst (donations_db (snd result)) = ["DN-1"]
  /\ option_map donor_total_donations (PyDict.get (donors_db (snd result))
                                                  "DON-1") = Some 5
  /\ blood_inventory (snd result) = [("A+", mkInventoryEntry 50 [])].
Proof. repeat split. Qed.

(** ** Statistics *)

Lemma sum_units_set d k v old :
  PyDict.get d k = Some old ->
  sum_units (PyDict.set d k v) = sum_units d - inv_units old + inv_units v.
Proof.
  unfold sum_units, PyDict.values.
  induction d as [|[k0 v0] d IH]; simpl; [discriminate|].
  destruct (String.eqb k k0); simpl.
  - intros [= ->]. lia.
  - intros H. rewrite (IH H). lia.
Qed.

Lemma length_set_present {V} (d : PyDict.t V) k v old :
  PyDict.get d k = Some old ->
  List.length (PyDict.set d k v) = List.length d.
Proof.
  induction d as [|[k0 v0] d IH]; simpl; [discriminate|].
  destruct (String.eqb k k0); simpl; auto.
Qed.

Lemma count_app {A} (p : A -> bool) l v :
  count p (l ++ [v]) = count p l + (if p v then 1 else 0).
Proof.
  unfold count. rewrite filter_app, length_app. cbn [filter].
  destruct (p v); cbn [List.length]; lia.
Qed.

Lemma values_app {V} (d : PyDict.t V) k v :
  PyDict.values (d ++ [(k, v)]) = PyDict.values d ++ [v].
Proof. unfold PyDict.values. now rewrite map_app. Qed.

(** X20: the dashboard figures follow a withdrawal: after a successful
    [take_from_inventory] under a fresh request id, [get_statistics]
    shows [total_units] lowered by exactly the withdrawn units, one more
    request and one more fulfilled request, and the same numbers of
    active requests, donors and requestors. *)
Theorem withdrawal_updates_statistics (now : datetime)
  (request_id donation_id rid : string) (form : WithdrawForm) (s : State)
  (requestor : Requestor) (group : string) (entry : InventoryEntry)
  (units : Z) :
  PyDict.get (requestors_db s) rid = Some requestor ->
  wf_blood_group form = Some group ->
  PyDict.get (blood_inventory s) group = Some entry ->
  int_or (wf_units_needed form) 1 = units ->
  0 < units <= inv_units entry ->
  PyDict.get (blood_requests_db s) request_id = None ->
  let before := get_statistics s in
  let after :=
    get_statistics
      (snd (take_from_inventory now request_id donation_id rid form s)) in
  total_units after = total_units before - units
  /\ total_requests after = total_requests before + 1
  /\ fulfilled_requests after = fulfilled_requests before + 1
  /\ active_requests after = active_requests before
  /\ total_donors after = total_donors before
  /\ total_requestors after = total_requestors before.
Proof.
  intros Hrq Hg Hinv Hunits [Hpos Hle] Hfresh before after.
  unfold after, before, take_from_inventory.
  rewrite Hrq, Hg, Hinv, Hunits.
  destruct (Z.leb_spec units 0); [lia|].
  destruct (Z.ltb_spec (inv_units entry) units); [lia|].
  cbn [snd]. unfold update_inventory.
  cbn [set_requests blood_inventory]. rewrite Hinv.
  unfold get_statistics. store_projections.
  cbn [total_units total_requests fulfilled_requests active_requests
       total_donors total_requestors].
  rewrite (PyDict.set_fresh _ _ _ Hfresh).
  rewrite values_app, !count_app, length_app.
  rewrite (sum_units_set _ _ _ _ Hinv).
  rewrite (length_set_present _ _ _ _ Hrq).
  cbn. repeat split; lia.
Qed.

Lemma withdrawal_updates_statistics_witness :
  let after :=
    get_statistics
      (snd (take_from_inventory sample_now "BR-9" "DN-9" "REQ-1"
              (mkWithdrawForm (Some "O-") (Some 10) None) demo_state)) in
  total_units after = total_units (get_statistics demo_state) - 10
  /\ total_requests after = total_requests (get_statistics demo_state) + 1.
Proof.
  destruct (withdrawal_updates_statistics sample_now "BR-9" "DN-9" "REQ-1"
              (mkWithdrawForm (Some "O-") (Some 10) None) demo_state
              (mkRequestor "REQ-1" "Dr. Rao" (Some "City Hospital") 1)
              "O-" (mkInventoryEntry 40 []) 10
              eq_refl eq_refl eq_refl eq_refl ltac:(cbn; lia) eq_refl)
    as (Hu & Hr & _).
  split; [exact Hu|exact Hr].
Defined.

Example demo_statistics :
  get_statistics demo_state
  = mkStatistics 2 1 3 2 1 285 ["AB-"].
Proof. reflexivity. Qed.

(** ** Donors for the remaining units of a request *)

Lemma key_bz_ltb_asym a b : key_bz_ltb a b = true -> key_bz_ltb b a = false.
Proof.
  unfold key_bz_ltb. destruct a as [[|] a2], b as [[|] b2]; cbn;
    try discriminate; auto; intros H; apply Z.ltb_lt in H;
    apply Z.ltb_ge; lia.
Qed.

Lemma key_bz_ge_trans a b c :
  key_bz_ltb a b = false -> key_bz_ltb b c = false -> key_bz_ltb a c = false.
Proof.
  unfold key_bz_ltb.
  destruct a as [[|] a2], b as [[|] b2], c as [[|] c2]; cbn;
    try discriminate; auto; rewrite !Z.ltb_ge; lia.
Qed.

Definition eligible_of (now : datetime) (s : State) (request_id : string)
  (id : string) (donor : Donor) : EligibleDonor :=
  mkEligibleDonor id (donor_name donor) (donor_last_donation donor)
    (donor_total_donations donor)
    (can_donate now (donor_last_donation donor))
    (already_assigned s id request_id) (donor_blood_group donor).

(** X21: [get_eligible_donors_for_remaining] is empty for an unknown
    request and for a request with nothing remaining; otherwise it lists
    exactly the stored donors of the request's own blood group (not the
    compatible groups) that are available and active, each with its
    [can_donate] flag and whether it is already assigned; donors who can
    donate now come before those who cannot, and within each part more
    [total_donations] come first. *)
Theorem eligible_donors_exact_and_ordered (now : datetime) (s : State)
  (request_id : string) :
  let listed := get_eligible_donors_for_remaining now s request_id in
  (PyDict.get (blood_requests_db s) request_id = None -> listed = [])
  /\ (forall r, PyDict.get (blood_requests_db s) request_id = Some r ->
                req_units_needed r - req_fulfilled_units r <= 0 ->
                listed = [])
  /\ (forall r x,
        PyDict.get (blood_requests_db s) request_id = Some r ->
        req_units_needed r - req_fulfilled_units r > 0 ->
        (In x listed
         <-> exists id donor,
               In (id, donor) (donors_db s)
               /\ donor_blood_group donor = req_blood_group r
               /\ donor_available donor = true
               /\ donor_status donor = "active"
               /\ x = eligible_of now s request_id id donor))
  /\ StronglySorted
       (fun a b =>
          (ed_can_donate_now a = false -> ed_can_donate_now b = false)
          /\ (ed_can_donate_now a = ed_can_donate_now b ->
              ed_total_donations a >= ed_total_donations b))
       listed.
Proof.
  intros listed. unfold listed, get_eligible_donors_for_remaining.
  split; [now intros ->|]. split; [|split].
  - intros r -> Hle. destruct (Z.leb_spec (req_units_needed r
                                           - req_fulfilled_units r) 0);
      [reflexivity|lia].
  - intros r x -> Hgt.
    destruct (Z.leb_spec (req_units_needed r - req_fulfilled_units r) 0);
      [lia|].
    split.
    + intros Hl.
      apply (Permutation_in _ (Permutation_sym (PySortAsc.sort_asc_perm _ _)))
        in Hl.
      apply in_flat_map in Hl. destruct Hl as [[id d] [Hin Hx]].
      destruct (String.eqb_spec (donor_blood_group d) (req_blood_group r))
        as [Hg|]; cbn [negb] in Hx; [|destruct Hx].
      destruct (donor_available d) eqn:Hav; cbn [negb orb] in Hx;
        [|destruct Hx].
      destruct (String.eqb_spec (donor_status d) "active") as [Hst|];
        cbn [negb] in Hx; [|destruct Hx].
      destruct Hx as [<-|[]]. exists id, d. repeat split; auto.
    + intros (id & d & Hin & Hg & Hav & Hst & ->).
      apply (Permutation_in _ (PySortAsc.sort_asc_perm _ _)).
      apply in_flat_map. exists (id, d). split; auto.
      rewrite Hg, String.eqb_refl, Hav, Hst. cbn. left.
      unfold eligible_of. now rewrite Hg.
  - assert (Hs : forall l,
              StronglySorted
                (fun a b => key_bz_ltb (ed_key b) (ed_key a) = false)
                (PySortAsc.sort_asc
                   (fun a b => key_bz_ltb (ed_key a) (ed_key b)) l)).
    { intros l.
      apply (PySortAsc.sort_asc_sorted
               (fun a b => key_bz_ltb (ed_key a) (ed_key b))).
      - intros a b. apply key_bz_ltb_asym.
      - intros a b c. apply key_bz_ge_trans. }
    assert (Himp : forall l,
              StronglySorted
                (fun a b => key_bz_ltb (ed_key b) (ed_key a) = false) l ->
              StronglySorted
                (fun a b =>
                   (ed_can_donate_now a = false -> ed_can_donate_now b = false)
                   /\ (ed_can_donate_now a = ed_can_donate_now b ->
                       ed_total_donations a >= ed_total_donations b)) l).
    { induction 1 as [|a l Hl IH Hall]; constructor; auto.
      eapply Forall_impl; [|exact Hall]. cbv beta. intros b Hb.
      unfold key_bz_ltb, ed_key in Hb. cbn [fst snd] in Hb.
      destruct (ed_can_donate_now a), (ed_can_donate_now b); cbn in Hb;
        try discriminate; split; try congruence; intros _;
        apply Z.ltb_ge in Hb; lia. }
    destruct (PyDict.get (blood_requests_db s) request_id) as [r|];
      [|constructor].
    destruct (_ <=? 0); [constructor|]. apply Himp, Hs.
Qed.

Example demo_eligible_donors :
  map (fun x => (ed_donor_id x, ed_can_donate_now x, ed_is_already_assigned x))
      (get_eligible_donors_for_remaining sample_now demo_state "BR-1")
  = [("DON-2", true, true)]
  /\ get_eligible_donors_for_remaining sample_now demo_state "BR-3" = []
  /\ get_eligible_donors_for_remaining sample_now demo_state "BR-9" = [].
Proof. repeat split. Qed.

(** ** Registration and filing *)

(** X22: [donor_register] rejects an age outside 18..65, then a weight
    below 50, changing nothing.  Otherwise it succeeds for any blood
    group text: the donor is stored available, active, with no donation
    yet -- so [can_donate] holds at once and the eligibility score is 120
    for an age in 25..45 and 110 otherwise -- and the donor is in the
    donor list of the group's inventory entry, which is created with 0
    units if the group was not in the inventory and keeps its units
    otherwise. *)
Theorem donor_register_outcomes (new_id : string) (form : RegisterForm)
  (s : State) :
  let result := donor_register new_id form s in
  let age := rf_age form in
  (age < 18 \/ 65 < age -> result = (FlashError AgeOutOfRange, s))
  /\ (18 <= age <= 65 -> rf_weight_below_50 form = true ->
      result = (FlashError WeightTooLow, s))
  /\ (18 <= age <= 65 -> rf_weight_below_50 form = false ->
      fst result = FlashSuccess
      /\ (exists donor,
            PyDict.get (donors_db (snd result)) new_id = Some donor
            /\ donor_blood_group donor = rf_blood_group form
            /\ donor_available donor = true
            /\ donor_status donor = "active"
            /\ donor_total_donations donor = 0
            /\ donor_last_donation donor = None
            /\ forall now,
                 can_donate now (donor_last_donation donor) = true
                 /\ calculate_donor_eligibility now donor
                    = if (25 <=? age) && (age <=? 45) then 120 else 110)
      /\ (exists entry,
            PyDict.get (blood_inventory (snd result)) (rf_blood_group form)
            = Some entry
            /\ In new_id (inv_donors entry)
            /\ inv_units entry = inventory_units s (rf_blood_group form))).
Proof.
  intros result age. unfold result, donor_register.
  cbn [donor_age donor_blood_group]. fold age.
  split; [|split].
  - intros Hage.
    replace ((age <? 18) || (65 <? age)) with true; [reflexivity|].
    symmetry. apply orb_true_iff.
    destruct Hage; [left; apply Z.ltb_lt|right; apply Z.ltb_lt]; lia.
  - intros Hage Hw.
    replace ((age <? 18) || (65 <? age)) with false
      by (symmetry; apply orb_false_iff; split; apply Z.ltb_ge; lia).
    now rewrite Hw.
  - intros Hage Hw.
    replace ((age <? 18) || (65 <? age)) with false
      by (symmetry; apply orb_false_iff; split; apply Z.ltb_ge; lia).
    rewrite Hw.
    set (s1 := set_donors s _).
    assert (Hentry : forall s2 e,
              donors_db s2 = donors_db s1 ->
              PyDict.get (blood_inventory s2) (rf_blood_group form) = Some e ->
              inv_units e = inventory_units s (rf_blood_group form) ->
              let result := (FlashSuccess,
                             set_inventory s2
                               (PyDict.set (blood_inventory s2)
                                  (rf_blood_group form)
                                  (inv_add_donor e new_id))) in
              fst result = FlashSuccess
              /\ (exists donor,
                    PyDict.get (donors_db (snd result)) new_id = Some donor
                    /\ donor_blood_group donor = rf_blood_group form
                    /\ donor_available donor = true
                    /\ donor_status donor = "active"
                    /\ donor_total_donations donor = 0
                    /\ donor_last_donation donor = None
                    /\ forall now,
                         can_donate now (donor_last_donation donor) = true
                         /\ calculate_donor_eligibility now donor
                            = if (25 <=? age) && (age <=? 45)
                              then 120 else 110)
              /\ (exists entry,
                    PyDict.get (blood_inventory (snd result))
                               (rf_blood_group form) = Some entry
                    /\ In new_id (inv_donors entry)
                    /\ inv_units entry
                       = inventory_units s (rf_blood_group form))).
    { intros s2 e Hdb He Hunits res. unfold res. cbn [fst snd].
      split; [reflexivity|]. split.
      - cbn [set_inventory donors_db]. rewrite Hdb. unfold s1.
        cbn [set_donors donors_db].
        eexists. split; [apply PyDict.get_set_same|].
        cbn [donor_blood_group donor_available donor_status
             donor_total_donations donor_last_donation].
        do 5 (split; [reflexivity|]).
        intros now. split; [reflexivity|].
        unfold calculate_donor_eligibility.
        cbn [donor_age donor_available donor_last_donation
             donor_total_donations PyStr.opt_truthy negb]. fold age.
        destruct ((25 <=? age) && (age <=? 45)) eqn:E1; [reflexivity|].
        replace ((age <? 18) || (65 <? age)) with false
          by (symmetry; apply orb_false_iff; split; apply Z.ltb_ge; lia).
        reflexivity.
      - cbn [set_inventory blood_inventory].
        eexists. split; [apply PyDict.get_set_same|]. split.
        + unfold inv_add_donor.
          destruct (str_in new_id (inv_donors e)) eqn:Hin.
          * now apply str_in_In.
          * cbn [inv_donors]. apply in_or_app. right. now left.
        + now rewrite inv_add_donor_units. }
    unfold PyDict.mem.
    destruct (PyDict.get (blood_inventory s1) (rf_blood_group form))
      as [e|] eqn:He; cbn [negb].
    + rewrite He. apply Hentry; auto.
      unfold inventory_units.
      change (blood_inventory s) with (blood_inventory s1). now rewrite He.
    + set (s2 := set_inventory s1 _).
      assert (H2 : PyDict.get (blood_inventory s2) (rf_blood_group form)
                   = Some (mkInventoryEntry 0 []))
        by apply PyDict.get_set_same.
      rewrite H2. apply Hentry; auto.
      unfold inventory_units.
      change (blood_inventory s) with (blood_inventory s1). now rewrite He.
Qed.

Lemma or_else_some_empty x : PyStr.or_else (Some x) "" = x.
Proof. now destruct x. Qed.

(** X23: [request_blood] always succeeds -- [units_needed] is not
    checked -- and stores the request as pending with nothing fulfilled;
    its [matched_donors] are at most 10 ids, each the id of a donor that
    [get_compatible_donors] finds for the request's group and city.  The
    counter of the named requestor rises by one when that requestor is
    registered; otherwise (guest or unknown id) no requestor changes. *)
Theorem request_blood_outcome (now : datetime) (request_id : string)
  (form : RequestForm) (s : State) :
  let result := request_blood now request_id form s in
  let rid := str_or (qf_requestor_id form) "GUEST" in
  fst result = FlashSuccess
  /\ (exists r,
        PyDict.get (blood_requests_db (snd result)) request_id = Some r
        /\ req_status r = Pending
        /\ req_fulfilled_units r = 0
        /\ req_units_needed r = qf_units_needed form
        /\ req_blood_group r = qf_blood_group form
        /\ (List.length (req_matched_donors r) <= 10)%nat
        /\ forall id,
             In id (req_matched_donors r) ->
             exists d,
               donor_id d = id
               /\ In d (get_compatible_donors s (qf_blood_group form)
                          (Some (str_or (qf_city form) ""))))
  /\ match PyDict.get (requestors_db s) rid with
     | Some q =>
         exists q',
           PyDict.get (requestors_db (snd result)) rid = Some q'
           /\ requestor_total_requests q' = requestor_total_requests q + 1
     | None => requestors_db (snd result) = requestors_db s
     end.
Proof.
  intros result rid. unfold result, request_blood.
  cbn [fst snd set_requests blood_requests_db requestors_db req_requestor_id].
  fold rid.
  split; [reflexivity|]. split.
  - eexists. split; [apply PyDict.get_set_same|].
    cbn [req_set_matched req_status req_fulfilled_units req_units_needed
         req_blood_group req_matched_donors].
    repeat (split; [reflexivity|]).
    split.
    + rewrite length_map. unfold match_blood_request.
      cbn [compatible_donors]. apply firstn_le_length.
    + intros id Hid. apply in_map_iff in Hid.
      destruct Hid as (sd & <- & Hsd).
      unfold match_blood_request in Hsd. cbn [compatible_donors] in Hsd.
      apply in_firstn in Hsd.
      apply (Permutation_in _ (Permutation_sym
               (PySort.sort_desc_perm _ _))) in Hsd.
      apply in_map_iff in Hsd. destruct Hsd as (d & <- & Hd).
      exists d. split; [reflexivity|].
      cbn [req_blood_group req_location] in Hd.
      rewrite or_else_some_empty in Hd.
      destruct (PyDict.get (requestors_db s) rid); exact Hd.
  - destruct (PyDict.get (requestors_db s) rid) as [q|].
    + cbn [set_requests set_requestors requestors_db].
      eexists. split; [apply PyDict.get_set_same|reflexivity].
    + reflexivity.
Qed.

Example request_blood_in_demo :
  let result :=
    request_blood sample_now "BR-9"
      (mkRequestForm (Some "REQ-1") "P9" "A+" 0 "City Hospital" (Some "")
                     (Some "critical")) demo_state in
  option_map (fun r => (req_status r, req_units_needed r, req_matched_donors r))
             (PyDict.get (blood_requests_db (snd result)) "BR-9")
  = Some (Pending, 0, ["DON-1"; "DON-2"])
  /\ option_map requestor_total_requests
                (PyDict.get (requestors_db (snd result)) "REQ-1") = Some 2.
Proof. split; reflexivity. Qed.

(** ** Remaining helpers *)

(** X24: [record_donation] for a donor whose blood group is not in the
    inventory still reports success: the donation is stored and the
    donor's counter and [last_donation] are updated, but
    [update_inventory] silently does nothing, so no stock records the
    units. *)
Theorem record_donation_group_missing (now : datetime)
  (donation_id id : string) (units : option Z) (s : State) (donor : Donor) :
  PyDict.get (donors_db s) id = Some donor ->
  can_donate now (donor_last_donation donor) = true ->
  PyDict.get (blood_inventory s) (donor_blood_group donor) = None ->
  let result := record_donation now donation_id id units s in
  fst result = FlashSuccess
  /\ blood_inventory (snd result) = blood_inventory s
  /\ (exists d,
        PyDict.get (donations_db (snd result)) donation_id = Some d
        /\ don_units d = int_or units 1
        /\ don_blood_group d = donor_blood_group donor)
  /\ (exists donor',
        PyDict.get (donors_db (snd result)) id = Some donor'
        /\ donor_total_donations donor' = donor_total_donations donor + 1
        /\ donor_last_donation donor' = Some (strftime_ymd now)).
Proof.
  intros Hd Hc He result. unfold result, record_donation.
  rewrite Hd, Hc. cbn [negb fst snd donor_set_donated donor_blood_group].
  set (s1 := set_donors _ _).
  assert (Hs2 : update_inventory s1 (donor_blood_group donor)
                                 (int_or units 1) Add = s1).
  { unfold update_inventory.
    change (blood_inventory s1) with (blood_inventory s). now rewrite He. }
  rewrite Hs2. unfold s1.
  cbn [set_donors set_donations blood_inventory donations_db donors_db].
  split; [reflexivity|]. split; [reflexivity|]. split.
  - eexists. split; [apply PyDict.get_set_same|]. split; reflexivity.
  - eexists. split; [apply PyDict.get_set_same|]. split; reflexivity.
Qed.

Lemma record_donation_group_missing_witness :
  let s := mkState
             [("DON-1", mkDonor "DON-1" "Asha" 30 "O-" "Pune" "MH" true
                                "active" 4 None)]
             [] [] [] [] [("A+", mkInventoryEntry 50 [])] in
  let result := record_donation sample_now "DN-1" "DON-1" (Some 2) s in
  fst result = FlashSuccess
  /\ blood_inventory (snd result) = [("A+", mkInventoryEntry 50 [])].
Proof.
  destruct (record_donation_group_missing sample_now "DN-1" "DON-1" (Some 2)
              (mkState
                 [("DON-1", mkDonor "DON-1" "Asha" 30 "O-" "Pune" "MH" true
                                    "active" 4 None)]
                 [] [] [] [] [("A+", mkInventoryEntry 50 [])])
              (mkDonor "DON-1" "Asha" 30 "O-" "Pune" "MH" true "active" 4
                       None)
              eq_refl eq_refl eq_refl) as (Hf & Hi & _).
  split; [exact Hf|exact Hi].
Defined.

(** X25: the two views of a request's assignments agree: when the
    request exists, [get_matching_donors_for_request] has one entry per
    entry of [get_request_assigned_donors], in the same order, carrying
    that assignment's id, donor, units offered and status and the donor's
    name and group; when the request does not exist the former is empty
    whatever assignments point to it. *)
Theorem matching_donors_mirror_assigned_donors (s : State)
  (request_id : string) :
  (PyDict.get (blood_requests_db s) request_id = None ->
   get_matching_donors_for_request s request_id = [])
  /\ (PyDict.get (blood_requests_db s) request_id <> None ->
      get_matching_donors_for_request s request_id
      = map (fun ad : Assignment * Donor =>
               mkMatchingDonor (asg_assignment_id (fst ad))
                 (asg_donor_id (fst ad)) (donor_name (snd ad))
                 (donor_blood_group (snd ad)) (asg_units_offered (fst ad))
                 (asg_status (fst ad)))
            (get_request_assigned_donors s request_id)).
Proof.
  unfold get_matching_donors_for_request, get_request_assigned_donors.
  destruct (PyDict.get (blood_requests_db s) request_id) as [r|];
    split; try reflexivity; try discriminate; try congruence.
  intros _.
  induction (PyDict.values (donor_request_assignments s)) as [|a l IH];
    [reflexivity|].
  cbn [flat_map]. rewrite map_app, IH. f_equal.
  destruct (String.eqb (asg_request_id a) request_id); [|reflexivity].
  destruct (PyDict.get (donors_db s) (asg_donor_id a)); reflexivity.
Qed.

(** X26: in [app_aws.py] the matcher reads the stock from a dictionary
    built over the scanned inventory items: when several items carry the
    request's blood group the last one scanned decides
    [exact_match_inventory] (the units are not added up), and without
    such an item it is 0. *)
Theorem aws_exact_match_inventory_last_item (now : datetime)
  (donors : list Donor) (inventory_items : list AppAws.InventoryItem)
  (request : BloodRequest) :
  exact_match_inventory
    (AppAws.match_blood_request now donors inventory_items request)
  = match find (fun i => String.eqb (AppAws.item_blood_group i)
                                    (req_blood_group request))
               (rev inventory_items) with
    | Some i => AppAws.item_units i
    | None => 0
    end.
Proof.
  unfold AppAws.match_blood_request. cbn [exact_match_inventory].
  unfold AppAws.inventory_map. rewrite aws_inventory_fold.
  now destruct (find _ (rev inventory_items)).
Qed.

Example aws_duplicate_items :
  exact_match_inventory
    (AppAws.match_blood_request sample_now []
       [AppAws.mkInventoryItem "O-" 7; AppAws.mkInventoryItem "A+" 5;
        AppAws.mkInventoryItem "O-" 2]
       (mkBloodRequest "BR-1" "GUEST" "P" "O-" 5 0 "H" None "normal" Pending
                       "2025-01-30 08:00:00" [] None None))
  = 2.
Proof. reflexivity. Qed.

(** ** Start-up *)

(** A first start, with nothing on disk, leaves the six sample donors, the
    sample requestor and the sample request in the stores, every sample
    donor in the donor list of its blood group and the units of
    [DEFAULT_INVENTORY] as they are; these stores satisfy the invariants
    the routes preserve.  With a donor, requestor or request loaded from
    disk [init_sample_data] changes nothing. *)
Lemma first_start_stores :
  exists s,
    init_sample_data initial_state = Some s
    /\ PyDict.values (donors_db s) = sample_donors
    /\ PyDict.values (requestors_db s) = sample_requestors
    /\ PyDict.values (blood_requests_db s) = sample_requests
    /\ donations_db s = [] /\ donor_request_assignments s = []
    /\ map (fun kv => (fst kv, inv_units (snd kv), inv_donors (snd kv)))
           (blood_inventory s)
       = [ ("A+", 50, ["DON-E5F6G7H8"]); ("A-", 30, ["DON-A2B3C4D5"]);
           ("B+", 45, []); ("B-", 25, ["DON-I9J0K1L2"]);
           ("AB+", 20, ["DON-Q7R8S9T0"]); ("AB-", 15, []);
           ("O+", 60, ["DON-A1B2C3D4"]); ("O-", 40, ["DON-M3N4O5P6"]) ]
    /\ inventory_nonneg s /\ requests_ok s /\ stores_keyed s
    /\ donors_written s.
Proof.
  eexists. split; [vm_compute; reflexivity|].
  do 6 (split; [reflexivity|]).
  split; [|split; [|split]].
  - unfold inventory_nonneg; cbn.
    repeat (apply Forall_cons; [cbn; lia|]). apply Forall_nil.
  - unfold requests_ok, request_invariant; cbn.
    apply Forall_cons; [|apply Forall_nil]. cbn.
    split; [discriminate|lia].
  - unfold stores_keyed, keyed; cbn.
    repeat split;
      repeat (apply Forall_cons; [reflexivity|]); apply Forall_nil.
  - unfold donors_written, last_donation_written; cbn.
    repeat (apply Forall_cons; [cbn; discriminate|]). apply Forall_nil.
Qed.

Lemma init_sample_data_loaded s :
  donors_db s <> [] \/ requestors_db s <> []
  \/ blood_requests_db s <> [] ->
  init_sample_data s = Some s.
Proof.
  unfold init_sample_data, dict_truthy.
  destruct (donors_db s), (requestors_db s), (blood_requests_db s);
    cbn [orb]; try reflexivity.
  intros [H|[H|H]]; now elim H.
Qed.
